(* ===== verification/_CoqProject ===== *)
-Q . S2P
Prelude.v
PyValue.v
Status.v
Ident.v
Clock.v
Composer.v
Utf8.v
Config.v
Pipeline.v
Base64.v
Api.v
Integration.v
Logging.v
Main.v
Server.v
