(* ===== verification/Prelude.v ===== *)
(** * A verification development of the SiH certificate backend

    The program is one Flask module, [src/app.py].  It turns a JSON object
    of free-text attributes describing a data-sanitisation run into an HTML
    certificate ([create_certificate_html]), writes it to a temporary file,
    has the external wkhtmltopdf renderer (through pdfkit) convert it into
    a PDF, removes the file ([create_certificate]), and serves the result
    from five Flask routes.  The files, in dependency order, and what they
    model:

    - [Prelude] (this file): Python [str] values as lists of code points
      ([pystr]), the [str] operations the program uses ([in], [lower],
      [upper], slicing), decimal printing, and the result monad [res] whose
      errors are the Python exceptions the program raises or catches
      ([exc]), with the notation [x <- c ;; k] in [py_scope]; the hint
      databases [pycert] (resolution) and [pyrw] (rewriting) and the
      lemmas on lists, options and bits the components share.
    - [PyValue]: the JSON scalars [request.get_json()] gives the
      attributes ([value]), with Python's truthiness, [str()], [.lower()]
      and [[:10]] (raising [AttributeError]/[TypeError] on non-strings as
      CPython does), and [dict.get] on the attribute map ([attrs], a stdpp
      [gmap]).
    - [Status] (Module [Status]): [get_status_badge_style] (lines 71-82)
      and the spec's three-way [classify_status] as its abstract
      specification.
    - [Ident] (Module [Ident]): [uuid.uuid4()] from its sixteen random
      bytes with CPython's version and variant masks, [UUID.hex], and the
      generated identifier [f'CERT-{uuid.uuid4().hex[:8].upper()}']
      (line 89).
    - [Clock] (Module [Clock]): [datetime] values and the three formats the
      code prints ([strftime] twice, [isoformat]).
    - [Composer] (Module [Composer]): [create_certificate_html] (lines
      84-757), the whole f-string cut into regions of literal text and
      replacement fields, evaluated left to right by [fstring] so that the
      first exception wins.
    - [Utf8] (Module [Utf8]): the text-mode write of the temporary file:
      newline translation and CPython's strict UTF-8 encoder with its
      [UnicodeEncodeError] on surrogates; [utf8_decode] is the RFC 3629
      decoder the reader applies.
    - [Config] (Module [Config]): the constructor's [options] dict and
      [setup_wkhtmltopdf_config] (lines 20-69).
    - [Pipeline] (Module [Pipeline]): [create_certificate] (lines 759-797)
      as a machine over the shared file system ([fs], a [gmap] from paths
      to bytes): a request is a process ([proc]) whose program counter
      ([pc]) runs through the [NamedTemporaryFile] name loop with [O_EXCL],
      the write, the pdfkit call, and the [finally]'s [os.path.exists] and
      [os.unlink], one atomic file-system operation per [step].  [exec]
      runs a request alone, [proc_step] interleaves the requests of a
      server ([run_schedule] runs a given interleaving), and [sys_step]
      adds other processes of the machine; [run_events] runs an explicit
      trace of [event]s (a request's step, a file created or removed by
      another process), each a path of [sys_step].  pdfkit and wkhtmltopdf
      are the typeclass interface [PdfRenderer], whose laws (one call fails
      on a missing input file and returns bytes) are all the theorems
      assume; nothing relates two calls, since wkhtmltopdf stamps each PDF
      with its creation date, the template loads a remote font (line 101)
      and [enable-local-file-access] lets the page read any local file, so
      every theorem is about the result of one call.  [pdfkit_renderer] is
      an instance built from any [Wkhtmltopdf] binary.
    - [Base64] (Module [Base64]): [base64.b64encode] (line 812) and an
      RFC 4648 decoder written from the standard's ranges, not from the
      encoder's table.
    - [Api] (Module [Api]): the five route functions (lines 801-896) as
      functions of what [request.get_json()] returned or raised, the clock
      readings, the random draws and the file system.
    - [Integration] (Module [Integration]): the composition of the composer
      and the pipeline: well-formed texts ([good_str], no surrogate and no
      code point above U+10FFFF) are closed under every region of the
      f-string, and [render_contract] is what [create_certificate] promises
      the renderer's caller.
    - [Logging] (Module [Logging]): the log (lines 15-17 and the sixteen
      [logger] calls) as the trace of records a run produces: [lstep] is
      [Pipeline.step] with the records each operation's code logs, and
      [exec_log], [run_request_log] and [create_certificate_log] run it as
      the pipeline does; [handler_log] and [preview_log] are the handlers'
      records, [setup_log] and [cert_generator] the constructor's at
      start-up (line 800), and [stderr_text] what
      [logging.basicConfig(level=logging.INFO)] writes of them.
    - [Main] (Module [Main]): the [if __name__ == '__main__'] block (lines
      898-950): its ten [print] calls as writes to [sys.stdout], a text
      stream that translates ["\n"] to [os.linesep] and then encodes
      ([text_stream]; [StreamCodec], with UTF-8 and cp1252 instances after
      CPython's codecs), the first exception ending the block, then the
      arguments of [app.run]; and CPython's Mac Roman table, which explains
      the program's non-ASCII text.
    - [Server] (Module [Server]): the Flask application around the
      handlers: the URL map of the five [@app.route] decorators with the
      HEAD and OPTIONS methods Flask adds ([url_map], [route]), dispatch to
      the views ([view], [dispatch]), an exception escaping a view under
      [debug=True] (the debugger's page) or not (500), and the
      [Access-Control-Allow-Origin] header of [CORS(app)] ([serve]).

    What the theorems show, by group: the composer succeeds on every
    attribute set of strings and raises exactly on the non-string values
    the code calls [.lower()] or slices, puts the resolved identifier in
    every slot, shows every grid attribute in its slot as [data.get(key,
    'N/A')], and depends on the clock
    only in the footer; the badge style refines the spec's
    classification; a generated identifier is the first four random bytes
    in hexadecimal, so identifiers collide only when those bytes do; the
    UTF-8 write keeps every character or raises on the first surrogate
    run; a request alone removes its file on every path out of the [try],
    but leaks an empty file when the write raises; concurrent requests
    never share a temporary file (an invariant of every interleaving,
    proved by rule induction), and the [finally] never masks the result
    unless another process removes the file between [exists] and
    [unlink], in which case it does; the buffer the pipeline returns
    reaches the client unchanged from either generating endpoint (as base64
    text that the independent decoder maps back to its bytes, or as the
    download); the handlers' status codes and error answers.  Every run of
    a request ends (termination, by the measure [pc_measure]), and in any
    run of the machine, whatever files other processes create or remove, a
    request scheduled as often as its measure has its result (liveness); the composed pipeline refines the render contract and
    leaves no residue when the attribute values are well formed; composed
    documents are well-formed text.  The main block, on any stream, writes
    the lines before the first failing [print] and stops there without
    reaching [app.run] (on a redirected cp1252 Windows stream, at the
    first line); every non-ASCII text of the source (banner, template
    icons, sample values) is the Mac Roman reading of the UTF-8 bytes of
    the symbol meant, checked by evaluation ([Main.banner_mojibake],
    [Main.certificate_mojibake]).
    Logging changes no result ([Logging.create_certificate_log_fst]); a
    request logs seven records in order when it succeeds and four when its
    write fails, none of them naming the file it leaks; every 500 answer
    of [/generate-certificate] is logged with its exception's text; every
    record passes the INFO threshold.  Only POSTs to the two generating
    routes touch the file system; the routing of every method and path
    (view, automatic OPTIONS, 405 with the allowed methods, 404) follows
    the decorators; under the main block's configuration a POST to
    [/api/test] with a numeric body yields the debugger's page, the one
    answer without a CORS header.

    Bounds and fuel.  [Pipeline.exec] takes fuel; [run_request] gives it
    [TMP_MAX + 5], the [TMP_MAX] names the name loop can try (CPython's
    [os.TMP_MAX], 238328 on glibc) and the four steps after it, and
    [run_request_closed] proves that this is enough: the fallback branch
    of [run_request] is never taken.  [dec_N] prints with one digit per
    bit of fuel, more than the digits of any number.  [pc_measure]
    counts the steps left to a request: [n + 5] at [Open n _], then 4 to
    0 through [Write], [Render], [Exists], [Unlink] and [Done]; every step
    of a request not yet done lowers it by one at least, so a fresh
    request ([Open TMP_MAX 0]) needs [TMP_MAX + 5] steps, the fuel of
    [run_request].  Code points are kept
    at most U+10FFFF, bytes below 256, as their theorems state.

    Strings.  [pystr] is [list N]; literals are written [lit "..."] from
    ASCII Rocq strings, in which a backquote stands for the double quote
    character (Rocq string literals cannot hold one).  [str.lower] and
    [str.upper] are modelled on the ASCII range and leave other code
    points unchanged: the status vocabularies are ASCII, and the only
    non-ASCII code points whose full lower-case mapping contains an ASCII
    letter are U+212A (to [k], which no vocabulary word contains) and
    U+0130 (to [i] followed by U+0307, which cannot complete [fail]), so
    the classification is exact; the [.lower()] of the verification link
    is exact on ASCII identifiers, which include every generated one.

    What is not modelled: the JSON parser and Flask's serialisation of
    the [jsonify] dict (the model starts from the parsed value and ends
    at the dict); floating point
    numbers, arrays and objects as attribute values; the inside of
    wkhtmltopdf, which the pipeline takes as the [PdfRenderer] interface;
    [tempfile.gettempdir()], [os.linesep], the platform name and the
    environment, which are inputs; failures of [os.open] other than an
    existing name (a missing or unwritable temporary directory).  The
    text of [traceback.format_exc()] depends on the interpreter's frames
    and is an input of the log.  Of Flask, werkzeug and flask-cors, only
    what [Server] lists is modelled: request parsing is the [res payload]
    the handlers receive, the serialisation of responses, the other
    headers of a CORS preflight and the development server itself (its
    threads, its reloader, which [debug=True] enables and which
    runs the main block a second time in a child process) are not
    modelled.
*)

From stdpp Require Export base list gmap.
From Stdlib Require Export NArith ZArith.
From Stdlib Require Import String Ascii.
Export String.StringSyntax.
From Stdlib Require Import Lia.

Declare Scope py_scope.
Delimit Scope py_scope with py.

(** ** Python strings *)

(** A Python [str]: its sequence of code points. *)
Abbreviation pystr := (list N).

(** The code point of an ASCII character of a literal; the backquote stands
    for the double quote. *)
Definition lit_cp (c : ascii) : N :=
  if Ascii.eqb c "`"%char then 34%N else N_of_ascii c.

Fixpoint lit (s : string) : pystr :=
  match s with
  | EmptyString => []
  | String c r => lit_cp c :: lit r
  end.
Arguments lit s%_string_scope.

(** Source lines of a multi-line literal, joined by newlines. *)
Fixpoint lines (ls : list pystr) : pystr :=
  match ls with
  | [] => []
  | [l] => l
  | l :: r => l ++ [10%N] ++ lines r
  end.

Definition newline : pystr := [10%N].

(** [str.lower] and [str.upper] on one code point (ASCII range). *)
Definition lower_cp (c : N) : N :=
  if (65 <=? c)%N && (c <=? 90)%N then (c + 32)%N else c.
Definition upper_cp (c : N) : N :=
  if (97 <=? c)%N && (c <=? 122)%N then (c - 32)%N else c.

Definition py_lower (s : pystr) : pystr := map lower_cp s.
Definition py_upper (s : pystr) : pystr := map upper_cp s.

(** [s.startswith(p)]. *)
Fixpoint starts_with (p s : pystr) : bool :=
  match p, s with
  | [], _ => true
  | _ :: _, [] => false
  | a :: p', b :: s' => bool_decide (a = b) && starts_with p' s'
  end.

(** [needle in hay] for two [str]s: a substring test. *)
Fixpoint py_in (needle hay : pystr) : bool :=
  starts_with needle hay ||
  match hay with
  | [] => false
  | _ :: hay' => py_in needle hay'
  end.

(** Slicing [s[:n]] with [n >= 0]. *)
Definition py_slice_to (n : nat) (s : pystr) : pystr := take n s.

(** ** Decimal printing ([str] of a non-negative integer) *)

Definition digit_cp (d : N) : N := (48 + d)%N.

(** The decimal digits of [n], most significant first; [fuel] bounds the
    number of digits. *)
Fixpoint dec_fuel (fuel : nat) (n : N) : pystr :=
  match fuel with
  | O => []
  | S f =>
      if (n <? 10)%N then [digit_cp n]
      else dec_fuel f (n / 10)%N ++ [digit_cp (n mod 10)%N]
  end.

Definition dec_N (n : N) : pystr := dec_fuel (S (N.size_nat n)) n.

Lemma dec_fuel_digits k n : Forall (fun c => 48 <= c < 58)%N (dec_fuel k n).
Proof.
  revert n. induction k as [|k IH]; intros n; simpl; [constructor|].
  destruct (N.ltb_spec n 10).
  - apply List.Forall_cons; [unfold digit_cp; lia | apply List.Forall_nil].
  - apply Forall_app. split; [apply IH|]. pose proof (N.mod_lt n 10 ltac:(lia)) as Hd.
    revert Hd. generalize (n mod 10)%N. intros d Hd.
    apply List.Forall_cons; [unfold digit_cp; lia | apply List.Forall_nil].
Qed.

Lemma dec_N_digits n : Forall (fun c => 48 <= c < 58)%N (dec_N n).
Proof. apply dec_fuel_digits. Qed.

(** [str(z)] for a Python [int]. *)
Definition dec_Z (z : Z) : pystr :=
  if (z <? 0)%Z then 45%N :: dec_N (Z.to_N (- z)) else dec_N (Z.to_N z).

(** [%0wd]: the last [w] decimal digits of [n], zero-padded. *)
Fixpoint pad_dec (w : nat) (n : N) : pystr :=
  match w with
  | O => []
  | S w' => pad_dec w' (n / 10)%N ++ [digit_cp (n mod 10)%N]
  end.

(** ** Python exceptions and the result monad *)

(** The exceptions the program raises, catches or lets escape, with what
    [str(e)] prints for them; [HTTPException] is werkzeug's, which
    [request.get_json()] raises on a body it cannot parse. *)
Inductive exc :=
  | TypeError (msg : pystr)
  | AttributeError (msg : pystr)
  | UnicodeEncodeError (msg : pystr)
  | UnicodeDecodeError (msg : pystr)
  | OSError (msg : pystr)
  | FileExistsError (msg : pystr)
  | FileNotFoundError (msg : pystr)
  | HTTPException (msg : pystr).

Definition exc_str (e : exc) : pystr :=
  match e with
  | TypeError m | AttributeError m | UnicodeEncodeError m | UnicodeDecodeError m
  | OSError m | FileExistsError m | FileNotFoundError m | HTTPException m => m
  end.

(** A computation that returns a value or raises. *)
Inductive res (A : Type) :=
  | Ok (a : A)
  | Raise (e : exc).
Arguments Ok {A} a.
Arguments Raise {A} e.

Definition res_bind {A B} (c : res A) (k : A -> res B) : res B :=
  match c with
  | Ok a => k a
  | Raise e => Raise e
  end.

Definition res_map {A B} (f : A -> B) (c : res A) : res B :=
  res_bind c (fun a => Ok (f a)).

Notation "x <- c ;; k" := (res_bind c (fun x => k))
  (at level 100, c at next level, right associativity) : py_scope.

Open Scope py_scope.

Definition is_ok {A} (c : res A) : bool :=
  match c with Ok _ => true | Raise _ => false end.

(** [l1] occurs as a contiguous segment of [l2]. *)
Definition segment_of {A} (l1 l2 : list A) : Prop := exists pre post, l2 = pre ++ l1 ++ post.

(** ** Generic lemmas *)

Create HintDb pycert.
Create Rewrite HintDb pyrw.

Lemma res_bind_ok {A B} (a : A) (k : A -> res B) : res_bind (Ok a) k = k a.
Proof. reflexivity. Qed.

Lemma res_bind_raise {A B} (e : exc) (k : A -> res B) : res_bind (Raise e) k = Raise e.
Proof. reflexivity. Qed.

Lemma res_bind_Ok_inv {A B} (c : res A) (k : A -> res B) (b : B) :
  res_bind c k = Ok b -> exists a, c = Ok a /\ k a = Ok b.
Proof. destruct c; simpl; [eauto | discriminate]. Qed.

#[export] Hint Rewrite @res_bind_ok @res_bind_raise : pyrw.

Lemma lit_app (s t : string) : lit (s ++ t) = lit s ++ lit t.
Proof. induction s; simpl; [done | by rewrite IHs]. Qed.

#[export] Hint Rewrite lit_app : pyrw.

Lemma starts_with_app (p s : pystr) : starts_with p (p ++ s) = true.
Proof. induction p; simpl; [done|]. rewrite bool_decide_eq_true_2; auto. Qed.

Lemma starts_with_spec (p s : pystr) :
  starts_with p s = true <-> exists r, s = p ++ r.
Proof.
  revert s; induction p as [|a p IH]; intros s; simpl.
  - split; eauto.
  - destruct s as [|b s]; split.
    + discriminate.
    + intros [r Hr]; discriminate.
    + intros [Hab%bool_decide_eq_true Hp]%andb_prop.
      apply IH in Hp as [r ->]; subst; eauto.
    + intros [r Hr]; injection Hr as -> ->.
      rewrite bool_decide_eq_true_2 by done. simpl. apply starts_with_app.
Qed.

(** [py_in] is the substring relation. *)
Lemma py_in_spec (p s : pystr) :
  py_in p s = true <-> exists a b, s = a ++ p ++ b.
Proof.
  induction s as [|c s IH]; simpl.
  - rewrite orb_false_r, starts_with_spec. split.
    + intros [r Hr]. exists [], r. done.
    + intros [a [b Hab]]. destruct a, p; try discriminate. eauto.
  - rewrite orb_true_iff, starts_with_spec, IH. split.
    + intros [[r Hr] | [a [b Hab]]].
      * exists [], r. done.
      * exists (c :: a), b. by rewrite Hab.
    + intros [a [b Hab]]. destruct a as [|x a].
      * left. eauto.
      * right. injection Hab as -> ->. eauto.
Qed.

Lemma py_in_app_mid (a p b : pystr) : py_in p (a ++ p ++ b) = true.
Proof. apply py_in_spec. eauto. Qed.

Lemma py_in_app_l (p s t : pystr) : py_in p s = true -> py_in p (s ++ t) = true.
Proof.
  rewrite !py_in_spec. intros [a [b ->]]. exists a, (b ++ t).
  by rewrite <- !app_assoc.
Qed.

Lemma py_in_app_r (p s t : pystr) : py_in p t = true -> py_in p (s ++ t) = true.
Proof.
  rewrite !py_in_spec. intros [a [b ->]]. exists (s ++ a), b.
  by rewrite <- !app_assoc.
Qed.

Lemma py_in_trans (p q s : pystr) :
  py_in p q = true -> py_in q s = true -> py_in p s = true.
Proof.
  rewrite !py_in_spec. intros [a [b ->]] [c [d ->]].
  exists (c ++ a), (b ++ d). by rewrite <- !app_assoc.
Qed.

#[export] Hint Resolve py_in_app_mid py_in_app_l py_in_app_r : pycert.

Lemma lower_cp_idem (c : N) : lower_cp (lower_cp c) = lower_cp c.
Proof.
  unfold lower_cp.
  destruct ((65 <=? c)%N && (c <=? 90)%N) eqn:E; rewrite ?E; [|done].
  apply andb_prop in E as [E1 E2]. apply N.leb_le in E1, E2.
  replace ((65 <=? c + 32)%N && (c + 32 <=? 90)%N) with false; [done|].
  symmetry. apply andb_false_iff. right. apply N.leb_gt. lia.
Qed.

Lemma lower_upper_cp (c : N) : lower_cp (upper_cp c) = lower_cp c.
Proof.
  unfold lower_cp, upper_cp.
  destruct ((97 <=? c)%N && (c <=? 122)%N) eqn:E.
  - apply andb_prop in E as [E1 E2]. apply N.leb_le in E1, E2.
    replace ((65 <=? c - 32)%N && (c - 32 <=? 90)%N) with true
      by (symmetry; apply andb_true_iff; split; apply N.leb_le; lia).
    replace ((65 <=? c)%N && (c <=? 90)%N) with false
      by (symmetry; apply andb_false_iff; right; apply N.leb_gt; lia).
    lia.
  - done.
Qed.

Lemma py_lower_idem (s : pystr) : py_lower (py_lower s) = py_lower s.
Proof.
  unfold py_lower. rewrite map_map. apply map_ext. apply lower_cp_idem.
Qed.

Lemma py_lower_nil (s : pystr) : py_lower s = [] <-> s = [].
Proof. unfold py_lower. split; [apply map_eq_nil | by intros ->]. Qed.

Lemma py_lower_app (s t : pystr) : py_lower (s ++ t) = py_lower s ++ py_lower t.
Proof. apply map_app. Qed.

#[export] Hint Rewrite py_lower_idem py_lower_app : pyrw.

Lemma segment_of_refl {A} (l : list A) : segment_of l l.
Proof. exists [], []. by rewrite app_nil_r. Qed.

Lemma segment_of_app_l {A} (l1 l2 l3 : list A) : segment_of l1 l2 -> segment_of l1 (l2 ++ l3).
Proof. intros [pre [post ->]]. exists pre, (post ++ l3). by rewrite <- !app_assoc. Qed.

Lemma segment_of_app_r {A} (l1 l2 l3 : list A) : segment_of l1 l3 -> segment_of l1 (l2 ++ l3).
Proof. intros [pre [post ->]]. exists (l2 ++ pre), post. by rewrite <- !app_assoc. Qed.

#[export] Hint Resolve segment_of_refl segment_of_app_l segment_of_app_r : pycert.

Lemma is_ok_Ok {A} (c : res A) : is_ok c = true -> exists a, c = Ok a.
Proof. destruct c; [eauto | discriminate]. Qed.

(** ** Bits of natural numbers *)

Section Bits.
Local Open Scope N_scope.

(** A [lor] of disjoint bit ranges is a sum. *)
Lemma lor_small (k n x : N) : x < 2 ^ n -> N.lor (k * 2 ^ n) x = k * 2 ^ n + x.
Proof.
  intros Hx.
  assert (H0 : N.land (k * 2 ^ n) x = 0).
  { apply N.bits_inj_0. intros m. rewrite N.land_spec, <- N.shiftl_mul_pow2.
    destruct (N.lt_ge_cases m n) as [Hm|Hm].
    - by rewrite N.shiftl_spec_low.
    - replace (N.testbit x m) with false; [apply andb_false_r|].
      symmetry. apply N.testbit_false. rewrite N.div_small; [done|].
      apply (N.lt_le_trans _ (2 ^ n)); [done | by apply N.pow_le_mono_r]. }
  rewrite <- N.lxor_lor by done. by rewrite N.add_nocarry_lxor.
Qed.

Lemma lor_const (c k n x : N) : c = k * 2 ^ n -> x < 2 ^ n -> N.lor c x = c + x.
Proof. intros ->. apply lor_small. Qed.

(** Quotient and remainder of a number written in base [k]. *)
Lemma div_add_small (a k r : N) : r < k -> (a * k + r) / k = a.
Proof. intros Hr. symmetry. apply (N.div_unique _ _ _ r); lia. Qed.

Lemma mod_add_small (a k r : N) : r < k -> (a * k + r) mod k = r.
Proof. intros Hr. symmetry. apply (N.mod_unique _ _ a); lia. Qed.

End Bits.
