(* ===== verification/PyValue.v ===== *)
(** Python values of the request attributes: the JSON scalars that
    [request.get_json()] decodes an attribute to, the operations
    [src/app.py] applies to them ([not v], [str(v)], [v.lower()], [v[:10]],
    [data.get(k, default)]), and the exceptions those operations raise on a
    value of the wrong type. *)

From S2P Require Import Prelude.

(** A JSON scalar as Python sees it after [json.loads]. *)
Inductive value :=
  | VStr (s : pystr)
  | VInt (z : Z)
  | VBool (b : bool)
  | VNone.

(** [type(v).__name__]. *)
Definition type_name (v : value) : pystr :=
  match v with
  | VStr _ => lit "str"
  | VInt _ => lit "int"
  | VBool _ => lit "bool"
  | VNone => lit "NoneType"
  end.

(** [bool(v)]: [not v] is its negation. *)
Definition truthy (v : value) : bool :=
  match v with
  | VStr s => negb (bool_decide (s = []))
  | VInt z => negb (Z.eqb z 0)
  | VBool b => b
  | VNone => false
  end.

(** [str(v)], which is also what an f-string replacement field [{v}]
    inserts. *)
Definition py_str (v : value) : pystr :=
  match v with
  | VStr s => s
  | VInt z => dec_Z z
  | VBool true => lit "True"
  | VBool false => lit "False"
  | VNone => lit "None"
  end.

(** [v.lower()]: only [str] has the method. *)
Definition value_lower (v : value) : res pystr :=
  match v with
  | VStr s => Ok (py_lower s)
  | _ => Raise (AttributeError (lit "'" ++ type_name v ++
                                lit "' object has no attribute 'lower'"))
  end.

(** [v[:n]]: none of [int], [bool] or [NoneType] is subscriptable. *)
Definition value_slice_to (n : nat) (v : value) : res value :=
  match v with
  | VStr s => Ok (VStr (py_slice_to n s))
  | _ => Raise (TypeError (lit "'" ++ type_name v ++
                           lit "' object is not subscriptable"))
  end.

(** The request's attribute mapping, a Python [dict]. *)
Abbreviation attrs := (gmap pystr value).

(** [data.get(k, default)]: the default is an already evaluated value,
    as Python evaluates arguments before the call. *)
Definition dict_get (data : attrs) (k : pystr) (default : value) : value :=
  match data !! k with
  | Some v => v
  | None => default
  end.

(** Every attribute value is a string: the spec's AttributeSet. *)
Definition all_str (data : attrs) : Prop :=
  map_Forall (fun _ v => exists s, v = VStr s) data.

Definition is_str (v : value) : bool :=
  match v with VStr _ => true | _ => false end.

(** ** Lemmas *)

Lemma dict_get_absent (data : attrs) k d : data !! k = None -> dict_get data k d = d.
Proof. unfold dict_get. by intros ->. Qed.

Lemma dict_get_present (data : attrs) k d v : data !! k = Some v -> dict_get data k d = v.
Proof. unfold dict_get. by intros ->. Qed.

Lemma dict_get_str (data : attrs) k s :
  all_str data -> exists s', dict_get data k (VStr s) = VStr s'.
Proof.
  intros Hall. unfold dict_get. destruct (data !! k) as [v|] eqn:E; [|eauto].
  exact (Hall k v E).
Qed.

Lemma value_lower_ok (v : value) : is_ok (value_lower v) = is_str v.
Proof. by destruct v. Qed.

Lemma value_slice_to_ok n (v : value) : is_ok (value_slice_to n v) = is_str v.
Proof. by destruct v. Qed.

Lemma value_lower_str s : value_lower (VStr s) = Ok (py_lower s).
Proof. reflexivity. Qed.

#[export] Hint Rewrite dict_get_absent dict_get_present using assumption : pyrw.
#[export] Hint Rewrite value_lower_str : pyrw.
#[export] Hint Resolve dict_get_str : pycert.
