(* ===== verification/Status.v ===== *)
(** The status badge: [ProfessionalCertificateGenerator.get_status_badge_style]
    ([src/app.py] lines 71-82), which picks the CSS of the certificate's
    status badge from the free-text [final_status] attribute, and the
    spec's abstract classification [classify_status] (SUCCESS, FAILURE,
    UNKNOWN) that it refines.  The code has four styles, not three: the
    spec's UNKNOWN is shown grey when the status is empty and amber when it
    is an unrecognised word. *)

From S2P Require Import Prelude PyValue.

Module Status.

(** ** The code *)

Definition style_neutral : pystr :=
  lit "background: #6c757d; color: white;".
Definition style_success : pystr :=
  lit "background: linear-gradient(45deg, #28a745, #20c997); color: white; box-shadow: 0 4px 15px rgba(40, 167, 69, 0.4);".
Definition style_failure : pystr :=
  lit "background: linear-gradient(45deg, #dc3545, #e74c3c); color: white; box-shadow: 0 4px 15px rgba(220, 53, 69, 0.4);".
Definition style_other : pystr :=
  lit "background: linear-gradient(45deg, #ffc107, #fd7e14); color: #212529; box-shadow: 0 4px 15px rgba(255, 193, 7, 0.4);".

Definition get_status_badge_style (status : value) : res pystr :=
  if negb (truthy status) then Ok style_neutral
  else
    status_lower <- value_lower status ;;
    if py_in (lit "pass") status_lower || py_in (lit "success") status_lower
       || py_in (lit "complete") status_lower
    then Ok style_success
    else if py_in (lit "fail") status_lower || py_in (lit "error") status_lower
    then Ok style_failure
    else Ok style_other.

(** ** The abstract specification *)

Inductive classification := SUCCESS | FAILURE | UNKNOWN.

#[export] Instance classification_eq_dec : EqDecision classification.
Proof. solve_decision. Defined.

Definition success_words : list pystr := [lit "pass"; lit "success"; lit "complete"].
Definition failure_words : list pystr := [lit "fail"; lit "error"].

Definition mentions (words : list pystr) (s : pystr) : bool :=
  existsb (fun w => py_in w s) words.

(** The spec's [classify_status]: absent or empty is UNKNOWN; otherwise
    the lower-cased text is searched for a success word first, then for a
    failure word. *)
Definition classify_status (status : option pystr) : classification :=
  match status with
  | None => UNKNOWN
  | Some s =>
      if bool_decide (s = []) then UNKNOWN
      else if mentions success_words (py_lower s) then SUCCESS
      else if mentions failure_words (py_lower s) then FAILURE
      else UNKNOWN
  end.

(** The style the code shows for a classification; UNKNOWN has two. *)
Definition badge_of (c : classification) (empty : bool) : pystr :=
  match c with
  | SUCCESS => style_success
  | FAILURE => style_failure
  | UNKNOWN => if empty then style_neutral else style_other
  end.

(** ** Lemmas *)

Lemma py_lower_upper (s : pystr) : py_lower (py_upper s) = py_lower s.
Proof. unfold py_lower, py_upper. rewrite map_map. apply map_ext, lower_upper_cp. Qed.

Lemma py_upper_nil (s : pystr) : py_upper s = [] <-> s = [].
Proof. unfold py_upper. split; [apply map_eq_nil | by intros ->]. Qed.

Lemma truthy_str (s : pystr) : truthy (VStr s) = negb (bool_decide (s = [])).
Proof. reflexivity. Qed.

(** On a string, the code is a function of its emptiness and its
    lower-cased text. *)
Lemma badge_style_str (s : pystr) :
  get_status_badge_style (VStr s) =
  if bool_decide (s = []) then Ok style_neutral
  else if mentions success_words (py_lower s) then Ok style_success
  else if mentions failure_words (py_lower s) then Ok style_failure
  else Ok style_other.
Proof.
  unfold get_status_badge_style. rewrite truthy_str.
  destruct (bool_decide (s = [])); simpl; [done|].
  unfold mentions; simpl. rewrite !orb_false_r, !orb_assoc. done.
Qed.

Lemma badge_ok (v : value) :
  is_ok (get_status_badge_style v) = negb (truthy v) || is_str v.
Proof.
  destruct v as [s| | |]; [|unfold get_status_badge_style; by destruct (truthy _)..].
  rewrite badge_style_str. simpl. rewrite orb_true_r. by repeat case_match.
Qed.

(** ** Theorems *)

(** C16: the code refines the spec's classification: on every string
    status, the badge style is the presentation of [classify_status] of
    that string, and UNKNOWN is the grey style exactly when the string is
    empty. *)
Theorem get_status_badge_style_refines (s : pystr) :
  get_status_badge_style (VStr s) =
  Ok (badge_of (classify_status (Some s)) (bool_decide (s = []))).
Proof.
  rewrite badge_style_str. unfold classify_status.
  destruct (bool_decide (s = [])); [done|].
  destruct (mentions success_words _); [done|].
  by destruct (mentions failure_words _).
Qed.

(** The tie-break of the spec: a status that mentions a success word
    is shown with the success style whatever failure words it also
    mentions, and a status that mentions neither kind of word is never
    shown as success or failure. *)
Theorem badge_success_first (s : pystr) :
  (mentions success_words (py_lower s) = true ->
   get_status_badge_style (VStr s) = Ok style_success) /\
  (mentions success_words (py_lower s) = false ->
   mentions failure_words (py_lower s) = false ->
   get_status_badge_style (VStr s) = Ok style_neutral \/
   get_status_badge_style (VStr s) = Ok style_other).
Proof.
  rewrite badge_style_str. split.
  - intros Hs. destruct (bool_decide (s = [])) eqn:E; [|by rewrite Hs].
    apply bool_decide_eq_true in E; subst. discriminate.
  - intros -> ->. destruct (bool_decide (s = [])); auto.
Qed.

Lemma badge_success_first_witness :
  mentions success_words (py_lower (lit "failed but passed retry")) = true /\
  get_status_badge_style (VStr (lit "failed but passed retry")) = Ok style_success.
Proof.
  assert (H : mentions success_words (py_lower (lit "failed but passed retry")) = true)
    by (vm_compute; reflexivity).
  split; [exact H | exact (proj1 (badge_success_first _) H)].
Defined.

(** The matching is case-insensitive: a status and its upper-cased
    version get the same style. *)
Theorem badge_case_insensitive (s : pystr) :
  get_status_badge_style (VStr (py_upper s)) = get_status_badge_style (VStr s).
Proof.
  rewrite !badge_style_str, py_lower_upper.
  by rewrite (bool_decide_ext _ _ (py_upper_nil s)).
Qed.

(** The style function raises on a status that is a true non-string
    JSON value (a number, [true]), contrary to the spec's "never raises";
    falsy non-strings ([0], [false], [null]) get the grey style. *)
Theorem badge_non_string (v : value) :
  is_str v = false ->
  get_status_badge_style v =
  if truthy v then Raise (AttributeError (lit "'" ++ type_name v ++
                                           lit "' object has no attribute 'lower'"))
  else Ok style_neutral.
Proof.
  intros Hv. unfold get_status_badge_style.
  destruct v; try discriminate; by destruct (truthy _).
Qed.

Lemma badge_non_string_witness :
  is_str (VInt 1) = false /\
  get_status_badge_style (VInt 1) =
  Raise (AttributeError (lit "'int' object has no attribute 'lower'")).
Proof.
  split; [reflexivity|].
  rewrite (badge_non_string (VInt 1) eq_refl). reflexivity.
Defined.

(** The four styles are pairwise distinct. *)
Lemma badge_styles_distinct :
  NoDup [style_neutral; style_success; style_failure; style_other].
Proof. apply (bool_decide_unpack _). vm_compute. reflexivity. Qed.

(** The spec's examples. *)
Example classify_examples :
  classify_status (Some (lit "PASSED")) = SUCCESS /\
  classify_status (Some (lit "Failed - error")) = FAILURE /\
  classify_status (Some []) = UNKNOWN /\
  classify_status None = UNKNOWN /\
  classify_status (Some (lit "passed then failed")) = SUCCESS /\
  classify_status (Some (lit "VERIFIED")) = UNKNOWN.
Proof. vm_compute. repeat split. Qed.

End Status.
