(* ===== verification/Ident.v ===== *)
(** The generated certificate identifier: the default of
    [data.get('certificate_id', f'CERT-{uuid.uuid4().hex[:8].upper()}')]
    ([src/app.py] line 89).  [uuid.uuid4()] is CPython's
    [UUID(bytes=os.urandom(16), version=4)]: the sixteen random bytes read
    as a big-endian integer, with the RFC 4122 variant bits (62-63) and the
    version nibble (76-79) overwritten; [.hex] is ['%032x' % int].  The
    theorems show that the eight-character token is the first four random
    bytes in upper-case hexadecimal, untouched by the version and variant
    bits, so that identifiers of runs whose first four random bytes differ
    are different. *)

From S2P Require Import Prelude.
From Stdlib Require Import Lia.

Module Ident.

Local Open Scope Z_scope.

(** ** The code *)

(** [int.from_bytes(b, 'big')]. *)
Definition from_bytes_big (b : list Z) : Z :=
  fold_left (fun acc x => acc * 256 + x) b 0.

(** [os.urandom(16)] returns sixteen bytes. *)
Definition bytes_ok (b : list Z) : Prop :=
  length b = 16%nat /\ Forall (fun x => 0 <= x < 256) b.

(** [UUID(bytes=b, version=4).int]: clear and set the variant bits, then
    the version nibble. *)
Definition uuid4_int (b : list Z) : Z :=
  let i := from_bytes_big b in
  let i := Z.land i (Z.lnot (Z.shiftl 0xc000 48)) in
  let i := Z.lor i (Z.shiftl 0x8000 48) in
  let i := Z.land i (Z.lnot (Z.shiftl 0xf000 64)) in
  Z.lor i (Z.shiftl 4 76).

(** One hexadecimal digit as ['%x'] prints it. *)
Definition hex_cp (d : Z) : N :=
  if d <? 10 then Z.to_N (48 + d) else Z.to_N (87 + d).

(** The low [4 w] bits of [n] as [w] digits printed by [dg], most
    significant first. *)
Fixpoint nibbles (dg : Z -> N) (w : nat) (n : Z) : pystr :=
  match w with
  | O => []
  | S w' => nibbles dg w' (Z.shiftr n 4) ++ [dg (Z.land n 15)]
  end.

(** ['%0wx']. *)
Definition hex_fixed (w : nat) (n : Z) : pystr := nibbles hex_cp w n.

(** [UUID.hex]. *)
Definition uuid_hex (i : Z) : pystr := hex_fixed 32 i.

(** [f'CERT-{uuid.uuid4().hex[:8].upper()}'] for the random bytes [b]. *)
Definition generated_cert_id (b : list Z) : pystr :=
  lit "CERT-" ++ py_upper (py_slice_to 8 (uuid_hex (uuid4_int b))).

(** ** Lemmas on hexadecimal printing *)

Section Nibbles.
Variable dg : Z -> N.

Lemma length_nibbles w n : length (nibbles dg w n) = w.
Proof.
  revert n; induction w; intros n; simpl; [done|].
  rewrite length_app, IHw. simpl. lia.
Qed.

Lemma nibbles_add w1 w2 n :
  nibbles dg (w1 + w2) n = nibbles dg w1 (Z.shiftr n (4 * Z.of_nat w2)) ++ nibbles dg w2 n.
Proof.
  revert n; induction w2 as [|w2 IH]; intros n.
  - rewrite Nat.add_0_r, Z.shiftr_0_r, app_nil_r. done.
  - rewrite Nat.add_succ_r. simpl. rewrite IH, Z.shiftr_shiftr by lia.
    rewrite app_assoc. by replace (4 * Z.of_nat (S w2)) with (4 + 4 * Z.of_nat w2) by lia.
Qed.

Lemma take_nibbles w1 w2 n :
  take w1 (nibbles dg (w1 + w2) n) = nibbles dg w1 (Z.shiftr n (4 * Z.of_nat w2)).
Proof.
  rewrite nibbles_add, take_app_length' by (by rewrite length_nibbles). done.
Qed.

Hypothesis dg_inj : forall d1 d2, 0 <= d1 < 16 -> 0 <= d2 < 16 -> dg d1 = dg d2 -> d1 = d2.

(** [nibbles dg w] is injective on [w]-digit numbers when [dg] is
    injective on digits. *)
Lemma nibbles_inj w n1 n2 :
  0 <= n1 < 2 ^ (4 * Z.of_nat w) -> 0 <= n2 < 2 ^ (4 * Z.of_nat w) ->
  nibbles dg w n1 = nibbles dg w n2 -> n1 = n2.
Proof.
  revert n1 n2; induction w as [|w IH]; intros n1 n2 H1 H2 E.
  - simpl in *. lia.
  - simpl in E. apply app_inj_tail in E as [Ehi Elo].
    change 15 with (Z.ones 4) in Elo. rewrite !Z.land_ones in Elo by lia.
    pose proof (Z.mod_pos_bound n1 (2 ^ 4) ltac:(lia)).
    pose proof (Z.mod_pos_bound n2 (2 ^ 4) ltac:(lia)).
    apply dg_inj in Elo; [|lia..].
    rewrite !Z.shiftr_div_pow2 in Ehi by lia.
    assert (Hp : 2 ^ (4 * Z.of_nat (S w)) = 2 ^ (4 * Z.of_nat w) * 2 ^ 4).
    { rewrite <- Z.pow_add_r by lia. f_equal. lia. }
    apply IH in Ehi;
      [| split; [apply Z.div_pos; lia | apply Z.div_lt_upper_bound; lia]..].
    rewrite (Z.div_mod n1 (2 ^ 4)), (Z.div_mod n2 (2 ^ 4)) by lia. lia.
Qed.
End Nibbles.

Lemma map_nibbles (f : N -> N) dg w n : map f (nibbles dg w n) = nibbles (fun d => f (dg d)) w n.
Proof.
  revert n; induction w; intros n; simpl; [done|]. by rewrite map_app, IHw.
Qed.

Lemma hex_cp_inj d1 d2 :
  0 <= d1 < 16 -> 0 <= d2 < 16 -> hex_cp d1 = hex_cp d2 -> d1 = d2.
Proof.
  unfold hex_cp. intros H1 H2.
  destruct (Z.ltb_spec d1 10), (Z.ltb_spec d2 10); intros E; apply Z2N.inj in E; lia.
Qed.

Lemma upper_hex_cp_inj d1 d2 :
  0 <= d1 < 16 -> 0 <= d2 < 16 ->
  upper_cp (hex_cp d1) = upper_cp (hex_cp d2) -> d1 = d2.
Proof.
  intros H1 H2. unfold upper_cp, hex_cp.
  destruct (Z.ltb_spec d1 10), (Z.ltb_spec d2 10);
  repeat match goal with
  | |- context [(?a <=? ?b)%N] => destruct (N.leb_spec a b)
  end; simpl; intros E; lia.
Qed.

Lemma lower_hex_cp d : 0 <= d < 16 -> lower_cp (hex_cp d) = hex_cp d.
Proof.
  intros H. unfold lower_cp, hex_cp.
  destruct (Z.ltb_spec d 10);
  repeat match goal with
  | |- context [(?a <=? ?b)%N] => destruct (N.leb_spec a b)
  end; simpl; lia.
Qed.

Lemma nibbles_digits_bound dg w n d :
  d ∈ nibbles dg w n -> exists k, 0 <= k < 16 /\ d = dg k.
Proof.
  revert n; induction w as [|w IH]; intros n; simpl; [set_solver|].
  rewrite elem_of_app, list_elem_of_singleton. intros [Hd | ->]; [eauto|].
  exists (Z.land n 15). split; [|done].
  change 15 with (Z.ones 4). rewrite Z.land_ones by lia.
  apply Z.mod_pos_bound. lia.
Qed.

Lemma py_lower_upper_hex w n :
  py_lower (py_upper (hex_fixed w n)) = hex_fixed w n.
Proof.
  unfold py_lower, py_upper. rewrite map_map.
  rewrite <- (map_id (hex_fixed w n)) at 2. apply map_ext_in.
  intros d Hd%list_elem_of_In. apply nibbles_digits_bound in Hd as [k [Hk ->]].
  rewrite lower_upper_cp. by apply lower_hex_cp.
Qed.

(** ** Lemmas on the random bytes *)

Lemma fold_from_bytes (l : list Z) (a : Z) :
  fold_left (fun acc x => acc * 256 + x) l a =
  a * 256 ^ Z.of_nat (length l) + from_bytes_big l.
Proof.
  revert a; induction l as [|x l IH]; intros a.
  - unfold from_bytes_big. cbn [fold_left length Z.of_nat]. rewrite Z.pow_0_r. ring.
  - unfold from_bytes_big. cbn [fold_left length].
    rewrite (IH (a * 256 + x)), (IH (0 * 256 + x)).
    rewrite Nat2Z.inj_succ, Z.pow_succ_r by lia. ring.
Qed.

Lemma from_bytes_app (l1 l2 : list Z) :
  from_bytes_big (l1 ++ l2) =
  from_bytes_big l1 * 256 ^ Z.of_nat (length l2) + from_bytes_big l2.
Proof.
  unfold from_bytes_big at 1. rewrite fold_left_app. apply fold_from_bytes.
Qed.

Lemma from_bytes_cons (x : Z) (l : list Z) :
  from_bytes_big (x :: l) = x * 256 ^ Z.of_nat (length l) + from_bytes_big l.
Proof. apply (from_bytes_app [x] l). Qed.

Lemma from_bytes_bound (l : list Z) :
  Forall (fun x => 0 <= x < 256) l ->
  0 <= from_bytes_big l < 256 ^ Z.of_nat (length l).
Proof.
  induction 1 as [|x l Hx _ IH].
  { change (from_bytes_big []) with 0. cbn [length Z.of_nat]. rewrite Z.pow_0_r. lia. }
  rewrite from_bytes_cons. simpl length. rewrite Nat2Z.inj_succ, Z.pow_succ_r by lia.
  set (P := 256 ^ Z.of_nat (length l)) in *.
  assert (0 <= x * P <= 255 * P) by (split; [|apply Z.mul_le_mono_nonneg_r]; lia).
  lia.
Qed.

Lemma from_bytes_inj (l1 l2 : list Z) :
  length l1 = length l2 ->
  Forall (fun x => 0 <= x < 256) l1 -> Forall (fun x => 0 <= x < 256) l2 ->
  from_bytes_big l1 = from_bytes_big l2 -> l1 = l2.
Proof.
  revert l2; induction l1 as [|x l1 IH]; intros [|y l2] Hlen H1 H2 E;
    try discriminate; [done|].
  simpl in Hlen. injection Hlen as Hlen.
  apply Forall_cons in H1 as [Hx H1], H2 as [Hy H2].
  rewrite !from_bytes_cons, Hlen in E.
  pose proof (from_bytes_bound l1 H1). pose proof (from_bytes_bound l2 H2).
  rewrite Hlen in *.
  assert (x = y) as <- by nia. f_equal. apply IH; auto. lia.
Qed.

(** The top 32 bits of the 128-bit integer are its first four bytes. *)
Lemma from_bytes_high (b : list Z) :
  bytes_ok b -> Z.shiftr (from_bytes_big b) 96 = from_bytes_big (take 4 b).
Proof.
  intros [Hlen Hb]. rewrite <- (take_drop 4 b) at 1.
  rewrite from_bytes_app, length_drop, Hlen, Z.shiftr_div_pow2 by lia.
  pose proof (from_bytes_bound (drop 4 b) (Forall_drop _ _ _ Hb)) as Hd.
  rewrite length_drop, Hlen in Hd. simpl in *.
  replace (2 ^ 96) with (256 ^ 12) by reflexivity.
  rewrite Z.div_add_l, Z.div_small by lia. lia.
Qed.

Lemma testbit_small (c : Z) (k j : Z) :
  0 <= c < 2 ^ k -> 0 <= k <= j -> Z.testbit c j = false.
Proof.
  intros Hc Hj. apply Z.testbit_false; [lia|].
  rewrite Z.div_small; [done|]. split; [lia|].
  apply (Z.lt_le_trans _ (2 ^ k)); [lia|]. apply Z.pow_le_mono_r; lia.
Qed.

(** The variant and version bits lie below bit 96. *)
Lemma uuid4_int_high (b : list Z) :
  Z.shiftr (uuid4_int b) 96 = Z.shiftr (from_bytes_big b) 96.
Proof.
  apply Z.bits_inj'. intros n Hn. unfold uuid4_int.
  rewrite !Z.shiftr_spec, Z.lor_spec, Z.land_spec, Z.lnot_spec, Z.lor_spec,
    Z.land_spec, Z.lnot_spec by lia.
  rewrite (testbit_small (Z.shiftl 0xc000 48) 96), (testbit_small (Z.shiftl 0x8000 48) 96),
    (testbit_small (Z.shiftl 0xf000 64) 96), (testbit_small (Z.shiftl 4 76) 96)
    by first [lia | split; vm_compute; congruence].
  by rewrite !andb_true_r, !orb_false_r.
Qed.

(** ** Theorems *)

(** C28: the generated identifier is ["CERT-"] followed by the first four
    random bytes of the UUID in eight upper-case hexadecimal digits: the
    version and variant bits that [uuid4] overwrites never reach the
    token. *)
Theorem generated_cert_id_token (b : list Z) :
  bytes_ok b ->
  generated_cert_id b = lit "CERT-" ++ py_upper (hex_fixed 8 (from_bytes_big (take 4 b))).
Proof.
  intros Hb. unfold generated_cert_id, py_slice_to, uuid_hex, hex_fixed.
  rewrite (take_nibbles _ 8 24). change (4 * Z.of_nat 24) with 96.
  by rewrite uuid4_int_high, from_bytes_high.
Qed.

Lemma bytes_ok_take4 (b : list Z) :
  bytes_ok b -> 0 <= from_bytes_big (take 4 b) < 2 ^ (4 * Z.of_nat 8) /\
                 length (take 4 b) = 4%nat /\ Forall (fun x => 0 <= x < 256) (take 4 b).
Proof.
  intros [Hlen Hb]. assert (Hl : length (take 4 b) = 4%nat) by (rewrite length_take; lia).
  pose proof (Forall_take _ 4 _ Hb) as Ht.
  pose proof (from_bytes_bound _ Ht) as Hr. rewrite Hl in Hr. done.
Qed.

Lemma generated_cert_id_witness_bytes :
  bytes_ok [0x12; 0x34; 0xab; 0xcd; 0; 0; 0; 0; 0; 0; 0; 0; 0; 0; 0; 0].
Proof. split; [reflexivity | repeat constructor; lia]. Qed.

Lemma generated_cert_id_token_witness :
  generated_cert_id [0x12; 0x34; 0xab; 0xcd; 0; 0; 0; 0; 0; 0; 0; 0; 0; 0; 0; 0] =
  lit "CERT-" ++ py_upper (hex_fixed 8 (from_bytes_big [0x12; 0x34; 0xab; 0xcd])).
Proof. apply (generated_cert_id_token _ generated_cert_id_witness_bytes). Defined.

(** C29: identifiers generated from two runs whose first four random bytes
    differ are different: the token determines those bytes. *)
Theorem generated_cert_id_unique (b1 b2 : list Z) :
  bytes_ok b1 -> bytes_ok b2 ->
  generated_cert_id b1 = generated_cert_id b2 -> take 4 b1 = take 4 b2.
Proof.
  intros H1 H2. rewrite !generated_cert_id_token by done.
  intros E%app_inv_head. unfold py_upper, hex_fixed in E. rewrite !map_nibbles in E.
  destruct (bytes_ok_take4 b1 H1) as (R1 & L1 & F1), (bytes_ok_take4 b2 H2) as (R2 & L2 & F2).
  apply nibbles_inj in E; [|exact upper_hex_cp_inj | done | done].
  apply from_bytes_inj; congruence.
Qed.

Lemma generated_cert_id_unique_witness :
  let b1 := [0x12; 0x34; 0xab; 0xcd; 0; 0; 0; 0; 0; 0; 0; 0; 0; 0; 0; 0] in
  let b2 := [0x12; 0x34; 0xab; 0xcd; 0xff; 0xff; 0; 0; 0; 0; 0; 0; 0; 0; 0; 0x7f] in
  generated_cert_id b1 = generated_cert_id b2 /\ take 4 b1 = take 4 b2.
Proof.
  intros b1 b2.
  assert (E : generated_cert_id b1 = generated_cert_id b2) by (vm_compute; reflexivity).
  split; [exact E|].
  apply (generated_cert_id_unique b1 b2); [exact generated_cert_id_witness_bytes | | exact E].
  split; [reflexivity | repeat constructor; lia].
Defined.

(** A generated identifier has thirteen characters, and its
    lower-cased form, which the verification link uses, is ["cert-"]
    followed by the same eight hexadecimal digits in lower case. *)
Theorem generated_cert_id_shape (b : list Z) :
  bytes_ok b ->
  length (generated_cert_id b) = 13%nat /\
  py_lower (generated_cert_id b) = lit "cert-" ++ hex_fixed 8 (from_bytes_big (take 4 b)).
Proof.
  intros Hb. rewrite generated_cert_id_token by done. split.
  - rewrite length_app. unfold py_upper, hex_fixed. rewrite length_map, length_nibbles. done.
  - rewrite py_lower_app, py_lower_upper_hex. done.
Qed.

Lemma generated_cert_id_shape_witness :
  generated_cert_id [0x12; 0x34; 0xab; 0xcd; 0; 0; 0; 0; 0; 0; 0; 0; 0; 0; 0; 0] = lit "CERT-1234ABCD" /\
  length (generated_cert_id [0x12; 0x34; 0xab; 0xcd; 0; 0; 0; 0; 0; 0; 0; 0; 0; 0; 0; 0]) = 13%nat.
Proof.
  split; [vm_compute; reflexivity|].
  apply (generated_cert_id_shape _ generated_cert_id_witness_bytes).
Defined.

End Ident.
