(* ===== verification/Clock.v ===== *)
(** The wall clock: [datetime.now()] as a [datetime] value and the three
    ways [src/app.py] prints it: [strftime('%Y-%m-%d %H:%M:%S')] (line 87,
    the certificate's [current_time]), [strftime('%Y%m%d_%H%M%S')] (line
    840, the download file name) and [isoformat()] (lines 819, 885, 895).
    [%Y] is printed on four digits, as CPython does for the years
    [datetime.now()] can return (older CPythons on glibc print years below
    1000 without padding; no clock reading is that early). *)

From S2P Require Import Prelude.

Module Clock.

Local Open Scope N_scope.

Record datetime := mk_datetime {
  year : N; month : N; day : N;
  hour : N; minute : N; second : N; microsecond : N }.

Definition is_leap (y : N) : bool :=
  ((y mod 4 =? 0) && negb (y mod 100 =? 0)) || (y mod 400 =? 0).

Definition days_in_month (y m : N) : N :=
  match m with
  | 2 => if is_leap y then 29 else 28
  | 4 | 6 | 9 | 11 => 30
  | _ => 31
  end.

(** The invariant of a [datetime] object. *)
Definition valid_datetime (dt : datetime) : bool :=
  (1 <=? year dt) && (year dt <=? 9999) &&
  (1 <=? month dt) && (month dt <=? 12) &&
  (1 <=? day dt) && (day dt <=? days_in_month (year dt) (month dt)) &&
  (hour dt <=? 23) && (minute dt <=? 59) && (second dt <=? 59) &&
  (microsecond dt <=? 999999).

(** ['%Y-%m-%d']. *)
Definition date_part (dt : datetime) : pystr :=
  pad_dec 4 (year dt) ++ lit "-" ++ pad_dec 2 (month dt) ++ lit "-" ++ pad_dec 2 (day dt).

(** ['%H:%M:%S']. *)
Definition time_part (dt : datetime) : pystr :=
  pad_dec 2 (hour dt) ++ lit ":" ++ pad_dec 2 (minute dt) ++ lit ":" ++ pad_dec 2 (second dt).

(** [dt.strftime('%Y-%m-%d %H:%M:%S')]. *)
Definition strftime_ymd_hms (dt : datetime) : pystr :=
  date_part dt ++ lit " " ++ time_part dt.

(** [dt.strftime('%Y%m%d_%H%M%S')]. *)
Definition strftime_compact (dt : datetime) : pystr :=
  pad_dec 4 (year dt) ++ pad_dec 2 (month dt) ++ pad_dec 2 (day dt) ++ lit "_" ++
  pad_dec 2 (hour dt) ++ pad_dec 2 (minute dt) ++ pad_dec 2 (second dt).

(** [dt.isoformat()]: the microseconds are printed only when non-zero. *)
Definition isoformat (dt : datetime) : pystr :=
  date_part dt ++ lit "T" ++ time_part dt ++
  (if microsecond dt =? 0 then [] else lit "." ++ pad_dec 6 (microsecond dt)).

(** ** Lemmas *)

Lemma length_pad_dec w n : length (pad_dec w n) = w.
Proof.
  revert n; induction w; intros n; simpl; [done|].
  rewrite length_app, IHw. simpl. lia.
Qed.

Lemma length_date_part dt : length (date_part dt) = 10%nat.
Proof. unfold date_part. rewrite !length_app, !length_pad_dec. done. Qed.

Lemma length_time_part dt : length (time_part dt) = 8%nat.
Proof. unfold time_part. rewrite !length_app, !length_pad_dec. done. Qed.

(** The first ten characters of [current_time] are its date. *)
Theorem strftime_slice_date (dt : datetime) :
  py_slice_to 10 (strftime_ymd_hms dt) = date_part dt /\
  length (strftime_ymd_hms dt) = 19%nat.
Proof.
  unfold py_slice_to, strftime_ymd_hms. split.
  - apply take_app_length'. by rewrite length_date_part.
  - rewrite !length_app, length_date_part, length_time_part. done.
Qed.

Lemma isoformat_length dt :
  length (isoformat dt) = if microsecond dt =? 0 then 19%nat else 26%nat.
Proof.
  unfold isoformat. rewrite !length_app, length_date_part, length_time_part.
  destruct (microsecond dt =? 0); [done|]. rewrite length_app, length_pad_dec. done.
Qed.

Example strftime_example :
  strftime_ymd_hms (mk_datetime 2024 3 15 14 30 0 0) = lit "2024-03-15 14:30:00" /\
  strftime_compact (mk_datetime 2024 3 15 14 30 0 0) = lit "20240315_143000" /\
  isoformat (mk_datetime 2024 3 15 14 30 0 1500) = lit "2024-03-15T14:30:00.001500".
Proof. vm_compute. repeat split. Qed.

End Clock.
