(* ===== verification/Composer.v ===== *)
(** The document composer: [ProfessionalCertificateGenerator.create_certificate_html]
    ([src/app.py] lines 84-757).  The method resolves four values
    ([current_time], [issue_date], [cert_id], [final_status]), computes the
    badge style, and evaluates one f-string of about 660 lines.  An
    f-string is a sequence of literal texts and replacement fields evaluated
    left to right, the first field that raises aborting the whole; it is
    modelled as a list of [res pystr] parts ([fstring]), cut into one
    definition per region of the document.  The literal text is the
    source's, line by line ([text_lines]), with [{{] and [}}] read as the
    braces they denote; the repeated four-line [data-item] blocks of the
    four data sections are generated from a table of (label, key) pairs
    ([data_item], [data_grid]). *)

From S2P Require Import Prelude PyValue Status Ident Clock.

Module Composer.

(** ** F-strings *)

Definition spaces (n : nat) : pystr := repeat 32%N n.

(** Whole source lines, each followed by its newline. *)
Definition text_lines (ls : list pystr) : pystr := concat (map (fun l => l ++ newline) ls).

(** Evaluate the parts of an f-string left to right and join them. *)
Fixpoint fstring (ps : list (res pystr)) : res pystr :=
  match ps with
  | [] => Ok []
  | p :: ps' => s <- p ;; r <- fstring ps' ;; Ok (s ++ r)
  end.

(** A replacement field [{v}]. *)
Definition fld (v : value) : res pystr := Ok (py_str v).

Definition na : value := VStr (lit "N/A").

(** [data.get(key, 'N/A')]. *)
Definition get_na (data : attrs) (key : pystr) : value := dict_get data key na.

(** ** The certificate template *)

(** *** The document head (lines 93-99) *)

Definition head_lines : list pystr :=
  [lit "        <!DOCTYPE html>";
    lit "        <html lang=`en`>";
    lit "        <head>";
    lit "            <meta charset=`UTF-8`>";
    lit "            <meta name=`viewport` content=`width=device-width, initial-scale=1.0`>"].

Definition head_part (cert_id : value) : list (res pystr) :=
  [Ok (newline ++ text_lines head_lines ++ lit "            <title>Certificate of Authenticity - ");
   fld cert_id;
   Ok (lit "</title>" ++ newline)].

(** *** The style sheet (lines 100-493), with the badge style at line 283 *)

Definition css_lines_a : list pystr :=
  [lit "            <style>";
    lit "                @import url('https://fonts.googleapis.com/css2?family=Playfair+Display:wght@400;600;700&family=Inter:wght@300;400;500;600;700&display=swap');";
    lit "                ";
    lit "                * {";
    lit "                    margin: 0;";
    lit "                    padding: 0;";
    lit "                    box-sizing: border-box;";
    lit "                }";
    lit "                ";
    lit "                body {";
    lit "                    font-family: 'Inter', sans-serif;";
    lit "                    background: linear-gradient(135deg, #667eea 0%, #764ba2 100%);";
    lit "                    color: #2c3e50;";
    lit "                    line-height: 1.6;";
    lit "                    min-height: 100vh;";
    lit "                    padding: 0;";
    lit "                }";
    lit "                ";
    lit "                .certificate-container {";
    lit "                    max-width: 210mm;";
    lit "                    margin: 0 auto;";
    lit "                    background: #ffffff;";
    lit "                    position: relative;";
    lit "                    overflow: hidden;";
    lit "                }";
    lit "                ";
    lit "                /* Decorative Elements */";
    lit "                .cert-border {";
    lit "                    position: absolute;";
    lit "                    top: 15px;";
    lit "                    left: 15px;";
    lit "                    right: 15px;";
    lit "                    bottom: 15px;";
    lit "                    border: 3px solid #c9a96e;";
    lit "                    border-radius: 15px;";
    lit "                }";
    lit "                ";
    lit "                .cert-border::before {";
    lit "                    content: '';";
    lit "                    position: absolute;";
    lit "                    top: 10px;";
    lit "                    left: 10px;";
    lit "                    right: 10px;";
    lit "                    bottom: 10px;";
    lit "                    border: 1px solid #c9a96e;";
    lit "                    border-radius: 10px;";
    lit "                }";
    lit "                ";
    lit "                .corner-ornament {";
    lit "                    position: absolute;";
    lit "                    width: 60px;";
    lit "                    height: 60px;";
    lit "                    background: radial-gradient(circle, #c9a96e 0%, #8b7355 100%);";
    lit "                    transform: rotate(45deg);";
    lit "                }";
    lit "                ";
    lit "                .corner-ornament.top-left { top: 25px; left: 25px; }";
    lit "                .corner-ornament.top-right { top: 25px; right: 25px; }";
    lit "                .corner-ornament.bottom-left { bottom: 25px; left: 25px; }";
    lit "                .corner-ornament.bottom-right { bottom: 25px; right: 25px; }";
    lit "                ";
    lit "                .corner-ornament::before {";
    lit "                    content: '';";
    lit "                    position: absolute;";
    lit "                    top: 50%;";
    lit "                    left: 50%;";
    lit "                    width: 30px;";
    lit "                    height: 30px;";
    lit "                    background: #fff;";
    lit "                    transform: translate(-50%, -50%);";
    lit "                    border-radius: 50%;";
    lit "                }";
    lit "                ";
    lit "                .watermark {";
    lit "                    position: absolute;";
    lit "                    top: 50%;";
    lit "                    left: 50%;";
    lit "                    transform: translate(-50%, -50%) rotate(-45deg);";
    lit "                    font-size: 150px;";
    lit "                    font-weight: 100;";
    lit "                    color: rgba(201, 169, 110, 0.05);";
    lit "                    z-index: 1;";
    lit "                    font-family: 'Playfair Display', serif;";
    lit "                    letter-spacing: 10px;";
    lit "                }";
    lit "                ";
    lit "                .content {";
    lit "                    position: relative;";
    lit "                    z-index: 2;";
    lit "                    padding: 60px 50px 40px;";
    lit "                }";
    lit "                ";
    lit "                /* Header Section */";
    lit "                .header {";
    lit "                    text-align: center;";
    lit "                    margin-bottom: 40px;";
    lit "                }";
    lit "                ";
    lit "                .company-logo {";
    lit "                    width: 120px;";
    lit "                    height: 120px;";
    lit "                    margin: 0 auto 20px;";
    lit "                    background: linear-gradient(135deg, #667eea 0%, #764ba2 100%);";
    lit "                    border-radius: 50%;";
    lit "                    display: flex;";
    lit "                    align-items: center;";
    lit "                    justify-content: center;";
    lit "                    color: white;";
    lit "                    font-size: 48px;";
    lit "                    font-weight: bold;";
    lit "                    box-shadow: 0 10px 30px rgba(0,0,0,0.1);";
    lit "                }";
    lit "                ";
    lit "                .cert-title {";
    lit "                    font-family: 'Playfair Display', serif;";
    lit "                    font-size: 42px;";
    lit "                    font-weight: 700;";
    lit "                    color: #2c3e50;";
    lit "                    margin-bottom: 8px;";
    lit "                    text-shadow: 1px 1px 2px rgba(0,0,0,0.1);";
    lit "                }";
    lit "                ";
    lit "                .cert-subtitle {";
    lit "                    font-size: 16px;";
    lit "                    color: #7f8c8d;";
    lit "                    font-weight: 300;";
    lit "                    letter-spacing: 1px;";
    lit "                    text-transform: uppercase;";
    lit "                    margin-bottom: 30px;";
    lit "                    line-height: 1.4;";
    lit "                    word-wrap: break-word;";
    lit "                    max-width: 100%;";
    lit "                    padding: 0 20px;";
    lit "                }";
    lit "                ";
    lit "                /* Certificate Info Bar */";
    lit "                .cert-info-bar {";
    lit "                    background: linear-gradient(135deg, #f8f9fa 0%, #e9ecef 100%);";
    lit "                    border-radius: 15px;";
    lit "                    padding: 25px;";
    lit "                    margin-bottom: 40px;";
    lit "                    box-shadow: inset 0 2px 10px rgba(0,0,0,0.05);";
    lit "                    border: 1px solid #dee2e6;";
    lit "                }";
    lit "                ";
    lit "                .cert-info-grid {";
    lit "                    display: grid;";
    lit "                    grid-template-columns: repeat(2, 1fr);";
    lit "                    gap: 20px;";
    lit "                }";
    lit "                ";
    lit "                .info-item {";
    lit "                    display: flex;";
    lit "                    align-items: center;";
    lit "                    justify-content: space-between;";
    lit "                    padding: 15px 20px;";
    lit "                    background: white;";
    lit "                    border-radius: 10px;";
    lit "                    box-shadow: 0 2px 8px rgba(0,0,0,0.08);";
    lit "                    border-left: 4px solid #667eea;";
    lit "                }";
    lit "                ";
    lit "                .info-label {";
    lit "                    font-weight: 600;";
    lit "                    color: #495057;";
    lit "                    font-size: 14px;";
    lit "                }";
    lit "                ";
    lit "                .info-value {";
    lit "                    font-weight: 700;";
    lit "                    color: #212529;";
    lit "                    font-size: 16px;";
    lit "                }";
    lit "                ";
    lit "                /* Status Badge */";
    lit "                .status-badge {";
    lit "                    display: inline-block;";
    lit "                    padding: 8px 20px;";
    lit "                    border-radius: 25px;";
    lit "                    font-size: 14px;";
    lit "                    font-weight: 700;";
    lit "                    text-transform: uppercase;";
    lit "                    letter-spacing: 1px;"].

Definition css_lines_b : list pystr :=
  [lit "                }";
    lit "                ";
    lit "                .status-checkmark {";
    lit "                    color: #28a745;";
    lit "                    font-weight: bold;";
    lit "                    font-size: 16px;";
    lit "                    margin-right: 5px;";
    lit "                }";
    lit "                ";
    lit "                /* Data Sections */";
    lit "                .data-section {";
    lit "                    margin-bottom: 35px;";
    lit "                    page-break-inside: avoid;";
    lit "                }";
    lit "                ";
    lit "                .section-header {";
    lit "                    display: flex;";
    lit "                    align-items: center;";
    lit "                    margin-bottom: 20px;";
    lit "                    padding: 15px 0;";
    lit "                    border-bottom: 2px solid #e9ecef;";
    lit "                }";
    lit "                ";
    lit "                .section-icon {";
    lit "                    width: 40px;";
    lit "                    height: 40px;";
    lit "                    border-radius: 50%;";
    lit "                    display: flex;";
    lit "                    align-items: center;";
    lit "                    justify-content: center;";
    lit "                    color: white;";
    lit "                    font-weight: bold;";
    lit "                    margin-right: 15px;";
    lit "                    font-size: 18px;";
    lit "                }";
    lit "                ";
    lit "                .device-icon { background: linear-gradient(135deg, #28a745, #20c997); }";
    lit "                .process-icon { background: linear-gradient(135deg, #fd7e14, #f39c12); }";
    lit "                .verification-icon { background: linear-gradient(135deg, #dc3545, #e74c3c); }";
    lit "                .additional-icon { background: linear-gradient(135deg, #6f42c1, #8e44ad); }";
    lit "                ";
    lit "                .section-title {";
    lit "                    font-family: 'Playfair Display', serif;";
    lit "                    font-size: 24px;";
    lit "                    font-weight: 600;";
    lit "                    color: #2c3e50;";
    lit "                }";
    lit "                ";
    lit "                .data-grid {";
    lit "                    display: grid;";
    lit "                    grid-template-columns: repeat(2, 1fr);";
    lit "                    gap: 15px;";
    lit "                }";
    lit "                ";
    lit "                .data-item {";
    lit "                    background: #f8f9fa;";
    lit "                    padding: 20px;";
    lit "                    border-radius: 12px;";
    lit "                    border: 1px solid #e9ecef;";
    lit "                    transition: all 0.3s ease;";
    lit "                }";
    lit "                ";
    lit "                .data-item:hover {";
    lit "                    background: #fff;";
    lit "                    box-shadow: 0 5px 15px rgba(0,0,0,0.1);";
    lit "                    transform: translateY(-2px);";
    lit "                }";
    lit "                ";
    lit "                .data-label {";
    lit "                    font-size: 12px;";
    lit "                    font-weight: 600;";
    lit "                    color: #6c757d;";
    lit "                    text-transform: uppercase;";
    lit "                    letter-spacing: 1px;";
    lit "                    margin-bottom: 8px;";
    lit "                }";
    lit "                ";
    lit "                .data-value {";
    lit "                    font-size: 16px;";
    lit "                    font-weight: 500;";
    lit "                    color: #212529;";
    lit "                    word-break: break-all;";
    lit "                }";
    lit "                ";
    lit "                /* Certification Statement */";
    lit "                .certification-statement {";
    lit "                    background: linear-gradient(135deg, #e8f5e8 0%, #f0f8f0 100%);";
    lit "                    border: 2px solid #28a745;";
    lit "                    border-radius: 15px;";
    lit "                    padding: 35px;";
    lit "                    margin: 60px 0 40px 0;";
    lit "                    text-align: center;";
    lit "                    position: relative;";
    lit "                    box-shadow: 0 8px 25px rgba(40, 167, 69, 0.15);";
    lit "                    page-break-before: always;";
    lit "                    page-break-after: always;";
    lit "                }";
    lit "                ";
    lit "                ";
    lit "                .statement-title {";
    lit "                    font-family: 'Playfair Display', serif;";
    lit "                    font-size: 28px;";
    lit "                    font-weight: 700;";
    lit "                    color: #155724;";
    lit "                    margin-bottom: 20px;";
    lit "                }";
    lit "                ";
    lit "                .statement-text {";
    lit "                    font-size: 16px;";
    lit "                    color: #155724;";
    lit "                    line-height: 1.8;";
    lit "                    margin-bottom: 15px;";
    lit "                }";
    lit "                ";
    lit "                /* Signature Section */";
    lit "                .signature-section {";
    lit "                    margin-top: 50px;";
    lit "                    page-break-inside: avoid;";
    lit "                    page-break-before: always;";
    lit "                }";
    lit "                ";
    lit "                .signature-grid {";
    lit "                    display: grid;";
    lit "                    grid-template-columns: repeat(2, 1fr);";
    lit "                    gap: 60px;";
    lit "                    margin-top: 40px;";
    lit "                }";
    lit "                ";
    lit "                .signature-box {";
    lit "                    text-align: center;";
    lit "                    position: relative;";
    lit "                }";
    lit "                ";
    lit "                .signature-line {";
    lit "                    height: 2px;";
    lit "                    background: linear-gradient(to right, #667eea, #764ba2);";
    lit "                    margin: 50px 20px 15px;";
    lit "                    border-radius: 2px;";
    lit "                }";
    lit "                ";
    lit "                .signature-role {";
    lit "                    font-weight: 700;";
    lit "                    font-size: 16px;";
    lit "                    color: #2c3e50;";
    lit "                    margin-bottom: 8px;";
    lit "                }";
    lit "                ";
    lit "                .signature-name {";
    lit "                    font-size: 18px;";
    lit "                    color: #495057;";
    lit "                    margin-bottom: 5px;";
    lit "                }";
    lit "                ";
    lit "                .signature-date {";
    lit "                    font-size: 12px;";
    lit "                    color: #6c757d;";
    lit "                }";
    lit "                ";
    lit "                /* Footer */";
    lit "                .certificate-footer {";
    lit "                    margin-top: 40px;";
    lit "                    padding-top: 30px;";
    lit "                    border-top: 1px solid #dee2e6;";
    lit "                    text-align: center;";
    lit "                }";
    lit "                ";
    lit "                .footer-text {";
    lit "                    font-size: 11px;";
    lit "                    color: #6c757d;";
    lit "                    margin-bottom: 10px;";
    lit "                }";
    lit "                ";
    lit "                .qr-code {";
    lit "                    width: 80px;";
    lit "                    height: 80px;";
    lit "                    margin: 20px auto 10px;";
    lit "                    background: linear-gradient(135deg, #667eea, #764ba2);";
    lit "                    border-radius: 10px;";
    lit "                    display: flex;";
    lit "                    align-items: center;";
    lit "                    justify-content: center;";
    lit "                    color: white;";
    lit "                    font-size: 12px;";
    lit "                    font-weight: bold;";
    lit "                }";
    lit "                ";
    lit "                /* Print Styles */";
    lit "                @media print {";
    lit "                    body { background: none; }";
    lit "                    .certificate-container { box-shadow: none; }";
    lit "                    .certification-statement { ";
    lit "                        page-break-before: always; ";
    lit "                        page-break-after: always;";
    lit "                        margin-top: 80px;";
    lit "                    }";
    lit "                    .signature-section { ";
    lit "                        page-break-before: always; ";
    lit "                        margin-top: 80px;";
    lit "                    }";
    lit "                }";
    lit "                ";
    lit "                /* Page Break Utilities for wkhtmltopdf */";
    lit "                .page-break-before {";
    lit "                    page-break-before: always;";
    lit "                }";
    lit "                ";
    lit "                .page-break-inside-avoid {";
    lit "                    page-break-inside: avoid;";
    lit "                }";
    lit "            </style>"].

Definition style_part (status_badge_style : pystr) : list (res pystr) :=
  [Ok (text_lines css_lines_a);
   Ok (spaces 20 ++ status_badge_style ++ newline);
   Ok (text_lines css_lines_b)].

(** *** The information bar (lines 494-533) *)

Definition info_value_open : pystr := spaces 32 ++ lit "<span class=`info-value`>".

Definition info_bar_part (data : attrs) (cert_id issue_date final_status : value) : list (res pystr) :=
  [Ok (text_lines [lit "        </head>";
                     lit "        <body>";
                     lit "            <div class=`certificate-container`>";
                     lit "                <div class=`cert-border`></div>";
                     lit "                <div class=`corner-ornament top-left`></div>";
                     lit "                <div class=`corner-ornament top-right`></div>";
                     lit "                <div class=`corner-ornament bottom-left`></div>";
                     lit "                <div class=`corner-ornament bottom-right`></div>";
                     lit "                <div class=`watermark`>CERTIFIED</div>";
                     lit "                ";
                     lit "                <div class=`content`>";
                     lit "                    <!-- Header -->";
                     lit "                    <div class=`header`>";
                     lit "                        <div class=`company-logo`>DS</div>";
                     lit "                        <h1 class=`cert-title`>Certificate of Authenticity</h1>";
                     lit "                        <p class=`cert-subtitle`>Data Sanitization & Security Verification</p>";
                     lit "                    </div>";
                     lit "                    ";
                     lit "                    <!-- Certificate Info Bar -->";
                     lit "                    <div class=`cert-info-bar`>";
                     lit "                        <div class=`cert-info-grid`>";
                     lit "                            <div class=`info-item`>";
                     lit "                                <span class=`info-label`>Certificate ID</span>"] ++ info_value_open);
   fld cert_id;
   Ok (lit "</span>" ++ newline ++ text_lines [lit "                            </div>";
                     lit "                            <div class=`info-item`>";
                     lit "                                <span class=`info-label`>Issue Date</span>"] ++ info_value_open);
   fld issue_date;
   Ok (lit "</span>" ++ newline ++ text_lines [lit "                            </div>";
                     lit "                            <div class=`info-item`>";
                     lit "                                <span class=`info-label`>Technician</span>"] ++ info_value_open);
   fld (get_na data (lit "technician_name"));
   Ok (lit "</span>" ++ newline ++ text_lines [lit "                            </div>";
                     lit "                            <div class=`info-item`>";
                     lit "                                <span class=`info-label`>Status</span>"] ++ spaces 32 ++
       lit "<span class=`status-badge`><span class=`status-checkmark`>" ++ [0x201a; 0xfa; 0xec]%N ++ lit "</span>");
   fld final_status;
   Ok (lit "</span>" ++ newline ++ text_lines [lit "                            </div>";
                     lit "                        </div>";
                     lit "                    </div>";
                     lit "                    "])].

(** *** The four data sections (lines 534-698) *)

(** One [data-item] block of a data grid: four source lines whose value
    is [data.get(key, 'N/A')]. *)
Definition item_open (label : pystr) : pystr :=
  spaces 28 ++ lit "<div class=`data-item`>" ++ newline ++
  spaces 32 ++ lit "<div class=`data-label`>" ++ label ++ lit "</div>" ++ newline ++
  spaces 32 ++ lit "<div class=`data-value`>".

Definition item_close : pystr :=
  lit "</div>" ++ newline ++ spaces 28 ++ lit "</div>" ++ newline.

Definition data_item (data : attrs) (field : pystr * pystr) : list (res pystr) :=
  let '(label, key) := field in
  [Ok (item_open label); fld (get_na data key); Ok item_close].

Definition data_grid (data : attrs) (fields : list (pystr * pystr)) : list (res pystr) :=
  concat (map (data_item data) fields).

Definition section_close : list pystr :=
  [lit "                        </div>";
  lit "                    </div>";
  lit "                    "].

Definition data_section (header : list pystr) (fields : list (pystr * pystr)) (data : attrs)
  : list (res pystr) :=
  [Ok (text_lines header)] ++ data_grid data fields ++ [Ok (text_lines section_close)].

Definition device_header : list pystr :=
  [lit "                    <!-- Device Information -->";
  lit "                    <div class=`data-section`>";
  lit "                        <div class=`section-header`>";
  lit "                            <div class=`section-icon device-icon`>" ++ [0xf8ff; 0xfc; 0xed; 0xe6]%N ++ lit "</div>";
  lit "                            <h2 class=`section-title`>Device Information</h2>";
  lit "                        </div>";
  lit "                        <div class=`data-grid`>"].
Definition device_fields : list (pystr * pystr) :=
  [(lit "Device Type", lit "device_type");
   (lit "Manufacturer", lit "manufacturer");
   (lit "Model", lit "model");
   (lit "Serial Number", lit "serial_number");
   (lit "Asset Tag", lit "asset_tag");
   (lit "Capacity", lit "capacity");
   (lit "Interface", lit "interface");
   (lit "Firmware Version", lit "firmware_version")].

Definition process_header : list pystr :=
  [lit "                    <!-- Sanitization Process -->";
  lit "                    <div class=`data-section`>";
  lit "                        <div class=`section-header`>";
  lit "                            <div class=`section-icon process-icon`>" ++ [0xf8ff; 0xfc; 0xee; 0xd1]%N ++ lit "</div>";
  lit "                            <h2 class=`section-title`>Sanitization Process</h2>";
  lit "                        </div>";
  lit "                        <div class=`data-grid`>"].
Definition process_fields : list (pystr * pystr) :=
  [(lit "Method Used", lit "sanitization_method");
   (lit "Standard Compliance", lit "standard_compliance");
   (lit "Number of Passes", lit "number_of_passes");
   (lit "Algorithm", lit "algorithm");
   (lit "Start Time", lit "start_time");
   (lit "Duration", lit "duration");
   (lit "Software Used", lit "software_used");
   (lit "Software Version", lit "software_version")].

Definition verification_header : list pystr :=
  [lit "                    <!-- Verification Results -->";
  lit "                    <div class=`data-section`>";
  lit "                        <div class=`section-header`>";
  lit "                            <div class=`section-icon verification-icon`>" ++ [0x201a; 0xfa; 0xec]%N ++ lit "</div>";
  lit "                            <h2 class=`section-title`>Verification Results</h2>";
  lit "                        </div>";
  lit "                        <div class=`data-grid`>"].
Definition verification_fields : list (pystr * pystr) :=
  [(lit "Pre-wipe Status", lit "pre_wipe_verification");
   (lit "Post-wipe Status", lit "post_wipe_verification");
   (lit "Verification Method", lit "verification_method");
   (lit "Sectors Processed", lit "sectors_processed");
   (lit "Data Remnants", lit "data_remnants");
   (lit "OS Installation", lit "os_installation_status");
   (lit "OS Version", lit "os_version");
   (lit "Boot Test", lit "boot_test_result")].

Definition additional_header : list pystr :=
  [lit "                    <!-- Additional Information -->";
  lit "                    <div class=`data-section`>";
  lit "                        <div class=`section-header`>";
  lit "                            <div class=`section-icon additional-icon`>" ++ [0xf8ff; 0xfc; 0xec; 0xe3]%N ++ lit "</div>";
  lit "                            <h2 class=`section-title`>Additional Information</h2>";
  lit "                        </div>";
  lit "                        <div class=`data-grid`>"].
Definition additional_fields : list (pystr * pystr) :=
  [(lit "Customer Name", lit "customer_name");
   (lit "Work Order", lit "work_order");
   (lit "Location", lit "location");
   (lit "Witness", lit "witness_name");
   (lit "Temperature", lit "temperature");
   (lit "Humidity", lit "humidity")].

Definition device_section (data : attrs) : list (res pystr) :=
  data_section device_header device_fields data.
Definition process_section (data : attrs) : list (res pystr) :=
  data_section process_header process_fields data.
Definition verification_section (data : attrs) : list (res pystr) :=
  data_section verification_header verification_fields data.

(** The additional section ends with the full-width notes item. *)
Definition additional_section (data : attrs) : list (res pystr) :=
  [Ok (text_lines additional_header)] ++ data_grid data additional_fields ++
  [Ok (text_lines [lit "                        </div>";
                     lit "                        ";
                     lit "                        <div class=`data-item` style=`grid-column: 1 / -1; margin-top: 15px;`>";
                     lit "                            <div class=`data-label`>Notes</div>"] ++ spaces 28 ++ lit "<div class=`data-value`>");
   fld (get_na data (lit "notes"));
   Ok (lit "</div>" ++ newline ++ text_lines [lit "                        </div>";
                     lit "                    </div>";
                     lit "                    "])].

(** *** The certification statement (lines 699-715) *)

Definition statement_lines : list pystr :=
  [lit "                    <!-- Certification Statement -->";
  lit "                    <div class=`certification-statement`>";
  lit "                        <h3 class=`statement-title`>Official Certification</h3>";
  lit "                        <p class=`statement-text`>";
  lit "                            This certificate verifies that the above-mentioned storage device has undergone comprehensive ";
  lit "                            data sanitization procedures in full compliance with industry standards and regulatory requirements.";
  lit "                        </p>";
  lit "                        <p class=`statement-text`>";
  lit "                            All confidential data has been permanently destroyed using cryptographically secure methods, ";
  lit "                            rendering any previously stored information completely irrecoverable through any known forensic techniques.";
  lit "                        </p>";
  lit "                        <p class=`statement-text`>";
  lit "                            <strong>This certification guarantees the complete sanitization of the specified device and ";
  lit "                            confirms its readiness for secure redeployment or disposal.</strong>";
  lit "                        </p>";
  lit "                    </div>";
  lit "                    "].

(** *** The signatures (lines 716-737) *)

(** [data.get(key, issue_date[:10])]: the default is sliced before the
    lookup, whether or not [key] is present. *)
Definition date_or_issue (data : attrs) (key : pystr) (issue_date : value) : res pystr :=
  d <- value_slice_to 10 issue_date ;; fld (dict_get data key d).

Definition signature_section (data : attrs) (issue_date : value) : list (res pystr) :=
  [Ok (text_lines [lit "                    <!-- Signatures -->";
                     lit "                    <div class=`signature-section`>";
                     lit "                        <div class=`section-header`>";
                     lit "                            <div class=`section-icon` style=`background: linear-gradient(135deg, #17a2b8, #138496);`>" ++ [0x201a; 0xfa; 0xe7; 0xd4; 0x220f; 0xe8]%N ++ lit "</div>";
                     lit "                            <h2 class=`section-title`>Authorization</h2>";
                     lit "                        </div>";
                     lit "                        <div class=`signature-grid`>";
                     lit "                            <div class=`signature-box`>";
                     lit "                                <div class=`signature-role`>Certified Technician</div>";
                     lit "                                <div class=`signature-line`></div>"] ++ spaces 32 ++ lit "<div class=`signature-name`>");
   fld (dict_get data (lit "technician_name") (VStr (lit "John Smith")));
   Ok (lit "</div>" ++ newline ++ spaces 32 ++ lit "<div class=`signature-date`>Date: ");
   date_or_issue data (lit "technician_date") issue_date;
   Ok (lit "</div>" ++ newline ++ text_lines [lit "                            </div>";
                     lit "                            <div class=`signature-box`>";
                     lit "                                <div class=`signature-role`>Quality Supervisor</div>";
                     lit "                                <div class=`signature-line`></div>"] ++ spaces 32 ++ lit "<div class=`signature-name`>");
   fld (dict_get data (lit "supervisor_name") (VStr (lit "Jane Doe")));
   Ok (lit "</div>" ++ newline ++ spaces 32 ++ lit "<div class=`signature-date`>Date: ");
   date_or_issue data (lit "supervisor_date") issue_date;
   Ok (lit "</div>" ++ newline ++ text_lines [lit "                            </div>";
                     lit "                        </div>";
                     lit "                    </div>";
                     lit "                    "])].

(** *** The footer (lines 738-755) *)

Definition footer_part (cert_id : value) (current_time : pystr) : list (res pystr) :=
  [Ok (text_lines [lit "                    <!-- Footer -->";
                     lit "                    <div class=`certificate-footer`>";
                     lit "                        <div class=`qr-code`>";
                     lit "                            QR CODE<br>"] ++ spaces 28);
   fld cert_id;
   Ok (newline ++ text_lines [lit "                        </div>";
                     lit "                        <p class=`footer-text`>";
                     lit "                            This certificate contains sensitive security information. Handle in accordance with data protection policies.";
                     lit "                        </p>";
                     lit "                        <p class=`footer-text`>"] ++ spaces 28 ++ lit "Generated: ");
   Ok current_time;
   Ok (lit " | Document ID: ");
   fld cert_id;
   Ok (lit " | Verification: secure-verify.com/");
   value_lower cert_id;
   Ok (newline ++ text_lines [lit "                        </p>";
                     lit "                    </div>";
                     lit "                </div>";
                     lit "            </div>";
                     lit "        </body>";
                     lit "        </html>"] ++ spaces 8)].


(** ** The composer *)

(** Everything above the footer. *)
Definition body_parts (data : attrs) (issue_date cert_id final_status : value)
    (status_badge_style : pystr) : list (res pystr) :=
  head_part cert_id ++ style_part status_badge_style ++
  info_bar_part data cert_id issue_date final_status ++
  device_section data ++ process_section data ++ verification_section data ++
  additional_section data ++ [Ok (text_lines statement_lines)] ++
  signature_section data issue_date.

Definition certificate_parts (data : attrs) (current_time : pystr)
    (issue_date cert_id final_status : value) (status_badge_style : pystr) : list (res pystr) :=
  body_parts data issue_date cert_id final_status status_badge_style ++
  footer_part cert_id current_time.

(** [issue_date = data.get('issue_date', current_time)]. *)
Definition resolve_issue_date (current_time : pystr) (data : attrs) : value :=
  dict_get data (lit "issue_date") (VStr current_time).

(** [cert_id = data.get('certificate_id', f'CERT-{...}')]: the default is
    drawn whether or not [certificate_id] is present, as Python evaluates
    the arguments of [data.get] first. *)
Definition resolve_cert_id (rnd : list Z) (data : attrs) : value :=
  dict_get data (lit "certificate_id") (VStr (Ident.generated_cert_id rnd)).

(** [final_status = data.get('final_status', 'VERIFIED')]. *)
Definition resolve_final_status (data : attrs) : value :=
  dict_get data (lit "final_status") (VStr (lit "VERIFIED")).

(** [create_certificate_html(data)] at clock reading [now], with [rnd] the
    sixteen bytes [uuid.uuid4()] draws. *)
Definition create_certificate_html (now : Clock.datetime) (rnd : list Z) (data : attrs) : res pystr :=
  let current_time := Clock.strftime_ymd_hms now in
  let issue_date := resolve_issue_date current_time data in
  let cert_id := resolve_cert_id rnd data in
  let final_status := resolve_final_status data in
  status_badge_style <- Status.get_status_badge_style final_status ;;
  fstring (certificate_parts data current_time issue_date cert_id final_status status_badge_style).

(** The [sample_data] of the module's main block (lines 899-937). *)
Definition sample_data : attrs :=
  list_to_map
  [(lit "certificate_id", VStr (lit "CERT-2024-FLAGSHIP-001"));
   (lit "issue_date", VStr (lit "2024-03-15 14:30:00"));
   (lit "verification_date", VStr (lit "2024-03-15"));
   (lit "technician_name", VStr (lit "Dr. Sarah Johnson"));
   (lit "supervisor_name", VStr (lit "Michael Chen"));
   (lit "device_type", VStr (lit "Enterprise SSD"));
   (lit "manufacturer", VStr (lit "Samsung"));
   (lit "model", VStr (lit "SSD 990 PRO"));
   (lit "serial_number", VStr (lit "S6M2NG0R987654"));
   (lit "asset_tag", VStr (lit "CORP-SSD-12345"));
   (lit "capacity", VStr (lit "2TB"));
   (lit "interface", VStr (lit "NVMe PCIe 4.0"));
   (lit "firmware_version", VStr (lit "4B2QGXA7"));
   (lit "sanitization_method", VStr (lit "Cryptographic Erase + Multi-Pass Overwrite"));
   (lit "standard_compliance", VStr (lit "NIST SP 800-88 Rev. 1, DoD 5220.22-M"));
   (lit "number_of_passes", VStr (lit "3"));
   (lit "algorithm", VStr (lit "AES-256 + Gutmann Method"));
   (lit "start_time", VStr (lit "2024-03-15 08:00:00"));
   (lit "duration", VStr (lit "2 hours 15 minutes"));
   (lit "software_used", VStr (lit "SecureErase Pro Enterprise"));
   (lit "software_version", VStr (lit "3.2.1"));
   (lit "pre_wipe_verification", VStr (lit "Confidential Data Detected"));
   (lit "post_wipe_verification", VStr (lit "No Data Remnants Found"));
   (lit "verification_method", VStr (lit "Hexadecimal Deep Scan + Entropy Analysis"));
   (lit "sectors_processed", VStr (lit "3,907,050,336"));
   (lit "data_remnants", VStr (lit "None Detected (0.00%)"));
   (lit "os_installation_status", VStr (lit "Windows 11 Enterprise Installed"));
   (lit "os_version", VStr (lit "Windows 11 Enterprise 22H2 Build 22621"));
   (lit "boot_test_result", VStr (lit "Successful - All Systems Operational"));
   (lit "final_status", VStr (lit "PASSED"));
   (lit "customer_name", VStr (lit "GlobalTech Industries"));
   (lit "work_order", VStr (lit "WO-2024-SEC-001"));
   (lit "location", VStr (lit "Secure Data Center - Building A"));
   (lit "witness_name", VStr (lit "Alex Rodriguez (Security Officer)"));
   (lit "temperature", VStr (lit "21" ++ [0xac; 0x221e]%N ++ lit "C " ++ [0xac; 0xb1]%N ++ lit " 1" ++ [0xac; 0x221e]%N ++ lit "C"));
   (lit "humidity", VStr (lit "45% RH " ++ [0xac; 0xb1]%N ++ lit " 5%"));
   (lit "notes", VStr (lit "Enterprise-grade sanitization completed with full compliance verification. Device certified for secure redeployment in production environment."))].


(** Sixteen random bytes for the witnesses. *)
Definition sample_rnd : list Z := [0x12; 0x34; 0xab; 0xcd; 0; 0; 0; 0; 0; 0; 0; 0; 0; 0; 0; 0]%Z.

(** ** Lemmas on f-strings *)

Lemma fstring_app (ps1 ps2 : list (res pystr)) :
  fstring (ps1 ++ ps2) = (s1 <- fstring ps1 ;; s2 <- fstring ps2 ;; Ok (s1 ++ s2)).
Proof.
  induction ps1 as [|p ps1 IH]; simpl.
  - by destruct (fstring ps2).
  - destruct p as [a|e]; simpl; [|done]. rewrite IH.
    destruct (fstring ps1) as [b|]; simpl; [|done].
    destruct (fstring ps2); simpl; [|done]. by rewrite app_assoc.
Qed.

Lemma fstring_map_Ok (l : list pystr) : fstring (map Ok l) = Ok (concat l).
Proof. induction l as [|a l IH]; simpl; [done|]. by rewrite IH. Qed.

(** An f-string succeeds exactly when every part does. *)
Lemma fstring_is_ok (ps : list (res pystr)) : is_ok (fstring ps) = forallb is_ok ps.
Proof.
  induction ps as [|p ps IH]; simpl; [done|].
  destruct p; simpl; [|done]. rewrite <- IH. by destruct (fstring ps).
Qed.

(** Consecutive successful parts of a successful f-string appear, joined,
    in its value. *)
Lemma fstring_window (ps : list (res pystr)) (mid : list pystr) (doc : pystr) :
  fstring ps = Ok doc -> segment_of (map Ok mid) ps -> py_in (concat mid) doc = true.
Proof.
  intros Hf [pre [post ->]]. rewrite !fstring_app, fstring_map_Ok in Hf.
  destruct (fstring pre) as [a|]; simpl in Hf; [|done].
  destruct (fstring post) as [b|]; simpl in Hf; [|done].
  injection Hf as <-. apply py_in_app_r, py_in_app_l, py_in_spec. exists [], []. by rewrite app_nil_r.
Qed.

(** A window of a document trimmed to a suffix of its left part and a
    prefix of its right part. *)
Lemma py_in_trim (x m y a c doc : pystr) :
  starts_with (rev x) (rev a) = true -> starts_with y c = true ->
  py_in (a ++ m ++ c) doc = true -> py_in (x ++ m ++ y) doc = true.
Proof.
  intros [r Hr]%starts_with_spec [r2 ->]%starts_with_spec.
  apply (f_equal (@rev N)) in Hr. rewrite rev_involutive, rev_app_distr, rev_involutive in Hr. subst a.
  apply py_in_trans. apply py_in_spec. exists (rev r), r2. by rewrite <- !app_assoc.
Qed.

Lemma data_grid_ok (data : attrs) (fields : list (pystr * pystr)) :
  forallb is_ok (data_grid data fields) = true.
Proof.
  unfold data_grid. induction fields as [|[l k] fs IH]; simpl; [done|]. exact IH.
Qed.

Lemma data_grid_infix (data : attrs) (fields : list (pystr * pystr)) f :
  In f fields -> segment_of (data_item data f) (data_grid data fields).
Proof.
  unfold data_grid. induction fields as [|g fs IH]; simpl; [done|].
  intros [-> | Hin].
  - apply segment_of_app_l, segment_of_refl.
  - apply segment_of_app_r, IH, Hin.
Qed.

#[export] Hint Resolve data_grid_infix : pycert.

Lemma date_or_issue_ok data key (v : value) : is_ok (date_or_issue data key v) = is_str v.
Proof. by destruct v. Qed.

(** Every part of the template but the signature dates and the lower-cased
    identifier is a plain value or text. *)
Lemma certificate_parts_ok data ct (issue_date cert_id final_status : value) badge :
  forallb is_ok (certificate_parts data ct issue_date cert_id final_status badge) =
  is_str issue_date && is_str cert_id.
Proof.
  unfold certificate_parts, body_parts, device_section, process_section, verification_section,
    additional_section, data_section.
  rewrite !forallb_app, !data_grid_ok.
  cbn [forallb head_part style_part info_bar_part signature_section footer_part fld is_ok andb].
  rewrite !date_or_issue_ok, value_lower_ok, !andb_true_r.
  by destruct (is_str issue_date), (is_str cert_id).
Qed.

(** ** Theorems *)

(** C1: the composer raises exactly when the final status is a true
    non-string value ([.lower()] fails), or the issue date or the
    certificate identifier is not a string ([[:10]] and [.lower()] fail);
    on every attribute set of strings, empty included, it succeeds. *)
Theorem create_certificate_html_ok (now : Clock.datetime) (rnd : list Z) (data : attrs) :
  is_ok (create_certificate_html now rnd data) =
  (negb (truthy (resolve_final_status data)) || is_str (resolve_final_status data)) &&
  is_str (resolve_issue_date (Clock.strftime_ymd_hms now) data) &&
  is_str (resolve_cert_id rnd data).
Proof.
  unfold create_certificate_html. rewrite <- Status.badge_ok.
  destruct (Status.get_status_badge_style _) as [badge|e]; cbn [res_bind is_ok orb andb]; [|done].
  by rewrite fstring_is_ok, certificate_parts_ok.
Qed.

(** What a successful composition is made of. *)
Lemma create_certificate_html_Ok_inv (now : Clock.datetime) (rnd : list Z) (data : attrs) doc :
  create_certificate_html now rnd data = Ok doc ->
  exists badge cid idate,
    Status.get_status_badge_style (resolve_final_status data) = Ok badge /\
    resolve_cert_id rnd data = VStr cid /\
    resolve_issue_date (Clock.strftime_ymd_hms now) data = VStr idate /\
    fstring (certificate_parts data (Clock.strftime_ymd_hms now) (VStr idate) (VStr cid)
               (resolve_final_status data) badge) = Ok doc.
Proof.
  unfold create_certificate_html.
  destruct (Status.get_status_badge_style _) as [badge|e]; cbn [res_bind]; [|discriminate].
  intros H. pose proof (f_equal is_ok H) as Hok. cbn [is_ok] in Hok.
  rewrite fstring_is_ok, certificate_parts_ok in Hok.
  destruct (resolve_issue_date _ _) as [idate| | |], (resolve_cert_id _ _) as [cid| | |];
    try discriminate. eauto 10.
Qed.

Lemma data_item_in_parts data ct idate cid fs badge f :
  In f (device_fields ++ process_fields ++ verification_fields ++ additional_fields) ->
  segment_of (data_item data f) (certificate_parts data ct idate cid fs badge).
Proof.
  unfold certificate_parts, body_parts, device_section, process_section,
    verification_section, additional_section, data_section.
  rewrite !in_app_iff. intros [H|[H|[H|H]]]; apply segment_of_app_l.
  - do 3 apply segment_of_app_r. apply segment_of_app_l. eauto with pycert.
  - do 4 apply segment_of_app_r. apply segment_of_app_l. eauto with pycert.
  - do 5 apply segment_of_app_r. apply segment_of_app_l. eauto with pycert.
  - do 6 apply segment_of_app_r. apply segment_of_app_l. eauto with pycert.
Qed.

(** The window lemma for three consecutive parts. *)
Lemma fstring_window3 (ps : list (res pystr)) (a m c doc : pystr) :
  fstring ps = Ok doc -> segment_of [Ok a; Ok m; Ok c] ps -> py_in (a ++ m ++ c) doc = true.
Proof.
  intros Hf Hs. pose proof (fstring_window ps [a; m; c] doc Hf Hs) as Hw.
  cbn [concat] in Hw. by rewrite app_nil_r in Hw.
Qed.

(** ** Theorems *)

(** C15: every attribute of the four data grids is shown in its own slot,
    after its label, as [data.get(key, 'N/A')]: a given attribute is shown
    as [str] of its value, an omitted one as ["N/A"]. *)
Theorem grid_field_shown (now : Clock.datetime) (rnd : list Z) (data : attrs) doc label key :
  create_certificate_html now rnd data = Ok doc ->
  In (label, key) (device_fields ++ process_fields ++ verification_fields ++ additional_fields) ->
  py_in (item_open label ++
         py_str (match data !! key with Some v => v | None => VStr (lit "N/A") end) ++
         item_close) doc = true.
Proof.
  intros (badge & cid & idate & _ & _ & _ & Hf)%create_certificate_html_Ok_inv Hin.
  apply (fstring_window3 _ _ _ _ _ Hf).
  replace (match data !! key with Some v => v | None => VStr (lit "N/A") end)
    with (get_na data key) by (unfold get_na, dict_get; by destruct (data !! key)).
  by apply (data_item_in_parts data _ _ _ _ _ (label, key)).
Qed.

(** C4: the resolved identifier (the caller's [certificate_id], or the
    generated one) is a string and appears in the title, the information
    bar, the QR placeholder and the footer, where the verification link
    carries its lower-cased form. *)
Theorem cert_id_in_every_slot (now : Clock.datetime) (rnd : list Z) (data : attrs) doc :
  create_certificate_html now rnd data = Ok doc ->
  exists cid, resolve_cert_id rnd data = VStr cid /\
  py_in (lit "<title>Certificate of Authenticity - " ++ cid ++ lit "</title>") doc = true /\
  py_in (lit "<span class=`info-value`>" ++ cid ++ lit "</span>") doc = true /\
  py_in (lit "QR CODE<br>" ++ newline ++ spaces 28 ++ cid ++ newline) doc = true /\
  py_in (lit "Document ID: " ++ cid ++ lit " | Verification: secure-verify.com/" ++ py_lower cid)
    doc = true.
Proof.
  intros (badge & cid & idate & _ & Hcid & _ & Hf)%create_certificate_html_Ok_inv.
  exists cid. split; [done|]. unfold certificate_parts, body_parts in Hf.
  repeat split.
  - eapply py_in_trim; cycle 2.
    { apply (fstring_window3 _ _ _ _ _ Hf). apply segment_of_app_l, segment_of_app_l.
      unfold head_part. apply segment_of_refl. }
    all: vm_compute; reflexivity.
  - eapply py_in_trim; cycle 2.
    { apply (fstring_window3 _ _ _ _ _ Hf). apply segment_of_app_l.
      do 2 apply segment_of_app_r. apply segment_of_app_l. unfold info_bar_part.
      exists [], (drop 3 (info_bar_part data (VStr cid) (VStr idate) (resolve_final_status data))).
      reflexivity. }
    all: vm_compute; reflexivity.
  - eapply (py_in_trim (lit "QR CODE<br>" ++ newline ++ spaces 28) cid newline); cycle 2.
    { apply (fstring_window3 _ _ _ _ _ Hf). apply segment_of_app_r. unfold footer_part.
      exists [], (drop 3 (footer_part (VStr cid) (Clock.strftime_ymd_hms now))). reflexivity. }
    all: vm_compute; reflexivity.
  - rewrite <- (app_nil_r (cid ++ _)).
    eapply (py_in_trim _ _ [] (lit " | Document ID: ") []); [vm_compute; reflexivity | done |].
    rewrite app_nil_r.
    assert (Hs : segment_of (map Ok [lit " | Document ID: "; cid;
                   lit " | Verification: secure-verify.com/"; py_lower cid])
                   ((head_part (VStr cid) ++ style_part badge ++
                     info_bar_part data (VStr cid) (VStr idate) (resolve_final_status data) ++
                     device_section data ++ process_section data ++ verification_section data ++
                     additional_section data ++ [Ok (text_lines statement_lines)] ++
                     signature_section data (VStr idate)) ++
                    footer_part (VStr cid) (Clock.strftime_ymd_hms now))).
    { apply segment_of_app_r. unfold footer_part.
      exists (take 4 (footer_part (VStr cid) (Clock.strftime_ymd_hms now))),
        (drop 8 (footer_part (VStr cid) (Clock.strftime_ymd_hms now))). reflexivity. }
    pose proof (fstring_window _ _ doc Hf Hs) as Hw.
    cbn [concat] in Hw. by rewrite app_nil_r in Hw.
Qed.

Lemma fstring_mid (P1 P2 : list (res pystr)) (x : pystr) :
  fstring (P1 ++ [Ok x] ++ P2) = (a <- fstring P1 ;; b <- fstring P2 ;; Ok (a ++ x ++ b)).
Proof.
  rewrite !fstring_app. cbn [fstring res_bind]. rewrite app_nil_r.
  destruct (fstring P1); cbn [res_bind]; [|done]. by destruct (fstring P2).
Qed.

(** The clock reading is one part of the footer. *)
Lemma certificate_parts_split data ct idate cid fs badge :
  certificate_parts data ct idate cid fs badge =
  (body_parts data idate cid fs badge ++ take 3 (footer_part cid [])) ++ [Ok ct] ++
  drop 4 (footer_part cid []).
Proof. unfold certificate_parts. rewrite <- app_assoc. f_equal. Qed.

(** C22: with [issue_date] and [certificate_id] supplied, two compositions
    at any two clock readings and with any random draws give the same
    document but for the [Generated:] time stamp of the footer. *)
Theorem compose_clock_only_in_footer (now1 now2 : Clock.datetime) (rnd1 rnd2 : list Z)
    (data : attrs) doc1 :
  is_Some (data !! lit "issue_date") -> is_Some (data !! lit "certificate_id") ->
  create_certificate_html now1 rnd1 data = Ok doc1 ->
  exists pre post,
    doc1 = pre ++ Clock.strftime_ymd_hms now1 ++ post /\
    create_certificate_html now2 rnd2 data = Ok (pre ++ Clock.strftime_ymd_hms now2 ++ post).
Proof.
  intros [v1 Hv1] [v2 Hv2]. unfold create_certificate_html, resolve_issue_date, resolve_cert_id.
  rewrite !(dict_get_present _ _ _ _ Hv1), !(dict_get_present _ _ _ _ Hv2).
  destruct (Status.get_status_badge_style _) as [badge|e]; cbn [res_bind]; [|intros ?; discriminate].
  rewrite !certificate_parts_split, !fstring_mid.
  destruct (fstring (body_parts data v1 v2 (resolve_final_status data) badge ++ take 3 (footer_part v2 []))) as [a|]; cbn [res_bind]; [|intros ?; discriminate].
  destruct (fstring (drop 4 (footer_part v2 []))) as [b|]; cbn [res_bind]; [|intros ?; discriminate].
  intros [= <-]. by exists a, b.
Qed.

Lemma compose_clock_only_in_footer_witness :
  let data : attrs := <[lit "issue_date" := VStr (lit "2024-03-15 14:30:00")]>
                      (<[lit "certificate_id" := VStr (lit "CERT-TEST-1")]> ∅) in
  exists doc1, create_certificate_html (Clock.mk_datetime 2024 3 15 14 30 0 0) [] data = Ok doc1 /\
  exists pre post,
    doc1 = pre ++ Clock.strftime_ymd_hms (Clock.mk_datetime 2024 3 15 14 30 0 0) ++ post /\
    create_certificate_html (Clock.mk_datetime 2025 1 1 0 0 0 0) [1%Z] data =
      Ok (pre ++ Clock.strftime_ymd_hms (Clock.mk_datetime 2025 1 1 0 0 0 0) ++ post).
Proof.
  intros data.
  destruct (create_certificate_html (Clock.mk_datetime 2024 3 15 14 30 0 0) [] data) as [doc1|e] eqn:E;
    [|vm_compute in E; discriminate].
  exists doc1. split; [reflexivity|].
  apply (compose_clock_only_in_footer _ _ [] [1%Z] data doc1); [by eexists | by eexists | exact E].
Defined.

Lemma grid_field_shown_witness :
  exists doc,
    create_certificate_html (Clock.mk_datetime 2024 3 15 14 30 0 0) []
      (delete (lit "capacity") sample_data) = Ok doc /\
    py_in (item_open (lit "Capacity") ++ lit "N/A" ++ item_close) doc = true /\
    py_in (item_open (lit "Temperature") ++ (lit "21" ++ [0xac; 0x221e]%N ++ lit "C " ++ [0xac; 0xb1]%N ++ lit " 1" ++ [0xac; 0x221e]%N ++ lit "C") ++ item_close) doc = true.
Proof.
  destruct (is_ok_Ok (create_certificate_html (Clock.mk_datetime 2024 3 15 14 30 0 0) []
              (delete (lit "capacity") sample_data))) as [doc E]; [vm_compute; reflexivity|].
  exists doc. split; [exact E|]. split.
  - exact (grid_field_shown _ _ _ doc (lit "Capacity") (lit "capacity") E
             ltac:(rewrite <- list_elem_of_In; apply (bool_decide_unpack _); vm_compute; reflexivity)).
  - pose proof (grid_field_shown _ _ _ doc (lit "Temperature") (lit "temperature") E
      ltac:(rewrite <- list_elem_of_In; apply (bool_decide_unpack _); vm_compute; reflexivity)) as H.
    match type of H with py_in (_ ++ py_str ?m ++ _) _ = true =>
      replace m with (VStr (lit "21" ++ [0xac; 0x221e]%N ++ lit "C " ++ [0xac; 0xb1]%N ++ lit " 1" ++ [0xac; 0x221e]%N ++ lit "C")) in H by (vm_compute; reflexivity) end.
    exact H.
Defined.

Lemma cert_id_in_every_slot_witness :
  exists doc,
    create_certificate_html (Clock.mk_datetime 2024 3 15 14 30 0 0)
      sample_rnd ∅ = Ok doc /\
    exists cid, resolve_cert_id sample_rnd ∅
                = VStr cid /\
    py_in (lit "Document ID: " ++ cid ++ lit " | Verification: secure-verify.com/" ++ py_lower cid)
      doc = true.
Proof.
  destruct (is_ok_Ok (create_certificate_html (Clock.mk_datetime 2024 3 15 14 30 0 0)
              sample_rnd ∅)) as [doc E];
    [vm_compute; reflexivity|].
  exists doc. split; [exact E|].
  destruct (cert_id_in_every_slot _ _ _ doc E) as (cid & Hc & _ & _ & _ & H4).
  eauto.
Defined.

End Composer.
