(* ===== verification/Utf8.v ===== *)
(** The text encoding of the temporary HTML file: [NamedTemporaryFile(mode='w',
    encoding='utf-8')] ([src/app.py] line 767) turns the [str] written to it
    into bytes with CPython's strict UTF-8 encoder, after translating each
    newline to [os.linesep].  The strict encoder raises [UnicodeEncodeError]
    on the first run of surrogate code points (U+D800 to U+DFFF), which a
    JSON request can carry as [\ud800] escapes.  [utf8_decode] is the
    reference UTF-8 decoder of RFC 3629, by which the renderer reads the
    file back; the round-trip theorem shows that the encoding keeps every
    character, as the spec requires. *)

From S2P Require Import Prelude Ident.

Module Utf8.

Local Open Scope N_scope.

(** ** The encoder *)

Definition is_surrogate (c : N) : bool := (0xD800 <=? c) && (c <=? 0xDFFF).

(** The bytes of one code point, as CPython's [unicode_encode_utf8]
    writes them. *)
Definition encode_cp (c : N) : list N :=
  if c <? 0x80 then [c]
  else if c <? 0x800 then
    [N.lor 0xC0 (N.shiftr c 6); N.lor 0x80 (N.land c 0x3F)]
  else if c <? 0x10000 then
    [N.lor 0xE0 (N.shiftr c 12); N.lor 0x80 (N.land (N.shiftr c 6) 0x3F);
     N.lor 0x80 (N.land c 0x3F)]
  else
    [N.lor 0xF0 (N.shiftr c 18); N.lor 0x80 (N.land (N.shiftr c 12) 0x3F);
     N.lor 0x80 (N.land (N.shiftr c 6) 0x3F); N.lor 0x80 (N.land c 0x3F)].

(** The number of surrogates at the head of [s]: the run the error
    reports. *)
Fixpoint surrogate_run (s : pystr) : nat :=
  match s with
  | c :: r => if is_surrogate c then S (surrogate_run r) else O
  | [] => O
  end.

(** [str(UnicodeEncodeError)] for the surrogates [c ...] at positions
    [start] to [stop - 1]. *)
Definition surrogate_error (c : N) (start stop : nat) : exc :=
  UnicodeEncodeError
    (if Nat.eqb stop (S start) then
       lit "'utf-8' codec can't encode character '\u" ++ Ident.hex_fixed 4 (Z.of_N c) ++
       lit "' in position " ++ dec_N (N.of_nat start) ++ lit ": surrogates not allowed"
     else
       lit "'utf-8' codec can't encode characters in position " ++ dec_N (N.of_nat start) ++
       lit "-" ++ dec_N (N.of_nat (stop - 1)) ++ lit ": surrogates not allowed").

(** Encode [s], whose first code point is at position [i]. *)
Fixpoint encode_from (i : nat) (s : pystr) : res (list N) :=
  match s with
  | [] => Ok []
  | c :: r =>
      if is_surrogate c then Raise (surrogate_error c i (i + surrogate_run s))
      else b <- encode_from (S i) r ;; Ok (encode_cp c ++ b)
  end.

(** [s.encode('utf-8')]. *)
Definition utf8_encode (s : pystr) : res (list N) := encode_from 0 s.

(** Newline translation of a text-mode write: [\n] becomes [linesep]. *)
Definition translate_newlines (linesep : pystr) (s : pystr) : pystr :=
  concat (map (fun c => if N.eqb c 10 then linesep else [c]) s).

(** ** The reference decoder (RFC 3629) *)

Definition is_cont (b : N) : bool := (0x80 <=? b) && (b <? 0xC0).

Fixpoint utf8_decode (bs : list N) : option pystr :=
  match bs with
  | [] => Some []
  | b0 :: r =>
      if b0 <? 0x80 then cons b0 <$> utf8_decode r
      else if (0xC2 <=? b0) && (b0 <? 0xE0) then
        match r with
        | b1 :: r' =>
            if is_cont b1 then
              cons ((b0 - 0xC0) * 64 + (b1 - 0x80)) <$> utf8_decode r'
            else None
        | _ => None
        end
      else if (0xE0 <=? b0) && (b0 <? 0xF0) then
        match r with
        | b1 :: b2 :: r' =>
            let cp := (b0 - 0xE0) * 4096 + (b1 - 0x80) * 64 + (b2 - 0x80) in
            if is_cont b1 && is_cont b2 && (0x800 <=? cp) && negb (is_surrogate cp) then
              cons cp <$> utf8_decode r'
            else None
        | _ => None
        end
      else if (0xF0 <=? b0) && (b0 <? 0xF5) then
        match r with
        | b1 :: b2 :: b3 :: r' =>
            let cp := (b0 - 0xF0) * 262144 + (b1 - 0x80) * 4096 + (b2 - 0x80) * 64 + (b3 - 0x80) in
            if is_cont b1 && is_cont b2 && is_cont b3 && (0x10000 <=? cp) && (cp <=? 0x10FFFF) then
              cons cp <$> utf8_decode r'
            else None
        | _ => None
        end
      else None
  end.

(** A Python [str] holds code points up to U+10FFFF. *)
Definition valid_cp (c : N) : Prop := c <= 0x10FFFF.

(** ** Lemmas *)

(** The bytes of [encode_cp], as numbers. *)
Lemma encode_cp_arith (c : N) :
  c <= 0x10FFFF ->
  encode_cp c =
  if c <? 0x80 then [c]
  else if c <? 0x800 then [0xC0 + c / 64; 0x80 + c mod 64]
  else if c <? 0x10000 then [0xE0 + c / 4096; 0x80 + (c / 64) mod 64; 0x80 + c mod 64]
  else [0xF0 + c / 262144; 0x80 + (c / 4096) mod 64; 0x80 + (c / 64) mod 64; 0x80 + c mod 64].
Proof.
  intros Hc. unfold encode_cp.
  assert (Hm : forall a, N.lor 0x80 (N.land a 0x3F) = 0x80 + a mod 64).
  { intros a. change 0x3F with (N.ones 6). rewrite N.land_ones.
    apply (lor_const _ 2 6); [done|]. apply N.mod_lt. lia. }
  rewrite !N.shiftr_div_pow2, !Hm. change (2 ^ 6) with 64. change (2 ^ 12) with 4096.
  change (2 ^ 18) with 262144.
  destruct (N.ltb_spec c 0x80); [done|].
  destruct (N.ltb_spec c 0x800); [rewrite (lor_const 0xC0 6 5); [done | reflexivity | change (2 ^ 5) with 32; apply N.Div0.div_lt_upper_bound; lia]|].
  destruct (N.ltb_spec c 0x10000); [rewrite (lor_const 0xE0 14 4); [done | reflexivity | change (2 ^ 4) with 16; apply N.Div0.div_lt_upper_bound; lia]|].
  rewrite (lor_const 0xF0 30 3); [done | reflexivity | change (2 ^ 3) with 8; apply N.Div0.div_lt_upper_bound; lia].
Qed.

(** Decide the comparisons of the goal by arithmetic. *)
Ltac decide_tests :=
  repeat match goal with
  | |- context [(?a <? ?b)] => destruct (N.ltb_spec a b); try lia
  | |- context [(?a <=? ?b)] => destruct (N.leb_spec a b); try lia
  end.

Lemma div_mod64 (c : N) : c = 64 * (c / 64) + c mod 64 /\ c mod 64 < 64.
Proof. split; [apply N.div_mod; lia | apply N.mod_lt; lia]. Qed.

(** Decoding the bytes of one code point gives it back. *)
Lemma decode_encode_cp (c : N) (r : list N) :
  c <= 0x10FFFF -> is_surrogate c = false ->
  utf8_decode (encode_cp c ++ r) = cons c <$> utf8_decode r.
Proof.
  intros Hc Hs. unfold is_surrogate in Hs.
  assert (Hs' : c < 0xD800 \/ 0xDFFF < c).
  { destruct (N.leb_spec 0xD800 c), (N.leb_spec c 0xDFFF); simpl in Hs; [discriminate|lia..]. }
  clear Hs. rewrite (encode_cp_arith c Hc).
  destruct (div_mod64 c) as [E0 M0]. destruct (div_mod64 (c / 64)) as [E1 M1].
  destruct (div_mod64 (c / 64 / 64)) as [E2 M2].
  rewrite N.Div0.div_div in E1, E2, M2. rewrite N.Div0.div_div in E2.
  change (64 * 64) with 4096 in *. change (4096 * 64) with 262144 in *.
  set (q0 := c / 64) in *. set (q1 := c / 4096) in *. set (q2 := c / 262144) in *.
  set (r0 := c mod 64) in *. set (r1 := q0 mod 64) in *. set (r2 := q1 mod 64) in *.
  clearbody q0 q1 q2 r0 r1 r2.
  destruct (N.ltb_spec c 0x80) as [H1|H1].
  { cbn [app utf8_decode]. by decide_tests. }
  destruct (N.ltb_spec c 0x800) as [H2|H2].
  { cbn [app utf8_decode]. unfold is_cont. decide_tests. cbn [andb].
    f_equal. f_equal. lia. }
  destruct (N.ltb_spec c 0x10000) as [H3|H3].
  { cbn [app utf8_decode]. unfold is_cont, is_surrogate. cbn [andb negb].
    decide_tests; cbn [andb negb]; decide_tests; f_equal; f_equal; lia. }
  cbn [app utf8_decode]. unfold is_cont. cbn [andb negb].
  decide_tests; cbn [andb negb]; decide_tests; f_equal; f_equal; lia.
Qed.

(** The code points a UTF-8 encoding keeps: those of a Python [str] that
    are not surrogates. *)
Definition encodable (c : N) : Prop := c <= 0x10FFFF /\ is_surrogate c = false.

Lemma encode_from_ok i (s : pystr) :
  is_ok (encode_from i s) = forallb (fun c => negb (is_surrogate c)) s.
Proof.
  revert i; induction s as [|c s IH]; intros i; cbn [encode_from forallb]; [done|].
  destruct (is_surrogate c); cbn [negb andb]; [done|].
  rewrite <- (IH (S i)). by destruct (encode_from (S i) s).
Qed.

Lemma encode_cp_bytes (c : N) : c <= 0x10FFFF -> Forall (fun b => b < 256) (encode_cp c).
Proof.
  intros Hc. rewrite (encode_cp_arith c Hc).
  destruct (div_mod64 c) as [E0 M0]. destruct (div_mod64 (c / 64)) as [E1 M1].
  rewrite N.Div0.div_div in E1. change (64 * 64) with 4096 in *.
  set (q0 := c / 64) in *. set (q1 := c / 4096) in *. set (q2 := c / 262144).
  assert (q2 < 5) by (subst q2; apply N.Div0.div_lt_upper_bound; lia).
  pose proof (N.mod_lt q1 64 ltac:(lia)). pose proof (N.mod_lt q0 64 ltac:(lia)).
  set (r0 := c mod 64) in *. set (r1 := q0 mod 64) in *. set (r2 := q1 mod 64) in *.
  clearbody q0 q1 q2 r0 r1 r2.
  destruct (N.ltb_spec c 0x80); [|destruct (N.ltb_spec c 0x800);
    [|destruct (N.ltb_spec c 0x10000)]];
  repeat (apply List.Forall_cons; [lia|]); apply List.Forall_nil.
Qed.

Lemma length_encode_cp (c : N) : c <= 0x10FFFF ->
  (1 <= length (encode_cp c) <= 4)%nat.
Proof.
  intros Hc. rewrite (encode_cp_arith c Hc).
  destruct (c <? 0x80); [simpl; lia|]. destruct (c <? 0x800); [simpl; lia|].
  destruct (c <? 0x10000); simpl; lia.
Qed.

(** Decoding ASCII bytes is the identity: [bytes.decode('utf-8')] of an
    ASCII text. *)
Lemma utf8_decode_ascii (bs : list N) :
  Forall (fun b => b < 128) bs -> utf8_decode bs = Some bs.
Proof.
  induction 1 as [|b bs Hb _ IH]; [done|]. cbn [utf8_decode].
  rewrite (proj2 (N.ltb_lt _ _) Hb), IH. done.
Qed.

(** What the encoder writes decodes back to the string. *)
Lemma encode_from_decode i (s : pystr) bs :
  Forall (fun c => c <= 0x10FFFF) s -> encode_from i s = Ok bs -> utf8_decode bs = Some s.
Proof.
  intros Hv. revert i bs.
  induction Hv as [|c s Hc Hv IH]; intros i bs; cbn [encode_from].
  - intros [= <-]. done.
  - destruct (is_surrogate c) eqn:Hs; [discriminate|].
    destruct (encode_from (S i) s) as [b|] eqn:E; cbn [res_bind]; [|discriminate].
    intros [= <-]. rewrite decode_encode_cp by done. by rewrite (IH (S i) b E).
Qed.

(** ** Theorems *)

(** C23: the encoder succeeds exactly on the strings without surrogates,
    and what it writes decodes back to the string: the file keeps every
    character of the document. *)
Theorem utf8_roundtrip (s : pystr) :
  Forall (fun c => c <= 0x10FFFF) s ->
  (is_ok (utf8_encode s) = forallb (fun c => negb (is_surrogate c)) s) /\
  (forall bs, utf8_encode s = Ok bs -> utf8_decode bs = Some s).
Proof. intros Hv. split; [apply encode_from_ok | intros bs; by apply encode_from_decode]. Qed.

Lemma encode_from_bounds i (s : pystr) bs :
  Forall (fun c => c <= 0x10FFFF) s -> encode_from i s = Ok bs ->
  Forall (fun b => b < 256) bs /\ (length s <= length bs <= 4 * length s)%nat.
Proof.
  intros Hv. revert i bs.
  induction Hv as [|c s Hc Hv IH]; intros i bs; cbn [encode_from].
  - intros [= <-]. split; [apply List.Forall_nil | simpl; lia].
  - destruct (is_surrogate c); [intros ?; discriminate|].
    destruct (encode_from (S i) s) as [b|] eqn:E; cbn [res_bind]; [|discriminate].
    intros [= <-]. destruct (IH (S i) b E) as [Hb Hl].
    pose proof (length_encode_cp c Hc). pose proof (encode_cp_bytes c Hc).
    split; [apply Forall_app; by split|]. rewrite length_app. cbn [length]. lia.
Qed.

(** the bytes written are bytes, between one and four per code
    point. *)
Theorem utf8_encode_bounds (s : pystr) bs :
  Forall (fun c => c <= 0x10FFFF) s -> utf8_encode s = Ok bs ->
  Forall (fun b => b < 256) bs /\ (length s <= length bs <= 4 * length s)%nat.
Proof. apply encode_from_bounds. Qed.

(** C31: on a string whose first surrogate is at position [length pre],
    the encoder raises [UnicodeEncodeError] naming that position and the
    run of surrogates that starts there. *)
Theorem utf8_encode_surrogate (pre post : pystr) (c : N) :
  forallb (fun c => negb (is_surrogate c)) pre = true -> is_surrogate c = true ->
  utf8_encode (pre ++ c :: post) =
  Raise (surrogate_error c (length pre) (length pre + surrogate_run (c :: post))).
Proof.
  intros Hpre Hc. unfold utf8_encode.
  assert (Hgen : forall i, encode_from i (pre ++ c :: post) =
            Raise (surrogate_error c (i + length pre) (i + length pre + surrogate_run (c :: post)))).
  { induction pre as [|d pre IH]; intros i; cbn [app encode_from length].
    - rewrite Nat.add_0_r, Hc. done.
    - cbn [forallb] in Hpre. apply andb_prop in Hpre as [Hd Hpre].
      destruct (is_surrogate d); [discriminate|]. rewrite (IH Hpre (S i)). cbn [res_bind].
      do 2 f_equal; lia. }
  apply Hgen.
Qed.

Lemma utf8_encode_surrogate_witness :
  utf8_encode (lit "ab" ++ 0xD800 :: lit "c") =
  Raise (UnicodeEncodeError
           (lit "'utf-8' codec can't encode character '\ud800' in position 2: surrogates not allowed")).
Proof.
  rewrite (utf8_encode_surrogate (lit "ab") (lit "c") 0xD800 eq_refl eq_refl).
  vm_compute. reflexivity.
Defined.

Lemma utf8_roundtrip_witness :
  utf8_encode (lit "21" ++ [0xB0; 0x2713; 0x1F4BE] ++ lit "C") =
    Ok [50; 49; 0xC2; 0xB0; 0xE2; 0x9C; 0x93; 0xF0; 0x9F; 0x92; 0xBE; 67] /\
  utf8_decode [50; 49; 0xC2; 0xB0; 0xE2; 0x9C; 0x93; 0xF0; 0x9F; 0x92; 0xBE; 67] =
    Some (lit "21" ++ [0xB0; 0x2713; 0x1F4BE] ++ lit "C").
Proof.
  assert (E : utf8_encode (lit "21" ++ [0xB0; 0x2713; 0x1F4BE] ++ lit "C") =
    Ok [50; 49; 0xC2; 0xB0; 0xE2; 0x9C; 0x93; 0xF0; 0x9F; 0x92; 0xBE; 67])
    by (vm_compute; reflexivity).
  split; [exact E|].
  apply (proj2 (utf8_roundtrip (lit "21" ++ [0xB0; 0x2713; 0x1F4BE] ++ lit "C") ltac:(repeat constructor; vm_compute; congruence)) _ E).
Defined.

Lemma utf8_encode_bounds_witness :
  Forall (fun b => b < 256) [0xE2; 0x9C; 0x93] /\ (1 <= 3 <= 4)%nat.
Proof.
  apply (utf8_encode_bounds [0x2713] [0xE2; 0x9C; 0x93]);
    [repeat constructor; vm_compute; congruence | vm_compute; reflexivity].
Defined.

End Utf8.
