(* ===== verification/Config.v ===== *)
(** The renderer configuration of [ProfessionalCertificateGenerator]: its
    constructor [__init__] ([src/app.py] lines 20-40), which resolves the
    wkhtmltopdf binary with [setup_wkhtmltopdf_config] (lines 42-69) and
    builds the [options] dict handed to every [pdfkit.from_file] call.  The
    platform name, the environment and [os.path.exists] are inputs. *)

From S2P Require Import Prelude PyValue.

Module Config.

(** [pdfkit.configuration(wkhtmltopdf=path)]: the binary to run. *)
Record configuration := mk_configuration { wkhtmltopdf : pystr }.

(** The generator's fixed state. *)
Record generator := mk_generator {
  pdfkit_config : option configuration;
  options : list (pystr * value) }.

(** [possible_paths], the third formatted with [os.getenv('USERNAME', '')]. *)
Definition possible_paths (username : pystr) : list pystr :=
  [lit "C:\Program Files\wkhtmltopdf\bin\wkhtmltopdf.exe";
   lit "C:\Program Files (x86)\wkhtmltopdf\bin\wkhtmltopdf.exe";
   lit "C:\Users\" ++ username ++ lit "\AppData\Local\Programs\wkhtmltopdf\bin\wkhtmltopdf.exe";
   lit "C:\wkhtmltopdf\bin\wkhtmltopdf.exe"].

(** The [for path in possible_paths: if os.path.exists(path): ... break]
    loop. *)
Fixpoint first_existing (path_exists : pystr -> bool) (paths : list pystr) : option pystr :=
  match paths with
  | [] => None
  | path :: rest => if path_exists path then Some path else first_existing path_exists rest
  end.

Definition setup_wkhtmltopdf_config (system : pystr) (getenv : pystr -> option pystr)
    (path_exists : pystr -> bool) : option configuration :=
  if bool_decide (system = lit "Windows") then
    let username := default [] (getenv (lit "USERNAME")) in
    match first_existing path_exists (possible_paths username) with
    | Some wkhtmltopdf_path => Some (mk_configuration wkhtmltopdf_path)
    | None => None
    end
  else None.

(** [self.options], in the dict's insertion order. *)
Definition options_dict : list (pystr * value) :=
  [(lit "page-size", VStr (lit "A4"));
   (lit "orientation", VStr (lit "Portrait"));
   (lit "margin-top", VStr (lit "0.5in"));
   (lit "margin-right", VStr (lit "0.5in"));
   (lit "margin-bottom", VStr (lit "0.5in"));
   (lit "margin-left", VStr (lit "0.5in"));
   (lit "encoding", VStr (lit "UTF-8"));
   (lit "no-outline", VNone);
   (lit "enable-local-file-access", VNone);
   (lit "print-media-type", VNone);
   (lit "disable-smart-shrinking", VNone);
   (lit "dpi", VInt 300);
   (lit "image-quality", VInt 100);
   (lit "minimum-font-size", VInt 8)].

(** [ProfessionalCertificateGenerator()]. *)
Definition init_generator (system : pystr) (getenv : pystr -> option pystr)
    (path_exists : pystr -> bool) : generator :=
  mk_generator (setup_wkhtmltopdf_config system getenv path_exists) options_dict.

(** ** Lemmas *)

Lemma first_existing_spec path_exists paths path :
  first_existing path_exists paths = Some path <->
  exists pre post, paths = pre ++ path :: post /\ path_exists path = true /\
                   Forall (fun p => path_exists p = false) pre.
Proof.
  induction paths as [|p rest IH]; simpl.
  - split; [discriminate|]. intros (pre & post & E & _). by destruct pre.
  - destruct (path_exists p) eqn:Ep; split.
    + intros [= <-]. exists [], rest. by repeat constructor.
    + intros ([|q pre] & post & E & Hx & Hpre); simpl in E; simplify_eq; [done|].
      apply Forall_cons in Hpre as [Hq _]. congruence.
    + intros (pre & post & E & Hx & Hpre)%IH. exists (p :: pre), post.
      subst. by repeat constructor.
    + intros ([|q pre] & post & E & Hx & Hpre); simpl in E; simplify_eq; [congruence|].
      apply Forall_cons in Hpre as [_ Hpre]. apply IH. eauto.
Qed.

Lemma first_existing_none path_exists paths :
  first_existing path_exists paths = None <-> Forall (fun p => path_exists p = false) paths.
Proof.
  induction paths as [|p rest IH]; simpl; [split; constructor|].
  rewrite Forall_cons. destruct (path_exists p); [split; [discriminate|intuition congruence]|].
  rewrite IH. intuition.
Qed.

(** ** Theorems *)

(** C33: the configuration names the first of the four installation paths
    that exists, and only on Windows; elsewhere, or when none exists, the
    generator has no configuration and pdfkit looks the binary up on
    [PATH]. *)
Theorem setup_wkhtmltopdf_config_spec system getenv path_exists :
  let paths := possible_paths (default [] (getenv (lit "USERNAME"))) in
  (forall c, setup_wkhtmltopdf_config system getenv path_exists = Some c <->
     system = lit "Windows" /\
     exists pre post, paths = pre ++ wkhtmltopdf c :: post /\
       path_exists (wkhtmltopdf c) = true /\ Forall (fun p => path_exists p = false) pre) /\
  (setup_wkhtmltopdf_config system getenv path_exists = None <->
     system <> lit "Windows" \/ Forall (fun p => path_exists p = false) paths).
Proof.
  intros paths. unfold setup_wkhtmltopdf_config. fold paths.
  case_bool_decide as Hw; split.
  - intros c. destruct (first_existing _ _) as [q|] eqn:E; split.
    + intros [= <-]. split; [done|]. by apply first_existing_spec.
    + intros [_ H%first_existing_spec]. rewrite E in H. injection H as ->. by destruct c.
    + discriminate.
    + intros [_ H%first_existing_spec]. congruence.
  - rewrite <- first_existing_none. destruct (first_existing _ _); naive_solver.
  - intros c. naive_solver.
  - naive_solver.
Qed.

End Config.
