(* ===== verification/Pipeline.v ===== *)
(** The render pipeline: [ProfessionalCertificateGenerator.create_certificate]
    ([src/app.py] lines 759-797).  A request composes the document, creates
    a temporary file with [tempfile.NamedTemporaryFile(mode='w',
    suffix='.html', delete=False, encoding='utf-8')], writes the document to
    it, runs [pdfkit.from_file] on it inside a [try], and in the [finally]
    removes the file if [os.path.exists] still sees it.

    The file system is shared by every request of the server and by the
    other processes of the machine, so a request is a process with a
    program counter [pc] over the code's atomic file-system operations, and
    [step] runs one of them.  [exec] runs a request alone; [proc_step]
    interleaves the requests of a server; [sys_step] adds the other
    processes of the machine ([env_step]); [run_events] runs an explicit
    trace of [event]s of both kinds. *)

From S2P Require Import Prelude PyValue Clock Composer Utf8 Config.

Module Pipeline.

(** The file system: the contents of each path. *)
Abbreviation fs := (gmap pystr (list N)).

(** [io.BytesIO(pdf_data)] after [seek(0)]. *)
Record bytes_io := mk_bytes_io { buffer : list N; position : nat }.

(** [buf.read()]. *)
Definition bytes_io_read (b : bytes_io) : list N := drop (position b) (buffer b).

(** [pdfkit.from_file(path, False, options=..., configuration=...)]: the
    interface the pipeline relies on.  One call sees the whole file system
    (with [enable-local-file-access] the document may load any local file),
    fails on a missing input file, and returns a [bytes] object.  Nothing
    relates two calls: wkhtmltopdf stamps each PDF with its creation time
    and the template loads a remote font (line 101), so no theorem compares
    the outputs of two renderings; each is about the result of one call. *)
Class PdfRenderer := {
  from_file : option Config.configuration -> list (pystr * value) -> pystr -> fs -> res (list N);
  from_file_missing c o p fs :
    fs !! p = None -> exists e, from_file c o p fs = Raise e;
  from_file_bytes c o p fs pdf :
    from_file c o p fs = Ok pdf -> Forall (fun b => b < 256)%N pdf
}.

(** The wkhtmltopdf binary: it maps the configuration, the options and the
    bytes of an HTML file to the bytes of a PDF, or fails. *)
Class Wkhtmltopdf := {
  wk_run : option Config.configuration -> list (pystr * value) -> list N -> res (list N);
  wk_bytes c o b pdf : wk_run c o b = Ok pdf -> Forall (fun x => x < 256)%N pdf
}.

(** pdfkit's own [from_file] around the binary: pdfkit's
    [Source.checkFiles] raises [IOError('No such file: %s')] on a missing
    input. *)
Definition pdfkit_from_file `{Wkhtmltopdf}
    (c : option Config.configuration) (o : list (pystr * value)) (p : pystr) (f : fs)
    : res (list N) :=
  match f !! p with
  | Some b => wk_run c o b
  | None => Raise (OSError (lit "No such file: " ++ p))
  end.

#[export] Program Instance pdfkit_renderer `{Wkhtmltopdf} : PdfRenderer := {
  from_file := pdfkit_from_file }.
Next Obligation. intros wk c o p f E. unfold pdfkit_from_file. rewrite E. eauto. Qed.
Next Obligation.
  intros wk c o p f pdf. unfold pdfkit_from_file. destruct (f !! p); [apply wk_bytes|discriminate].
Qed.

(** [os.TMP_MAX] on Linux (glibc): the names [NamedTemporaryFile] tries. *)
Definition TMP_MAX : nat := N.to_nat 238328.

(** Where a request is in [create_certificate]. *)
Inductive pc :=
  | Open (tries : nat) (seq : nat)         (** [_mkstemp_inner]: [tries] names left, the next is the [seq]-th *)
  | Write (path : pystr)                   (** [temp_html.write(html_content)], then [close] *)
  | Render (path : pystr)                  (** [pdfkit.from_file] and [io.BytesIO] *)
  | Exists (path : pystr) (r : res bytes_io)  (** [finally]: [os.path.exists]; [r] is the [try]'s outcome *)
  | Unlink (path : pystr) (r : res bytes_io)  (** [os.unlink] *)
  | Done (r : res bytes_io).

(** A request: its composed document, its stream of random names
    ([tempfile._RandomNameSequence]) and where it is. *)
Record proc := mk_proc { html : pystr; names : nat -> pystr; point : pc }.

Definition set_point (pr : proc) (p : pc) : proc := mk_proc (html pr) (names pr) p.

(** The temporary file a request holds: it exists from [Open] on, until
    the [finally] removes it. *)
Definition holds (p : pc) : option pystr :=
  match p with
  | Write path | Render path | Exists path _ | Unlink path _ => Some path
  | Open _ _ | Done _ => None
  end.

(** The steps a request has left at most: [Open n] may try [n] more names,
    then write, render, check and unlink. *)
Definition pc_measure (p : pc) : nat :=
  match p with
  | Open n _ => n + 5
  | Write _ => 4
  | Render _ => 3
  | Exists _ _ => 2
  | Unlink _ _ => 1
  | Done _ => 0
  end.

(** Inputs of the examples: a stand-in for the wkhtmltopdf binary that
    writes a PDF header and the length of its input, the generator on Linux, a
    name stream, a file system where the first name is taken, and a small
    document with a newline and a non-ASCII character. *)
Definition wk_stub (c : option Config.configuration) (o : list (pystr * value)) (b : list N)
    : res (list N) :=
  Ok (lit "%PDF-1.4 " ++ dec_N (N.of_nat (length b))).

Lemma wk_stub_bytes c o b pdf : wk_stub c o b = Ok pdf -> Forall (fun x => x < 256)%N pdf.
Proof.
  intros E. injection E as <-. repeat (apply List.Forall_cons; [vm_compute; reflexivity|]).
  eapply Forall_impl; [apply dec_N_digits|]. intros x Hx. cbv beta in *. lia.
Qed.

#[export] Instance wk_stub_binary : Wkhtmltopdf := { wk_run := wk_stub; wk_bytes := wk_stub_bytes }.

Definition linux_generator : Config.generator :=
  Config.init_generator (lit "Linux") (fun _ => None) (fun _ => false).

Definition sample_names (i : nat) : pystr := lit "name" ++ dec_N (N.of_nat i).

Definition sample_fs : fs := {[ lit "/tmp/tmpname0.html" := lit "busy" ]}.

Definition sample_doc : pystr := lit "<p>21" ++ [0xB0%N] ++ lit "C</p>" ++ [10%N].

Section Request.

Context `{PdfRenderer}.

(** The generator's configuration, [tempfile.gettempdir()] and
    [os.linesep]. *)
Variable gen : Config.generator.
Variable tmpdir : pystr.
Variable linesep : pystr.

(** [os.path.join(dir, 'tmp' + name + '.html')]. *)
Definition temp_path (name : pystr) : pystr := tmpdir ++ lit "/tmp" ++ name ++ lit ".html".

Definition no_usable_name : exc :=
  FileExistsError (lit "[Errno 17] No usable temporary file name found").

Definition unlink_error (path : pystr) : exc :=
  FileNotFoundError (lit "[Errno 2] No such file or directory: '" ++ path ++ lit "'").

(** [if self.pdfkit_config: pdfkit.from_file(..., configuration=...)
    else: pdfkit.from_file(...)]. *)
Definition render_call (path : pystr) (f : fs) : res (list N) :=
  match Config.pdfkit_config gen with
  | Some c => from_file (Some c) (Config.options gen) path f
  | None => from_file None (Config.options gen) path f
  end.

(** One atomic operation of a request. *)
Definition step (pr : proc) (f : fs) : proc * fs :=
  match point pr with
  | Open 0 _ => (set_point pr (Done (Raise no_usable_name)), f)
  | Open (S n) i =>
      (* [os.open(file, O_RDWR|O_CREAT|O_EXCL)]: [FileExistsError] means [continue] *)
      let file := temp_path (names pr i) in
      if decide (is_Some (f !! file)) then (set_point pr (Open n (S i)), f)
      else (set_point pr (Write file), <[file := []]> f)
  | Write path =>
      match Utf8.utf8_encode (Utf8.translate_newlines linesep (html pr)) with
      | Ok b => (set_point pr (Render path), <[path := b]> f)
      | Raise e => (set_point pr (Done (Raise e)), f)
      end
  | Render path =>
      (set_point pr (Exists path (pdf <- render_call path f ;; Ok (mk_bytes_io pdf 0))), f)
  | Exists path r =>
      if decide (is_Some (f !! path)) then (set_point pr (Unlink path r), f)
      else (set_point pr (Done r), f)
  | Unlink path r =>
      match f !! path with
      | Some _ => (set_point pr (Done r), delete path f)
      | None => (set_point pr (Done (Raise (unlink_error path))), f)
      end
  | Done r => (pr, f)
  end.

(** A request run alone, with [fuel] steps at most. *)
Fixpoint exec (fuel : nat) (pr : proc) (f : fs) : proc * fs :=
  match fuel with
  | O => (pr, f)
  | S fuel' =>
      match point pr with
      | Done _ => (pr, f)
      | _ => let '(pr', f') := step pr f in exec fuel' pr' f'
      end
  end.

(** [create_certificate(data)] on a composed document: the request from
    its first name to its outcome, with enough fuel for every name. *)
Definition run_request (doc : pystr) (nm : nat -> pystr) (f : fs) : res bytes_io * fs :=
  let '(pr, f') := exec (TMP_MAX + 5) (mk_proc doc nm (Open TMP_MAX 0)) f in
  match point pr with
  | Done r => (r, f')
  | _ => (Raise no_usable_name, f')
  end.

(** The index of the first name among [n] from the [i]-th whose file does
    not exist: the one [NamedTemporaryFile] creates. *)
Fixpoint first_free (nm : nat -> pystr) (f : fs) (n i : nat) : option nat :=
  match n with
  | O => None
  | S n' => if decide (is_Some (f !! temp_path (nm i))) then first_free nm f n' (S i) else Some i
  end.

(** What the pipeline does once its file [path] is created: write, render,
    and remove the file. *)
Definition after_open (doc : pystr) (path : pystr) (f : fs) : res bytes_io * fs :=
  match Utf8.utf8_encode (Utf8.translate_newlines linesep doc) with
  | Raise e => (Raise e, f)
  | Ok b =>
      let f1 := <[path := b]> f in
      (pdf <- render_call path f1 ;; Ok (mk_bytes_io pdf 0), delete path f1)
  end.

(** [create_certificate(data)]: compose, then run the request; the
    [except Exception: ... raise] re-raises what it catches. *)
Definition create_certificate (now : Clock.datetime) (rnd : list Z) (nm : nat -> pystr)
    (data : attrs) (f : fs) : res bytes_io * fs :=
  match Composer.create_certificate_html now rnd data with
  | Raise e => (Raise e, f)
  | Ok html_content => run_request html_content nm f
  end.

(** ** Interleavings *)

(** One request of the server takes a step. *)
Inductive proc_step : list proc * fs -> list proc * fs -> Prop :=
  | proc_step_run procs f i pr :
      procs !! i = Some pr ->
      proc_step (procs, f) (<[i := (step pr f).1]> procs, (step pr f).2).

(** Another process of the machine creates, overwrites or removes a file
    (a [/tmp] cleaner, a second server). *)
Inductive env_step : fs -> fs -> Prop :=
  | env_delete f p : is_Some (f !! p) -> env_step f (delete p f)
  | env_create f p b : env_step f (<[p := b]> f).

Inductive sys_step : list proc * fs -> list proc * fs -> Prop :=
  | sys_proc s s' : proc_step s s' -> sys_step s s'
  | sys_env procs f f' : env_step f f' -> sys_step (procs, f) (procs, f').

(** The server's scheduler: request [i] takes a step, if there is one. *)
Definition server_step (i : nat) (s : list proc * fs) : list proc * fs :=
  match s.1 !! i with
  | Some pr => (<[i := (step pr s.2).1]> s.1, (step pr s.2).2)
  | None => s
  end.

(** An interleaving: the requests take steps in the order of [sched]. *)
Definition run_schedule (sched : list nat) (s : list proc * fs) : list proc * fs :=
  fold_left (fun s i => server_step i s) sched s.

(** An event of the machine, as an executable trace: request [i] of the
    server takes a step, or another process removes or writes a file. *)
Inductive event :=
  | ProcEv (i : nat)
  | DeleteEv (p : pystr)
  | CreateEv (p : pystr) (b : list N).

Definition sys_event (ev : event) (s : list proc * fs) : list proc * fs :=
  match ev with
  | ProcEv i => server_step i s
  | DeleteEv p => (s.1, delete p s.2)
  | CreateEv p b => (s.1, <[p := b]> s.2)
  end.

#[export] Instance event_eq_dec : EqDecision event.
Proof. solve_decision. Defined.

(** A run of the machine: the events take place in the order of [evs]. *)
Definition run_events (evs : list event) (s : list proc * fs) : list proc * fs :=
  fold_left (fun s ev => sys_event ev s) evs s.

(** How many times request [i] is scheduled in [evs]. *)
Fixpoint turns (i : nat) (evs : list event) : nat :=
  match evs with
  | [] => 0
  | ProcEv j :: evs => (if Nat.eq_dec j i then 1 else 0) + turns i evs
  | _ :: evs => turns i evs
  end.

(** No request holds a file yet. *)
Definition idle (procs : list proc) : Prop :=
  Forall (fun pr => holds (point pr) = None) procs.

(** The invariant of the server: every file a request holds exists, and
    no two requests hold the same file. *)
Definition isolated (s : list proc * fs) : Prop :=
  (forall i pr x, s.1 !! i = Some pr -> holds (point pr) = Some x -> is_Some (s.2 !! x)) /\
  (forall i j pri prj x, s.1 !! i = Some pri -> s.1 !! j = Some prj ->
     holds (point pri) = Some x -> holds (point prj) = Some x -> i = j).

(** ** Lemmas on one request *)

Lemma point_set_point pr p : point (set_point pr p) = p.
Proof. done. Qed.
Lemma html_set_point pr p : html (set_point pr p) = html pr.
Proof. done. Qed.
Lemma names_set_point pr p : names (set_point pr p) = names pr.
Proof. done. Qed.
Lemma set_point_set_point pr p q : set_point (set_point pr p) q = set_point pr q.
Proof. done. Qed.

Lemma exec_done fuel pr f r : point pr = Done r -> exec fuel pr f = (pr, f).
Proof. intros E. destruct fuel; simpl; [done|]. by rewrite E. Qed.

Lemma exec_write fuel pr path f :
  (4 <= fuel)%nat -> point pr = Write path ->
  exec fuel pr f =
    (set_point pr (Done (after_open (html pr) path f).1), (after_open (html pr) path f).2).
Proof.
  intros Hf E. do 4 (destruct fuel as [|fuel]; [lia|]).
  unfold after_open. cbn [exec]. rewrite E. unfold step at 1. rewrite E.
  destruct (Utf8.utf8_encode _) as [b|e]; cbn [exec fst snd]; rewrite ?point_set_point;
    [|destruct fuel; reflexivity].
  unfold step. rewrite !point_set_point.
  rewrite decide_True by (rewrite lookup_insert_eq; eauto). cbn [fst snd exec].
  rewrite !point_set_point, lookup_insert_eq. cbn [fst snd exec].
  rewrite !set_point_set_point. destruct fuel; reflexivity.
Qed.

Lemma exec_open n i fuel pr f :
  (n + 5 <= fuel)%nat -> point pr = Open n i ->
  exec fuel pr f =
    match first_free (names pr) f n i with
    | None => (set_point pr (Done (Raise no_usable_name)), f)
    | Some k =>
        let p := temp_path (names pr k) in
        (set_point pr (Done (after_open (html pr) p (<[p := []]> f)).1),
         (after_open (html pr) p (<[p := []]> f)).2)
    end.
Proof.
  revert i fuel pr. induction n as [|n IH]; intros i fuel pr Hf E;
    (destruct fuel as [|fuel]; [lia|]); cbn [exec first_free]; rewrite E; unfold step at 1;
    rewrite E.
  - cbn [fst snd]. destruct fuel; reflexivity.
  - case_decide; cbn [fst snd].
    + rewrite (IH (S i) fuel (set_point pr (Open n (S i)))) by (done || lia). done.
    + rewrite (exec_write fuel _ (temp_path (names pr i))) by (done || lia). done.
Qed.

Lemma first_free_Some nm f n i k :
  first_free nm f n i = Some k ->
  f !! temp_path (nm k) = None /\ (i <= k < i + n)%nat /\
  forall j, (i <= j < k)%nat -> is_Some (f !! temp_path (nm j)).
Proof.
  revert i. induction n as [|n IH]; intros i; cbn [first_free]; [discriminate|].
  case_decide as Hi.
  - intros (Hk & Hb & Hj)%IH. split_and!; [done | lia | lia |].
    intros j Hj'. destruct (decide (j = i)) as [->|]; [done|]. apply Hj. lia.
  - intros [= <-]. split_and!; [by apply eq_None_not_Some | lia | lia | intros; lia].
Qed.

Lemma first_free_None nm f n i :
  first_free nm f n i = None -> forall j, (i <= j < i + n)%nat -> is_Some (f !! temp_path (nm j)).
Proof.
  revert i. induction n as [|n IH]; intros i; cbn [first_free]; [lia|].
  case_decide as Hi; [|discriminate].
  intros Hn j Hj. destruct (decide (j = i)) as [->|]; [done|]. apply (IH (S i)); [done|lia].
Qed.

(** A request alone on the file system, in closed form: the loop of
    [NamedTemporaryFile] ends within its [TMP_MAX] names, and the rest of
    the request within four steps. *)
Lemma run_request_closed doc nm f :
  run_request doc nm f =
    match first_free nm f TMP_MAX 0 with
    | None => (Raise no_usable_name, f)
    | Some k => let p := temp_path (nm k) in after_open doc p (<[p := []]> f)
    end.
Proof.
  unfold run_request. rewrite (exec_open TMP_MAX 0) by (done || lia).
  cbn [names html]. destruct (first_free nm f TMP_MAX 0); [|reflexivity]. by destruct (after_open _ _ _).
Qed.

(** The request once its name is free and its document encodes. *)
Lemma run_request_written doc nm f k b :
  first_free nm f TMP_MAX 0 = Some k ->
  Utf8.utf8_encode (Utf8.translate_newlines linesep doc) = Ok b ->
  run_request doc nm f =
    (pdf <- render_call (temp_path (nm k)) (<[temp_path (nm k) := b]> f) ;;
     Ok (mk_bytes_io pdf 0), f).
Proof.
  intros Hk Hb. rewrite run_request_closed, Hk. unfold after_open. rewrite Hb.
  destruct (first_free_Some _ _ _ _ _ Hk) as [Hfree _].
  by rewrite insert_insert_eq, delete_insert_id.
Qed.

(** A request that succeeds returns the renderer's bytes, read from the
    start. *)
Lemma run_request_bytes doc nm f buf f' :
  run_request doc nm f = (Ok buf, f') ->
  position buf = 0%nat /\ Forall (fun b => b < 256)%N (buffer buf).
Proof.
  rewrite run_request_closed. destruct (first_free _ _ _ _); [|discriminate].
  unfold after_open. destruct (Utf8.utf8_encode _); [|discriminate].
  destruct (render_call _ _) as [pdf|] eqn:R; cbn [res_bind]; [|discriminate].
  intros [= <- _]. split; [done|]. cbn [buffer].
  unfold render_call in R. destruct (Config.pdfkit_config gen); eapply from_file_bytes; eauto.
Qed.

Lemma create_certificate_bytes now rnd nm data f buf f' :
  create_certificate now rnd nm data f = (Ok buf, f') ->
  position buf = 0%nat /\ Forall (fun b => b < 256)%N (buffer buf).
Proof.
  unfold create_certificate. destruct (Composer.create_certificate_html _ _ _); [|discriminate].
  apply run_request_bytes.
Qed.

(** ** Lemmas on interleavings *)

(** What one step does to the files: it creates only a file no one holds,
    keeps the file its request goes on holding, and touches no file but
    the one its request holds before or after. *)
Lemma step_fresh pr f x :
  holds (point (step pr f).1) = Some x -> holds (point pr) = Some x \/ f !! x = None.
Proof.
  unfold step. destruct (point pr) as [[|n] i|path|path|path r|path r|r] eqn:Ep; cbn [fst];
    rewrite ?point_set_point, ?Ep; try case_decide; try case_match; cbn [holds];
    rewrite ?point_set_point; cbn [holds]; try discriminate; auto.
  intros [= <-]. right. by apply eq_None_not_Some.
Qed.

Lemma step_holds_exists pr f x :
  (forall y, holds (point pr) = Some y -> is_Some (f !! y)) ->
  holds (point (step pr f).1) = Some x -> is_Some ((step pr f).2 !! x).
Proof.
  unfold step. intros Hpr.
  destruct (point pr) as [[|n] i|path|path|path r|path r|r] eqn:Ep; cbn [fst snd];
    rewrite ?point_set_point, ?Ep; try case_decide; try case_match; cbn [holds fst snd];
    rewrite ?point_set_point; cbn [holds]; try discriminate; auto;
    intros [= <-]; rewrite ?lookup_insert_eq; eauto.
Qed.

Lemma step_frame pr f x :
  holds (point pr) <> Some x -> holds (point (step pr f).1) <> Some x ->
  (step pr f).2 !! x = f !! x.
Proof.
  unfold step. destruct (point pr) as [[|n] i|path|path|path r|path r|r] eqn:Ep; cbn [fst snd];
    rewrite ?point_set_point, ?Ep; try case_decide; try case_match; cbn [holds fst snd];
    rewrite ?point_set_point; cbn [holds]; intros H1 H2; try done;
    [rewrite lookup_insert_ne | rewrite lookup_insert_ne | rewrite lookup_delete_ne];
    congruence.
Qed.

Lemma isolated_step s s' : isolated s -> proc_step s s' -> isolated s'.
Proof.
  intros Hiso Hstep. destruct Hstep as [procs f i pr Hi]. destruct Hiso as [Hex Hdis]. cbn [fst snd] in *.
  assert (Hlt : (i < length procs)%nat) by (by eapply lookup_lt_Some).
  assert (Hpr : forall y, holds (point pr) = Some y -> is_Some (f !! y)) by (intros y; eapply Hex; eauto).
  (* a file another request holds is untouched by this step *)
  assert (Hother : forall j prj x, j <> i -> procs !! j = Some prj -> holds (point prj) = Some x ->
            holds (point (step pr f).1) <> Some x /\ is_Some ((step pr f).2 !! x)).
  { intros j prj x Hji Hj Hx.
    assert (Hn : holds (point pr) <> Some x) by (intros ?; apply Hji; eauto).
    assert (Hn' : holds (point (step pr f).1) <> Some x).
    { intros [Hc|Hc]%step_fresh; [done|]. destruct (Hex _ _ _ Hj Hx). congruence. }
    split; [done|]. rewrite step_frame by done. eauto. }
  split.
  - intros j prj x. cbn [fst snd]. destruct (decide (j = i)) as [->|Hji].
    + rewrite list_lookup_insert_eq by done. intros [= <-]. by apply step_holds_exists.
    + rewrite list_lookup_insert_ne by done. intros Hj Hx. by apply (Hother j prj x).
  - intros j1 j2 pr1 pr2 x. cbn [fst].
    destruct (decide (j1 = i)) as [->|H1], (decide (j2 = i)) as [->|H2]; [done|..];
      rewrite ?list_lookup_insert_eq, ?list_lookup_insert_ne by done.
    + intros [= <-] Hj2 Hx1 Hx2. by destruct (Hother j2 pr2 x H2 Hj2 Hx2).
    + intros Hj1 [= <-] Hx1 Hx2. by destruct (Hother j1 pr1 x H1 Hj1 Hx1).
    + eauto.
Qed.

Lemma idle_isolated procs f : idle procs -> isolated (procs, f).
Proof.
  intros Hidle. split; cbn [fst snd].
  - intros i pr x Hi. rewrite (proj1 (Forall_lookup _ _) Hidle i pr Hi). discriminate.
  - intros i j pri prj x Hi. rewrite (proj1 (Forall_lookup _ _) Hidle i pri Hi). discriminate.
Qed.

Lemma proc_step_single pr f : proc_step ([pr], f) ([(step pr f).1], (step pr f).2).
Proof. exact (proc_step_run [pr] f 0 pr eq_refl). Qed.

(** The [NamedTemporaryFile] loop, as steps of the request. *)
Lemma open_steps doc nm f n i k :
  first_free nm f n i = Some k ->
  rtc proc_step ([mk_proc doc nm (Open n i)], f)
                ([mk_proc doc nm (Write (temp_path (nm k)))], <[temp_path (nm k) := []]> f).
Proof.
  revert i. induction n as [|n IH]; intros i; cbn [first_free]; [discriminate|].
  case_decide as Hi.
  - intros Hk. eapply rtc_l; [apply proc_step_single|]. unfold step; cbn [point names].
    rewrite decide_True by done. by apply IH.
  - intros [= <-]. apply rtc_once.
    pose proof (proc_step_single (mk_proc doc nm (Open (S n) i)) f) as Hs.
    unfold step in Hs; cbn [point names] in Hs. by rewrite decide_False in Hs.
Qed.

Lemma proc_step_eq pr f pr' f' : step pr f = (pr', f') -> proc_step ([pr], f) ([pr'], f').
Proof. intros E. pose proof (proc_step_single pr f) as Hs. by rewrite E in Hs. Qed.

Lemma run_schedule_steps sched s : rtc proc_step s (run_schedule sched s).
Proof.
  revert s. induction sched as [|i sched IH]; intros [procs f]; [apply rtc_refl|].
  cbn [run_schedule fold_left]. eapply rtc_trans; [|apply IH].
  unfold server_step. cbn [fst snd]. destruct (procs !! i) eqn:E; [|apply rtc_refl].
  apply rtc_once. by constructor.
Qed.

(** A request run alone is a run of the server with that one request. *)
Lemma exec_steps n pr f : rtc proc_step ([pr], f) ([(exec n pr f).1], (exec n pr f).2).
Proof.
  revert pr f. induction n as [|n IH]; intros pr f; cbn [exec]; [apply rtc_refl|].
  destruct (point pr); try apply rtc_refl;
    destruct (step pr f) as [pr' f'] eqn:E; (eapply rtc_l; [by apply proc_step_eq|]); apply IH.
Qed.

Lemma run_schedule_pair sched s :
  rtc proc_step s ((run_schedule sched s).1, (run_schedule sched s).2).
Proof. destruct (run_schedule sched s) eqn:E. cbn [fst snd]. rewrite <- E. apply run_schedule_steps. Qed.

Lemma step_done pr f r : point pr = Done r -> step pr f = (pr, f).
Proof. intros E. unfold step. by rewrite E. Qed.

(** Every step of a request that is not done brings it closer to done. *)
Lemma step_measure pr f :
  (forall r, point pr <> Done r) ->
  (pc_measure (point (step pr f).1) < pc_measure (point pr))%nat.
Proof.
  unfold step. intros Hnd.
  destruct (point pr) as [[|n] i|path|path|path r|path r|r] eqn:Ep; cbn [fst];
    rewrite ?point_set_point; try case_decide; try case_match; cbn [fst];
    rewrite ?point_set_point; cbn [pc_measure]; try lia.
  by destruct (Hnd r).
Qed.

Lemma measure_done p : pc_measure p = 0%nat -> exists r, p = Done r.
Proof. destruct p; cbn [pc_measure]; try lia. eauto. Qed.

Lemma step_measure_le pr f :
  (pc_measure (point (step pr f).1) <= pc_measure (point pr))%nat.
Proof.
  destruct (point pr) as [n i|p|p|p r0|p r0|r] eqn:E;
    try (pose proof (step_measure pr f ltac:(by intros ? ?; congruence)) as Hm; rewrite E in Hm; lia).
  rewrite (step_done pr f r E). cbn [fst]. by rewrite E.
Qed.

(** [exec] with at least a request's measure as fuel finishes it. *)
Lemma exec_done_fuel n pr f :
  (pc_measure (point pr) <= n)%nat -> exists r, point (exec n pr f).1 = Done r.
Proof.
  revert pr f. induction n as [|n IH]; intros pr f Hn; cbn [exec fst].
  - apply measure_done. lia.
  - destruct (point pr) eqn:E; try (eauto; fail);
      destruct (step pr f) as [pr' f'] eqn:Es; apply IH;
      pose proof (step_measure pr f ltac:(by intros ? ?; congruence)) as Hm;
      rewrite Es, E in Hm; cbn [fst pc_measure] in *; lia.
Qed.

Lemma server_step_other j i s : j <> i -> (server_step j s).1 !! i = s.1 !! i.
Proof.
  intros Hji. unfold server_step. destruct (s.1 !! j); [|done].
  cbn [fst]. by rewrite list_lookup_insert_ne.
Qed.

Lemma server_step_self i s pr : s.1 !! i = Some pr -> (server_step i s).1 !! i = Some (step pr s.2).1.
Proof.
  intros Hi. unfold server_step. rewrite Hi. cbn [fst].
  apply list_lookup_insert_eq. by eapply lookup_lt_Some.
Qed.

Lemma sys_event_other ev i s :
  ev <> ProcEv i -> (sys_event ev s).1 !! i = s.1 !! i.
Proof.
  destruct ev as [j|p|p b]; intros Hne; cbn [sys_event fst]; [|done|done].
  apply server_step_other. congruence.
Qed.

(** Every event of a run is a step of the machine. *)
Lemma sys_event_step ev s : rtc sys_step s (sys_event ev s).
Proof.
  destruct s as [procs f], ev as [i|p|p b]; cbn [sys_event fst snd].
  - unfold server_step. cbn [fst snd]. destruct (procs !! i) eqn:E; [|apply rtc_refl].
    apply rtc_once, sys_proc. by constructor.
  - destruct (f !! p) eqn:E.
    + apply rtc_once, sys_env, env_delete. by rewrite E.
    + rewrite delete_id by done. apply rtc_refl.
  - apply rtc_once, sys_env, env_create.
Qed.

Lemma run_events_steps evs s : rtc sys_step s (run_events evs s).
Proof.
  revert s. induction evs as [|ev evs IH]; intros s; [apply rtc_refl|].
  cbn [run_events fold_left]. eapply rtc_trans; [apply sys_event_step|apply IH].
Qed.

Lemma rtc_isolated s s' : isolated s -> rtc proc_step s s' -> isolated s'.
Proof. intros Hs Hrun. induction Hrun; eauto using isolated_step. Qed.

(** ** Theorems *)

(** C2: a request whose temporary name is free and whose document encodes
    renders the file holding the document's bytes and leaves the file
    system as it found it, whether the renderer succeeds or fails: the
    [finally] removes the temporary file on every path out of the [try]. *)
Theorem run_request_cleans_up doc nm f k b :
  first_free nm f TMP_MAX 0 = Some k ->
  Utf8.utf8_encode (Utf8.translate_newlines linesep doc) = Ok b ->
  run_request doc nm f =
    (pdf <- render_call (temp_path (nm k)) (<[temp_path (nm k) := b]> f) ;;
     Ok (mk_bytes_io pdf 0), f).
Proof. apply run_request_written. Qed.

(** C8: a document that does not encode (a surrogate from a [\ud800]
    escape in the request) makes [temp_html.write] raise inside the [with]
    block, before the [try] whose [finally] removes the file: the request
    raises the encoding error and leaves behind a new empty file, since the
    file is created with [delete=False]. *)
Theorem run_request_leaks_on_write_error doc nm f k e :
  first_free nm f TMP_MAX 0 = Some k ->
  Utf8.utf8_encode (Utf8.translate_newlines linesep doc) = Raise e ->
  f !! temp_path (nm k) = None /\
  run_request doc nm f = (Raise e, <[temp_path (nm k) := []]> f).
Proof.
  intros Hk He. split; [apply (first_free_Some _ _ _ _ _ Hk)|].
  rewrite run_request_closed, Hk. unfold after_open. by rewrite He.
Qed.

(** C5: concurrent requests of a server never share a temporary file:
    in every interleaving of their steps from requests that hold no file,
    two requests that hold the same file are the same request.  The
    [O_EXCL] open of [NamedTemporaryFile] makes this hold whatever names
    the requests draw, the same ones included. *)
Theorem requests_isolated procs f procs' f' i j pri prj x :
  idle procs -> rtc proc_step (procs, f) (procs', f') ->
  procs' !! i = Some pri -> procs' !! j = Some prj ->
  holds (point pri) = Some x -> holds (point prj) = Some x -> i = j.
Proof.
  intros Hidle Hrun. apply (rtc_isolated _ _ (idle_isolated procs f Hidle) Hrun).
Qed.

(** C27: when only the server's requests touch the file system, the
    [finally] of every request finds its file and removes it, and the
    request keeps the outcome of its [try]: the cleanup never masks it. *)
Theorem finally_keeps_result procs f procs' f' i pr x r :
  idle procs -> rtc proc_step (procs, f) (procs', f') ->
  procs' !! i = Some pr -> point pr = Unlink x r ->
  step pr f' = (set_point pr (Done r), delete x f').
Proof.
  intros Hidle Hrun Hi Hp.
  destruct (rtc_isolated _ _ (idle_isolated procs f Hidle) Hrun) as [Hex _].
  destruct (Hex i pr x Hi ltac:(by rewrite Hp)) as [c Hc]. cbn [snd] in Hc.
  unfold step. by rewrite Hp, Hc.
Qed.

(** C12: when another process removes the temporary file between the
    [os.path.exists] check and [os.unlink], the [FileNotFoundError] of the
    [finally] replaces the PDF the renderer produced: a cleanup failure
    masks the result. *)
Theorem finally_masks_result doc nm f k b pdf :
  first_free nm f TMP_MAX 0 = Some k ->
  Utf8.utf8_encode (Utf8.translate_newlines linesep doc) = Ok b ->
  render_call (temp_path (nm k)) (<[temp_path (nm k) := b]> f) = Ok pdf ->
  rtc sys_step ([mk_proc doc nm (Open TMP_MAX 0)], f)
               ([mk_proc doc nm (Done (Raise (unlink_error (temp_path (nm k)))))], f).
Proof.
  intros Hk Hb Hr. set (p := temp_path (nm k)).
  destruct (first_free_Some _ _ _ _ _ Hk) as [Hfree _]. fold p in Hfree, Hr.
  eapply rtc_trans; [apply (rtc_subrel proc_step), open_steps; [apply sys_proc|done]|].
  fold p. eapply rtc_l.
  { apply sys_proc, proc_step_eq. unfold step. cbn [point html]. rewrite Hb. reflexivity. }
  eapply rtc_l.
  { apply sys_proc, proc_step_eq. unfold step. rewrite point_set_point, insert_insert_eq, Hr.
    reflexivity. }
  eapply rtc_l.
  { apply sys_proc, proc_step_eq. unfold step. rewrite point_set_point, decide_True
      by (rewrite lookup_insert_eq; eauto). reflexivity. }
  eapply rtc_l.
  { apply sys_env, env_delete. rewrite lookup_insert_eq. eauto. }
  rewrite delete_insert_id by done.
  apply rtc_once, sys_proc, proc_step_eq. unfold step. rewrite point_set_point, Hfree.
  reflexivity.
Qed.

(** C7: a request run alone terminates: [exec] with the request's measure
    as fuel ends at [Done]; a fresh request's measure is [TMP_MAX + 5], the
    fuel of [run_request]. *)
Theorem exec_terminates pr f :
  exists r, point (exec (pc_measure (point pr)) pr f).1 = Done r.
Proof. by apply exec_done_fuel. Qed.

(** C6: every request finishes whatever the other requests and the other
    processes of the machine do: in any run of the machine, whatever files
    are created or removed in between, a request scheduled at least its
    measure many times is done at the end; the run is a path of [sys_step]
    ([run_events_steps]). *)
Theorem request_completes evs s i pr :
  s.1 !! i = Some pr -> (pc_measure (point pr) <= turns i evs)%nat ->
  exists pr' r, (run_events evs s).1 !! i = Some pr' /\ point pr' = Done r.
Proof.
  revert s pr. induction evs as [|ev evs IH]; intros s pr Hi Hm.
  - destruct (measure_done (point pr)) as [r Hr]; [cbn in Hm; lia|]. eauto.
  - change (run_events (ev :: evs) s) with (run_events evs (sys_event ev s)).
    destruct (decide (ev = ProcEv i)) as [->|Hne].
    + cbn [turns] in Hm. destruct (Nat.eq_dec i i) as [_|]; [|done].
      apply (IH _ (step pr s.2).1); [by apply server_step_self|].
      destruct (point pr) as [n k|p|p|p r0|p r0|r] eqn:E;
        try (pose proof (step_measure pr s.2 ltac:(by intros ? ?; congruence)) as Hm';
             rewrite ?E in *; lia).
      rewrite (step_done pr s.2 r E). cbn [fst]. rewrite E. cbn in Hm |- *. lia.
    + apply (IH _ pr); [by rewrite sys_event_other|].
      destruct ev as [j|p|p b]; cbn [turns] in Hm; [|lia|lia].
      destruct (Nat.eq_dec j i); [congruence|lia].
Qed.

End Request.

(** ** Witnesses *)

Local Abbreviation stub := (@pdfkit_renderer wk_stub_binary).
Local Abbreviation sample_out := (mk_bytes_io (lit "%PDF-1.4 13") 0).
Local Abbreviation sample_bytes := (lit "<p>21" ++ [0xC2; 0xB0]%N ++ lit "C</p>" ++ [10%N]).

Lemma run_request_cleans_up_witness :
  @run_request stub linux_generator (lit "/tmp") [10%N] sample_doc sample_names sample_fs =
  (Ok sample_out, sample_fs).
Proof.
  rewrite (run_request_cleans_up (H := stub) linux_generator (lit "/tmp") [10%N] sample_doc
             sample_names sample_fs 1 sample_bytes) by (vm_compute; reflexivity).
  vm_compute. reflexivity.
Defined.

Lemma run_request_leaks_on_write_error_witness :
  sample_fs !! lit "/tmp/tmpname1.html" = None /\
  @run_request stub linux_generator (lit "/tmp") [10%N] (lit "<p>" ++ [0xD800%N] ++ lit "</p>")
    sample_names sample_fs =
  (Raise (UnicodeEncodeError (lit "'utf-8' codec can't encode character '\ud800' in position 3: surrogates not allowed")),
   <[lit "/tmp/tmpname1.html" := []]> sample_fs).
Proof.
  pose proof (run_request_leaks_on_write_error (H := stub) linux_generator (lit "/tmp") [10%N]
    (lit "<p>" ++ [0xD800%N] ++ lit "</p>") sample_names sample_fs 1
    (UnicodeEncodeError (lit "'utf-8' codec can't encode character '\ud800' in position 3: surrogates not allowed"))
    ltac:(vm_compute; reflexivity) ltac:(vm_compute; reflexivity)) as W.
  vm_compute in W |- *. exact W.
Defined.

Lemma requests_isolated_witness :
  let s := @run_schedule stub linux_generator (lit "/tmp") [10%N] [0; 1; 1]%nat
             ([mk_proc sample_doc sample_names (Open TMP_MAX 0);
               mk_proc sample_doc sample_names (Open TMP_MAX 0)], ∅) in
  option_map (fun pr => holds (point pr)) (s.1 !! 0%nat) = Some (Some (lit "/tmp/tmpname0.html")) /\
  option_map (fun pr => holds (point pr)) (s.1 !! 1%nat) = Some (Some (lit "/tmp/tmpname1.html")) /\
  0%nat = 0%nat.
Proof.
  intros s. split; [vm_compute; reflexivity|]. split; [vm_compute; reflexivity|].
  subst s. apply (requests_isolated (H := stub) linux_generator (lit "/tmp") [10%N]
    [mk_proc sample_doc sample_names (Open TMP_MAX 0); mk_proc sample_doc sample_names (Open TMP_MAX 0)]
    ∅ (run_schedule (H := stub) linux_generator (lit "/tmp") [10%N] [0; 1; 1]%nat
         ([mk_proc sample_doc sample_names (Open TMP_MAX 0); mk_proc sample_doc sample_names (Open TMP_MAX 0)], ∅)).1
      (run_schedule (H := stub) linux_generator (lit "/tmp") [10%N] [0; 1; 1]%nat
         ([mk_proc sample_doc sample_names (Open TMP_MAX 0); mk_proc sample_doc sample_names (Open TMP_MAX 0)], ∅)).2
    0 0 (mk_proc sample_doc sample_names (Write (lit "/tmp/tmpname0.html")))
    (mk_proc sample_doc sample_names (Write (lit "/tmp/tmpname0.html"))) (lit "/tmp/tmpname0.html")).
  - repeat constructor.
  - exact (run_schedule_pair (H := stub) linux_generator (lit "/tmp") [10%N] [0; 1; 1]%nat _).
  - vm_compute. reflexivity.
  - vm_compute. reflexivity.
  - reflexivity.
  - reflexivity.
Defined.

Lemma finally_keeps_result_witness :
  @step stub linux_generator (lit "/tmp") [10%N]
    (mk_proc sample_doc sample_names (Unlink (lit "/tmp/tmpname1.html") (Ok sample_out)))
    (<[lit "/tmp/tmpname1.html" := sample_bytes]> sample_fs) =
  (mk_proc sample_doc sample_names (Done (Ok sample_out)), sample_fs).
Proof.
  assert (Hidle : idle [mk_proc sample_doc sample_names (Open TMP_MAX 0)])
    by (repeat constructor).
  pose proof (finally_keeps_result (H := stub) linux_generator (lit "/tmp") [10%N]
    [mk_proc sample_doc sample_names (Open TMP_MAX 0)] sample_fs
    (run_schedule (H := stub) linux_generator (lit "/tmp") [10%N] [0; 0; 0; 0; 0]%nat
       ([mk_proc sample_doc sample_names (Open TMP_MAX 0)], sample_fs)).1
    (run_schedule (H := stub) linux_generator (lit "/tmp") [10%N] [0; 0; 0; 0; 0]%nat
       ([mk_proc sample_doc sample_names (Open TMP_MAX 0)], sample_fs)).2
    0 (mk_proc sample_doc sample_names (Unlink (lit "/tmp/tmpname1.html") (Ok sample_out)))
    (lit "/tmp/tmpname1.html") (Ok sample_out)
    Hidle (run_schedule_pair (H := stub) _ _ _ _ _)) as W.
  specialize (W ltac:(vm_compute; reflexivity) eq_refl).
  vm_compute in W |- *. exact W.
Defined.

Lemma request_completes_witness :
  exists pr' r,
    (run_events (H := stub) linux_generator (lit "/tmp") [10%N]
       [ProcEv 0; CreateEv (lit "/tmp/tmpname1.html") []; ProcEv 1; ProcEv 1; ProcEv 0;
        DeleteEv (lit "/tmp/tmpname0.html"); ProcEv 1; ProcEv 1; ProcEv 1; ProcEv 1; ProcEv 1]
       ([mk_proc sample_doc sample_names (Open 2 0); mk_proc sample_doc sample_names (Open 2 0)],
        sample_fs)).1 !! 1%nat = Some pr' /\ point pr' = Done r.
Proof.
  apply (request_completes (H := stub) linux_generator (lit "/tmp") [10%N] _ _ 1
           (mk_proc sample_doc sample_names (Open 2 0))); [reflexivity | vm_compute; lia].
Defined.

Lemma finally_masks_result_witness :
  rtc (@sys_step stub linux_generator (lit "/tmp") [10%N])
    ([mk_proc sample_doc sample_names (Open TMP_MAX 0)], sample_fs)
    ([mk_proc sample_doc sample_names
        (Done (Raise (unlink_error (temp_path (lit "/tmp") (sample_names 1)))))], sample_fs).
Proof.
  exact (finally_masks_result (H := stub) linux_generator (lit "/tmp") [10%N] sample_doc
    sample_names sample_fs 1 sample_bytes (lit "%PDF-1.4 13")
    ltac:(vm_compute; reflexivity) ltac:(vm_compute; reflexivity) ltac:(vm_compute; reflexivity)).
Defined.

End Pipeline.
