(* ===== verification/Base64.v ===== *)
(** Base64: [base64.b64encode(pdf_buffer.read()).decode('utf-8')]
    ([src/app.py] line 812), the PDF of [/generate-certificate] as JSON
    text.  [b64encode] is RFC 4648 section 4 as CPython's
    [binascii.b2a_base64] writes it: every three bytes become four
    characters of [table_b2a_base64], and a last one or two bytes are padded
    with [=].  [b64decode] is the decoder a client applies to the
    [pdf_base64] field, written from RFC 4648's table of ranges and not
    from [table_b2a_base64], so that the round trip ([b64_roundtrip])
    checks the encoder's table against the standard. *)

From S2P Require Import Prelude.

Module Base64.

Local Open Scope N_scope.

Definition table_b2a_base64 : pystr :=
  lit "ABCDEFGHIJKLMNOPQRSTUVWXYZabcdefghijklmnopqrstuvwxyz0123456789+/".

Definition BASE64_PAD : N := 61.

Definition b64_char (q : N) : N := nth (N.to_nat q) table_b2a_base64 BASE64_PAD.

(** [base64.b64encode]. *)
Fixpoint b64encode (bs : list N) : pystr :=
  match bs with
  | b0 :: b1 :: b2 :: rest =>
      let n := N.lor (N.shiftl b0 16) (N.lor (N.shiftl b1 8) b2) in
      [b64_char (N.shiftr n 18); b64_char (N.land (N.shiftr n 12) 0x3f);
       b64_char (N.land (N.shiftr n 6) 0x3f); b64_char (N.land n 0x3f)] ++ b64encode rest
  | [b0; b1] =>
      let n := N.lor (N.shiftl b0 16) (N.shiftl b1 8) in
      [b64_char (N.shiftr n 18); b64_char (N.land (N.shiftr n 12) 0x3f);
       b64_char (N.land (N.shiftr n 6) 0x3f); BASE64_PAD]
  | [b0] =>
      let n := N.shiftl b0 16 in
      [b64_char (N.shiftr n 18); b64_char (N.land (N.shiftr n 12) 0x3f);
       BASE64_PAD; BASE64_PAD]
  | [] => []
  end.

(** ** The decoder *)

(** The value of a character of the base64 alphabet, from the ranges of
    RFC 4648 Table 1: [A]-[Z] are 0-25, [a]-[z] 26-51, [0]-[9] 52-61, [+]
    is 62 and [/] is 63; any other character is not a digit. *)
Definition b64_index (c : N) : option N :=
  if (65 <=? c) && (c <=? 90) then Some (c - 65)
  else if (97 <=? c) && (c <=? 122) then Some (c - 71)
  else if (48 <=? c) && (c <=? 57) then Some (c + 4)
  else if c =? 43 then Some 62
  else if c =? 47 then Some 63
  else None.

Fixpoint b64decode (s : pystr) : option (list N) :=
  match s with
  | [] => Some []
  | c0 :: c1 :: c2 :: c3 :: rest =>
      match b64_index c0, b64_index c1 with
      | Some q0, Some q1 =>
          if (c2 =? BASE64_PAD) && (c3 =? BASE64_PAD) && bool_decide (rest = []) then
            Some [q0 * 4 + q1 / 16]
          else
            match b64_index c2 with
            | None => None
            | Some q2 =>
                if (c3 =? BASE64_PAD) && bool_decide (rest = []) then
                  Some [q0 * 4 + q1 / 16; (q1 mod 16) * 16 + q2 / 4]
                else
                  match b64_index c3, b64decode rest with
                  | Some q3, Some r =>
                      Some ([q0 * 4 + q1 / 16; (q1 mod 16) * 16 + q2 / 4; (q2 mod 4) * 64 + q3] ++ r)
                  | _, _ => None
                  end
            end
      | _, _ => None
      end
  | _ => None
  end.

(** ** Lemmas *)

(** The table: each of its 64 characters is ASCII, is not the pad, and is
    found back at its index. *)
Lemma table_ok q :
  q < 64 -> b64_index (b64_char q) = Some q /\ b64_char q <> BASE64_PAD /\ b64_char q < 128.
Proof.
  intros Hq.
  assert (H : forallb (fun i : nat =>
     bool_decide (b64_index (b64_char (N.of_nat i)) = Some (N.of_nat i)) &&
     negb (b64_char (N.of_nat i) =? BASE64_PAD) && (b64_char (N.of_nat i) <? 128)) (seq 0 64) = true)
    by (vm_compute; reflexivity).
  rewrite forallb_forall in H. specialize (H (N.to_nat q) ltac:(apply in_seq; lia)).
  rewrite N2Nat.id in H. apply andb_prop in H as [[H1 H2]%andb_prop H3].
  split_and!; [by apply bool_decide_eq_true in H1 | apply N.eqb_neq; by destruct (_ =? _) | by apply N.ltb_lt].
Qed.

(** Write [b = k * (b / k) + b mod k] with its bounds, and forget how
    the parts were computed. *)
Ltac split_digit b k h l :=
  pose proof (N.div_mod b k ltac:(lia)); pose proof (N.mod_lt b k ltac:(lia));
  set (h := b / k) in *; set (l := b mod k) in *; clearbody h l.

(** The four six-bit digits of three bytes, and the bytes they give back. *)
Lemma group_digits b0 b1 b2 :
  b0 < 256 -> b1 < 256 -> b2 < 256 ->
  forall n, n = b0 * 65536 + b1 * 256 + b2 ->
  n / 262144 < 64 /\ (n / 4096) mod 64 < 64 /\ (n / 64) mod 64 < 64 /\ n mod 64 < 64 /\
  (n / 262144) * 4 + ((n / 4096) mod 64) / 16 = b0 /\
  (((n / 4096) mod 64) mod 16) * 16 + ((n / 64) mod 64) / 4 = b1 /\
  (((n / 64) mod 64) mod 4) * 64 + n mod 64 = b2.
Proof.
  intros H0 H1 H2 n En.
  split_digit b0 4 h0 l0. split_digit b1 16 h1 l1. split_digit b2 64 h2 l2.
  assert (Q0 : n / 262144 = h0).
  { replace n with (h0 * 262144 + ((l0 * 16 + h1) * 4096 + (l1 * 4 + h2) * 64 + l2)) by lia.
    apply div_add_small. lia. }
  assert (Q1 : (n / 4096) mod 64 = l0 * 16 + h1).
  { replace n with ((h0 * 64 + (l0 * 16 + h1)) * 4096 + ((l1 * 4 + h2) * 64 + l2)) by lia.
    rewrite div_add_small, mod_add_small; lia. }
  assert (Q2 : (n / 64) mod 64 = l1 * 4 + h2).
  { replace n with (((h0 * 64 + (l0 * 16 + h1)) * 64 + (l1 * 4 + h2)) * 64 + l2) by lia.
    rewrite div_add_small, mod_add_small; lia. }
  assert (Q3 : n mod 64 = l2).
  { replace n with ((((h0 * 64 + (l0 * 16 + h1)) * 64 + (l1 * 4 + h2))) * 64 + l2) by lia.
    apply mod_add_small. lia. }
  rewrite Q0, Q1, Q2, Q3, (N.mul_comm l0 16), (N.mul_comm l1 4), (N.mul_comm 16 l0), (N.mul_comm 4 l1).
  rewrite !div_add_small, !mod_add_small by lia. lia.
Qed.

Lemma lor_shifts b0 b1 b2 :
  b1 < 256 -> b2 < 256 ->
  N.lor (N.shiftl b0 16) (N.lor (N.shiftl b1 8) b2) = b0 * 65536 + b1 * 256 + b2.
Proof.
  intros H1 H2. rewrite !N.shiftl_mul_pow2.
  rewrite (lor_small b1 8 b2) by (change (2 ^ 8) with 256; lia).
  rewrite (lor_small b0 16) by (change (2 ^ 16) with 65536; change (2 ^ 8) with 256; lia).
  change (2 ^ 16) with 65536. change (2 ^ 8) with 256. lia.
Qed.

Lemma digit_of x k : N.land (N.shiftr x k) 0x3f = (x / 2 ^ k) mod 64.
Proof. rewrite N.shiftr_div_pow2. change 0x3f with (N.ones 6). by rewrite N.land_ones. Qed.

Lemma low_digit x : N.land x 0x3f = x mod 64.
Proof. change 0x3f with (N.ones 6). by rewrite N.land_ones. Qed.

(** Rewrite the table lookups of digits below 64. *)
Ltac table_lookups :=
  repeat match goal with
  | H : ?q < 64 |- context [b64_index (b64_char ?q)] => rewrite (proj1 (table_ok q H))
  | H : ?q < 64 |- context [b64_char ?q =? BASE64_PAD] =>
      rewrite (proj2 (N.eqb_neq _ _) (proj1 (proj2 (table_ok q H))))
  end.

Ltac digits :=
  rewrite ?digit_of, ?low_digit, ?N.shiftr_div_pow2; change (2 ^ 18) with 262144 in *;
  change (2 ^ 12) with 4096 in *; change (2 ^ 6) with 64 in *; change (2 ^ 0) with 1 in *;
  rewrite ?N.div_1_r.

Lemma b64_roundtrip_le m bs :
  (length bs <= m)%nat -> Forall (fun b => b < 256) bs -> b64decode (b64encode bs) = Some bs.
Proof.
  revert bs. induction m as [|m IH]; intros bs Hlen Hb.
  { destruct bs; [done | simpl in Hlen; lia]. }
  destruct bs as [|b0 [|b1 [|b2 rest]]]; [done|..];
    repeat match goal with H : Forall _ (_ :: _) |- _ => apply Forall_cons in H as [? H] end.
  - cbn [b64encode]. rewrite N.shiftl_mul_pow2. change (2 ^ 16) with 65536. digits.
    destruct (group_digits b0 0 0 ltac:(done) ltac:(lia) ltac:(lia) (b0 * 65536) ltac:(lia))
      as (D0 & D1 & D2 & D3 & E0 & E1 & E2).
    cbn [b64decode]. table_lookups. rewrite N.eqb_refl. cbn. by rewrite E0.
  - cbn [b64encode]. rewrite <- (N.lor_0_r (N.shiftl b1 8)), lor_shifts by lia. digits.
    destruct (group_digits b0 b1 0 ltac:(done) ltac:(done) ltac:(lia) _ eq_refl)
      as (D0 & D1 & D2 & D3 & E0 & E1 & E2).
    cbn [b64decode]. table_lookups. rewrite N.eqb_refl. cbn. by rewrite E0, E1.
  - cbn [b64encode]. rewrite lor_shifts by done. digits.
    destruct (group_digits b0 b1 b2 ltac:(done) ltac:(done) ltac:(done) _ eq_refl)
      as (D0 & D1 & D2 & D3 & E0 & E1 & E2).
    cbn [b64decode app]. table_lookups. cbn [andb].
    rewrite (IH rest) by (done || (simpl in Hlen; lia)). by rewrite E0, E1, E2.
Qed.

Lemma b64_char_ascii q : b64_char q < 128.
Proof.
  destruct (N.lt_ge_cases q 64) as [Hq|Hq]; [apply (table_ok q Hq)|].
  unfold b64_char. rewrite nth_overflow; [unfold BASE64_PAD; lia|].
  change (length table_b2a_base64) with 64%nat. lia.
Qed.

Lemma b64encode_ascii bs : Forall (fun c => c < 128) (b64encode bs).
Proof.
  induction bs as [bs IH] using (induction_ltof1 _ (@length N)); unfold ltof in IH.
  destruct bs as [|b0 [|b1 [|b2 rest]]]; cbn [b64encode];
    [constructor | repeat constructor; apply b64_char_ascii || done..|].
  apply Forall_app. split; [repeat constructor; apply b64_char_ascii | apply IH; simpl; lia].
Qed.

(** ** Theorems *)

(** a client that decodes the [pdf_base64] text gets the PDF's bytes
    back. *)
Theorem b64_roundtrip (bs : list N) :
  Forall (fun b => b < 256) bs -> b64decode (b64encode bs) = Some bs.
Proof. apply (b64_roundtrip_le (length bs)). done. Qed.

Lemma b64_roundtrip_witness :
  b64encode (lit "%PDF-1") = lit "JVBERi0x" /\ b64encode (lit "%PDF-") = lit "JVBERi0=" /\
  b64decode (lit "JVBERi0=") = Some (lit "%PDF-").
Proof.
  split; [vm_compute; reflexivity|]. split; [vm_compute; reflexivity|].
  change (lit "JVBERi0=") with (b64encode (lit "%PDF-")).
  apply b64_roundtrip. repeat constructor.
Defined.

(** The text has four characters for every three bytes or part of
    three, all of them ASCII, so [.decode('utf-8')] cannot fail on it and
    it is non-empty exactly when the PDF is. *)
Theorem b64encode_shape (bs : list N) :
  length (b64encode bs) = (4 * ((length bs + 2) / 3))%nat /\
  Forall (fun c => c < 128) (b64encode bs).
Proof.
  split; [|apply b64encode_ascii].
  induction bs as [bs IH] using (induction_ltof1 _ (@length N)); unfold ltof in IH.
  destruct bs as [|b0 [|b1 [|b2 rest]]]; cbn [b64encode length]; [done..|].
  rewrite length_app, (IH rest ltac:(simpl; lia)). cbn [length].
  replace (S (S (S (length rest))) + 2)%nat with ((length rest + 2) + 1 * 3)%nat by lia.
  rewrite Nat.div_add by lia. lia.
Qed.

End Base64.
