(* ===== verification/Api.v ===== *)
(** The HTTP handlers of the Flask application ([src/app.py] lines
    802-896): [generate_certificate] ([POST /generate-certificate]),
    [generate_certificate_file] ([POST /generate-certificate-file]),
    [preview_certificate] ([POST /preview-certificate]), [health_check]
    ([GET /health]) and [test_endpoint] ([POST /api/test]).  A handler is a
    function of what [request.get_json()] returned or raised, of the clock
    readings and random draws it makes, and of the file system; it returns
    the response it builds ([jsonify] of a dict with a status, or
    [send_file]) and the file system after it.  [test_endpoint] has no
    [try], so what it raises escapes to Flask, which answers with its own
    error page: its result is a [res]. *)

From S2P Require Import Prelude PyValue Clock Composer Utf8 Config Pipeline Base64.

Module Api.

(** What [request.get_json()] returns: a JSON object, array or scalar
    ([None] for a JSON [null]). *)
Inductive payload :=
  | PDict (a : attrs)
  | PList (items : list value)
  | PScalar (v : value).

Definition payload_type_name (d : payload) : pystr :=
  match d with
  | PDict _ => lit "dict"
  | PList _ => lit "list"
  | PScalar v => type_name v
  end.

(** [bool(data)]. *)
Definition payload_truthy (d : payload) : bool :=
  match d with
  | PDict a => negb (bool_decide (a = ∅))
  | PList l => negb (bool_decide (l = []))
  | PScalar v => truthy v
  end.

(** [len(data)]. *)
Definition payload_len (d : payload) : res nat :=
  match d with
  | PDict a => Ok (size a)
  | PList l => Ok (length l)
  | PScalar (VStr s) => Ok (length s)
  | PScalar v => Raise (TypeError (lit "object of type '" ++ type_name v ++ lit "' has no len()"))
  end.

(** The mapping [create_certificate_html] calls [data.get] on: only a
    [dict] has the method. *)
Definition payload_attrs (d : payload) : res attrs :=
  match d with
  | PDict a => Ok a
  | _ => Raise (AttributeError (lit "'" ++ payload_type_name d ++ lit "' object has no attribute 'get'"))
  end.

(** The values of the dicts handed to [jsonify]. *)
Inductive json :=
  | JStr (s : pystr)
  | JBool (b : bool)
  | JInt (n : nat).

Inductive response :=
  | JsonResponse (status : N) (body : list (pystr * json))
  | FileResponse (data : Pipeline.bytes_io) (download_name : pystr) (mimetype : pystr)
                 (as_attachment : bool).

Definition status_of (r : response) : N :=
  match r with
  | JsonResponse s _ => s
  | FileResponse _ _ _ _ => 200
  end.

(** [jsonify({'error': 'No data provided'}), 400]. *)
Definition no_data : response := JsonResponse 400 [(lit "error", JStr (lit "No data provided"))].

(** The [except Exception as e] answer of the three [POST] handlers. *)
Definition failure (what : pystr) (e : exc) : response :=
  JsonResponse 500 [(lit "success", JBool false);
                    (lit "error", JStr (lit "Failed to generate " ++ what ++ lit ": " ++ exc_str e))].

(** [data.get('certificate_id', 'unknown')] in the download names. *)
Definition name_id (a : attrs) : pystr := py_str (dict_get a (lit "certificate_id") (VStr (lit "unknown"))).

Fixpoint lookup_field (k : pystr) (body : list (pystr * json)) : option json :=
  match body with
  | [] => None
  | (k', v) :: rest => if bool_decide (k = k') then Some v else lookup_field k rest
  end.

(** [response.get_json()[k]] on the client's side. *)
Definition json_field (r : response) (k : pystr) : option json :=
  match r with
  | JsonResponse _ body => lookup_field k body
  | FileResponse _ _ _ _ => None
  end.

(** [POST /preview-certificate]: composes only. *)
Definition preview_certificate (body : res payload) (now : Clock.datetime) (rnd : list Z) : response :=
  match body with
  | Raise e => failure (lit "preview") e
  | Ok data =>
      if negb (payload_truthy data) then no_data
      else
        match payload_attrs data with
        | Raise e => failure (lit "preview") e
        | Ok a =>
            match Composer.create_certificate_html now rnd a with
            | Raise e => failure (lit "preview") e
            | Ok html_content =>
                JsonResponse 200
                  [(lit "success", JBool true);
                   (lit "html_content", JStr html_content);
                   (lit "message", JStr (lit "Professional certificate preview generated"))]
            end
        end
  end.

(** [GET /health]. *)
Definition health_check (now : Clock.datetime) : response :=
  JsonResponse 200
    [(lit "status", JStr (lit "healthy"));
     (lit "service", JStr (lit "Professional Certificate Generator (wkhtmltopdf)"));
     (lit "timestamp", JStr (Clock.isoformat now))].

(** [POST /api/test]: no [try]. *)
Definition test_endpoint (body : res payload) (now : Clock.datetime) : res response :=
  data <- body ;;
  received <- (if payload_truthy data then payload_len data else Ok 0%nat) ;;
  Ok (JsonResponse 200
        [(lit "message", JStr (lit "Professional Certificate API is working"));
         (lit "received_params", JInt received);
         (lit "timestamp", JStr (Clock.isoformat now))]).

(** The request of the spec's end-to-end example. *)
Definition spec_example_data : attrs :=
  list_to_map [(lit "certificate_id", VStr (lit "CERT-TEST-1"));
               (lit "final_status", VStr (lit "PASSED"));
               (lit "device_type", VStr (lit "SSD"))].

Section Handlers.

Context `{Pipeline.PdfRenderer}.

(** [cert_generator]'s configuration, [tempfile.gettempdir()] and
    [os.linesep]. *)
Variable gen : Config.generator.
Variable tmpdir : pystr.
Variable linesep : pystr.

(** The part of [generate_certificate] and [generate_certificate_file]
    before their answers: parse, check, [len(data)], and
    [cert_generator.create_certificate(data)]. *)
Definition checked_create (body : res payload) (now : Clock.datetime) (rnd : list Z)
    (nm : nat -> pystr) (f : Pipeline.fs) : res (option (attrs * Pipeline.bytes_io)) * Pipeline.fs :=
  match body with
  | Raise e => (Raise e, f)
  | Ok data =>
      if negb (payload_truthy data) then (Ok None, f)
      else
        match payload_len data, payload_attrs data with
        | Raise e, _ | _, Raise e => (Raise e, f)
        | Ok _, Ok a =>
            match Pipeline.create_certificate gen tmpdir linesep now rnd nm a f with
            | (Raise e, f') => (Raise e, f')
            | (Ok buf, f') => (Ok (Some (a, buf)), f')
            end
        end
  end.

(** [POST /generate-certificate]: [now] is the clock reading of the
    composer, [now'] the one of [generated_at]. *)
Definition generate_certificate (body : res payload) (now now' : Clock.datetime) (rnd : list Z)
    (nm : nat -> pystr) (f : Pipeline.fs) : response * Pipeline.fs :=
  match checked_create body now rnd nm f with
  | (Raise e, f') => (failure (lit "certificate") e, f')
  | (Ok None, f') => (no_data, f')
  | (Ok (Some (a, buf)), f') =>
      match Utf8.utf8_decode (Base64.b64encode (Pipeline.bytes_io_read buf)) with
      | None => (failure (lit "certificate") (UnicodeDecodeError (lit "'utf-8' codec can't decode")), f')
      | Some pdf_base64 =>
          (JsonResponse 200
             [(lit "success", JBool true);
              (lit "message", JStr (lit "Professional certificate generated successfully"));
              (lit "pdf_base64", JStr pdf_base64);
              (lit "filename", JStr (lit "certificate_" ++ name_id a ++ lit ".pdf"));
              (lit "generated_at", JStr (Clock.isoformat now'))], f')
      end
  end.

(** [POST /generate-certificate-file]: [now'] is the clock reading of the
    file name. *)
Definition generate_certificate_file (body : res payload) (now now' : Clock.datetime)
    (rnd : list Z) (nm : nat -> pystr) (f : Pipeline.fs) : response * Pipeline.fs :=
  match checked_create body now rnd nm f with
  | (Raise e, f') => (failure (lit "certificate") e, f')
  | (Ok None, f') => (no_data, f')
  | (Ok (Some (a, buf)), f') =>
      (FileResponse buf
         (lit "certificate_" ++ name_id a ++ lit "_" ++ Clock.strftime_compact now' ++ lit ".pdf")
         (lit "application/pdf") true, f')
  end.

(** ** Lemmas *)

Lemma checked_create_some body now rnd nm f a buf f' :
  checked_create body now rnd nm f = (Ok (Some (a, buf)), f') ->
  Pipeline.create_certificate gen tmpdir linesep now rnd nm a f = (Ok buf, f') /\
  body = Ok (PDict a) /\ a <> ∅.
Proof.
  unfold checked_create. destruct body as [data|e]; [|discriminate].
  destruct (payload_truthy data) eqn:Ht; cbn [negb]; [|discriminate].
  destruct (payload_len data), (payload_attrs data) as [a'|] eqn:Ha; try discriminate.
  destruct (Pipeline.create_certificate _ _ _ _ _ _ _ _) as [[b|] g] eqn:E; [|discriminate].
  intros [= <- <- <-]. split; [done|].
  destruct data; cbn [payload_attrs] in Ha; try discriminate. injection Ha as ->.
  split; [done|]. intros ->. cbn [payload_truthy] in Ht. by rewrite bool_decide_true in Ht.
Qed.

(** The [pdf_base64] text of a successful request: [.decode('utf-8')] of
    the ASCII base64 bytes is the identity. *)
Lemma generate_certificate_checked body now now' rnd nm f :
  generate_certificate body now now' rnd nm f =
  match checked_create body now rnd nm f with
  | (Raise e, f') => (failure (lit "certificate") e, f')
  | (Ok None, f') => (no_data, f')
  | (Ok (Some (a, buf)), f') =>
      (JsonResponse 200
         [(lit "success", JBool true);
          (lit "message", JStr (lit "Professional certificate generated successfully"));
          (lit "pdf_base64", JStr (Base64.b64encode (Pipeline.bytes_io_read buf)));
          (lit "filename", JStr (lit "certificate_" ++ name_id a ++ lit ".pdf"));
          (lit "generated_at", JStr (Clock.isoformat now'))], f')
  end.
Proof.
  unfold generate_certificate. destruct (checked_create _ _ _ _ _) as [[[[a buf]|]|e] f']; [|done..].
  by rewrite Utf8.utf8_decode_ascii by apply Base64.b64encode_ascii.
Qed.

(** ** Theorems *)

(** C24: on a non-empty JSON object whose certificate the pipeline
    produces, [/generate-certificate] answers 200 with the base64 text of
    the PDF, a file name made of the raw [certificate_id] (or [unknown]),
    and the time of the second clock reading. *)
Theorem generate_certificate_success a now now' rnd nm f buf f' :
  a <> ∅ ->
  Pipeline.create_certificate gen tmpdir linesep now rnd nm a f = (Ok buf, f') ->
  generate_certificate (Ok (PDict a)) now now' rnd nm f =
    (JsonResponse 200
       [(lit "success", JBool true);
        (lit "message", JStr (lit "Professional certificate generated successfully"));
        (lit "pdf_base64", JStr (Base64.b64encode (Pipeline.bytes_io_read buf)));
        (lit "filename", JStr (lit "certificate_" ++ name_id a ++ lit ".pdf"));
        (lit "generated_at", JStr (Clock.isoformat now'))], f').
Proof.
  intros Ha E. rewrite generate_certificate_checked. unfold checked_create.
  cbn [payload_truthy payload_len payload_attrs]. rewrite bool_decide_false by done.
  cbn [negb]. by rewrite E.
Qed.

(** C13: what the pipeline returns reaches the client unchanged by either
    generating endpoint: on a non-empty object whose certificate the
    pipeline produces, the [pdf_base64] text of [/generate-certificate]
    decodes, by the RFC 4648 decoder a client applies, to exactly the bytes
    of the buffer, and [/generate-certificate-file] sends that buffer as
    an attachment of type [application/pdf]; both leave the file system
    the pipeline left. *)
Theorem generated_pdf_delivered a now now' rnd nm f buf f' :
  a <> ∅ ->
  Pipeline.create_certificate gen tmpdir linesep now rnd nm a f = (Ok buf, f') ->
  (exists s,
     generate_certificate (Ok (PDict a)) now now' rnd nm f =
       (JsonResponse 200
          [(lit "success", JBool true);
           (lit "message", JStr (lit "Professional certificate generated successfully"));
           (lit "pdf_base64", JStr s);
           (lit "filename", JStr (lit "certificate_" ++ name_id a ++ lit ".pdf"));
           (lit "generated_at", JStr (Clock.isoformat now'))], f') /\
     Base64.b64decode s = Some (Pipeline.buffer buf)) /\
  generate_certificate_file (Ok (PDict a)) now now' rnd nm f =
    (FileResponse buf
       (lit "certificate_" ++ name_id a ++ lit "_" ++ Clock.strftime_compact now' ++ lit ".pdf")
       (lit "application/pdf") true, f').
Proof.
  intros Ha E.
  assert (C : checked_create (Ok (PDict a)) now rnd nm f = (Ok (Some (a, buf)), f')).
  { unfold checked_create. cbn [payload_truthy payload_len payload_attrs].
    rewrite bool_decide_false by done. cbn [negb]. by rewrite E. }
  destruct (Pipeline.create_certificate_bytes _ _ _ _ _ _ _ _ _ _ E) as [Hp Hb].
  split.
  - exists (Base64.b64encode (Pipeline.bytes_io_read buf)).
    rewrite generate_certificate_checked, C. split; [done|].
    unfold Pipeline.bytes_io_read. rewrite Hp, drop_0.
    apply (Base64.b64_roundtrip_le (length (Pipeline.buffer buf))); [done | exact Hb].
  - unfold generate_certificate_file. by rewrite C.
Qed.

(** C17: [/generate-certificate] never lets an exception escape: it answers
    400 with [{'error': 'No data provided'}] exactly when the body parses to
    an empty or false value, 500 with [success: False] and the exception's
    text on any other failure, 200 with [success: True] otherwise; the 400
    answer carries no [success] flag. *)
Theorem generate_certificate_answers body now now' rnd nm f :
  let r := fst (generate_certificate body now now' rnd nm f) in
  (r = no_data <-> exists d, body = Ok d /\ payload_truthy d = false) /\
  ((status_of r = 200%N /\ json_field r (lit "success") = Some (JBool true)) \/
   r = no_data \/
   (exists e, r = failure (lit "certificate") e /\ json_field r (lit "success") = Some (JBool false))) /\
  json_field no_data (lit "success") = None.
Proof.
  intros r. subst r. rewrite generate_certificate_checked.
  split_and!; [|destruct (checked_create _ _ _ _ _) as [[[[a buf]|]|e] f']; cbn [fst]; eauto|done].
  unfold checked_create. destruct body as [data|e]; cbn [fst].
  - destruct (payload_truthy data) eqn:Ht; cbn [negb].
    + split; [|intros (d & [= <-] & Hd); congruence].
      destruct (payload_len data), (payload_attrs data); try discriminate.
      by destruct (Pipeline.create_certificate _ _ _ _ _ _ _ _) as [[] ?].
    + split; [eauto|done].
  - split; [discriminate|]. intros (d & Hd & _). discriminate.
Qed.

End Handlers.

(** C30: [/api/test] has no [try]: it answers 200 with [received_params: 0]
    to an empty or missing body, where the spec asks for an error answer,
    and on a true scalar other than a string its [len(data)] raises
    [TypeError] out of the handler. *)
Theorem test_endpoint_answers now :
  (forall d, payload_truthy d = false ->
     test_endpoint (Ok d) now =
     Ok (JsonResponse 200
           [(lit "message", JStr (lit "Professional Certificate API is working"));
            (lit "received_params", JInt 0);
            (lit "timestamp", JStr (Clock.isoformat now))])) /\
  (forall v, truthy v = true -> is_str v = false ->
     test_endpoint (Ok (PScalar v)) now =
     Raise (TypeError (lit "object of type '" ++ type_name v ++ lit "' has no len()"))).
Proof.
  split.
  - intros d Hd. unfold test_endpoint. cbn [res_bind]. by rewrite Hd.
  - intros v Hv Hs. unfold test_endpoint. cbn [res_bind payload_truthy]. rewrite Hv.
    destruct v; [discriminate|done..].
Qed.

(** ** Witnesses *)

Local Abbreviation stub := (@Pipeline.pdfkit_renderer Pipeline.wk_stub_binary).

Lemma test_endpoint_answers_witness :
  test_endpoint (Ok (PDict ∅)) (Clock.mk_datetime 2024 3 15 14 30 0 0) =
    Ok (JsonResponse 200
          [(lit "message", JStr (lit "Professional Certificate API is working"));
           (lit "received_params", JInt 0);
           (lit "timestamp", JStr (lit "2024-03-15T14:30:00"))]) /\
  test_endpoint (Ok (PScalar (VInt 5))) (Clock.mk_datetime 2024 3 15 14 30 0 0) =
    Raise (TypeError (lit "object of type 'int' has no len()")).
Proof.
  split.
  - rewrite (proj1 (test_endpoint_answers _) (PDict ∅) ltac:(cbn [payload_truthy]; by rewrite bool_decide_true)). reflexivity.
  - exact (proj2 (test_endpoint_answers _) (VInt 5) eq_refl eq_refl).
Defined.

(** The sample data of the main block without its [certificate_id]: the
    document carries the generated identifier, the file name [unknown]. *)
Lemma generated_pdf_delivered_witness :
  Pipeline.create_certificate (H := stub) Pipeline.linux_generator (lit "/tmp") [10%N]
    (Clock.mk_datetime 2024 3 15 14 30 0 0) Composer.sample_rnd Pipeline.sample_names
    Composer.sample_data ∅ = (Ok (Pipeline.mk_bytes_io (lit "%PDF-1.4 29655") 0), ∅) /\
  (exists s,
     @generate_certificate stub Pipeline.linux_generator (lit "/tmp") [10%N]
       (Ok (PDict Composer.sample_data)) (Clock.mk_datetime 2024 3 15 14 30 0 0)
       (Clock.mk_datetime 2024 3 15 14 30 2 500) Composer.sample_rnd Pipeline.sample_names ∅ =
       (JsonResponse 200
          [(lit "success", JBool true);
           (lit "message", JStr (lit "Professional certificate generated successfully"));
           (lit "pdf_base64", JStr s);
           (lit "filename", JStr (lit "certificate_CERT-2024-FLAGSHIP-001.pdf"));
           (lit "generated_at", JStr (lit "2024-03-15T14:30:02.000500"))], ∅) /\
     Base64.b64decode s = Some (lit "%PDF-1.4 29655")).
Proof.
  assert (E : Pipeline.create_certificate (H := stub) Pipeline.linux_generator (lit "/tmp") [10%N]
    (Clock.mk_datetime 2024 3 15 14 30 0 0) Composer.sample_rnd Pipeline.sample_names
    Composer.sample_data ∅ = (Ok (Pipeline.mk_bytes_io (lit "%PDF-1.4 29655") 0), ∅))
    by (vm_compute; reflexivity).
  split; [exact E|].
  exact (proj1 (generated_pdf_delivered (H := stub) Pipeline.linux_generator (lit "/tmp") [10%N]
    Composer.sample_data _ (Clock.mk_datetime 2024 3 15 14 30 2 500) _ _ _ _ _
    ltac:(apply (bool_decide_unpack _); vm_compute; reflexivity) E)).
Defined.

Lemma generate_certificate_success_witness :
  json_field (fst (@generate_certificate stub Pipeline.linux_generator (lit "/tmp") [10%N]
     (Ok (PDict (delete (lit "certificate_id") Composer.sample_data)))
     (Clock.mk_datetime 2024 3 15 14 30 0 0) (Clock.mk_datetime 2024 3 15 14 30 2 500)
     Composer.sample_rnd Pipeline.sample_names ∅)) (lit "filename") =
  Some (JStr (lit "certificate_unknown.pdf")).
Proof.
  rewrite (generate_certificate_success (H := stub) Pipeline.linux_generator (lit "/tmp") [10%N]
    (delete (lit "certificate_id") Composer.sample_data)
    (Clock.mk_datetime 2024 3 15 14 30 0 0) (Clock.mk_datetime 2024 3 15 14 30 2 500)
    Composer.sample_rnd Pipeline.sample_names ∅ (Pipeline.mk_bytes_io (lit "%PDF-1.4 29610") 0) ∅);
    [reflexivity | apply (bool_decide_unpack _); vm_compute; reflexivity | vm_compute; reflexivity].
Defined.

(** The spec's end-to-end example: on [{"certificate_id": "CERT-TEST-1",
    "final_status": "PASSED", "device_type": "SSD"}], [/generate-certificate]
    answers with success, the file name [certificate_CERT-TEST-1.pdf] and a
    non-empty base64 text, and [/preview-certificate] with a document that
    contains [CERT-TEST-1] and [PASSED] (here with a stand-in renderer and
    fixed clock and random draws). *)
Example spec_end_to_end :
  let r := fst (@generate_certificate stub Pipeline.linux_generator (lit "/tmp") [10%N]
                  (Ok (PDict spec_example_data)) (Clock.mk_datetime 2024 3 15 14 30 0 0)
                  (Clock.mk_datetime 2024 3 15 14 30 2 500) Composer.sample_rnd
                  Pipeline.sample_names ∅) in
  let p := preview_certificate (Ok (PDict spec_example_data)) (Clock.mk_datetime 2024 3 15 14 30 0 0)
             Composer.sample_rnd in
  json_field r (lit "success") = Some (JBool true) /\
  json_field r (lit "filename") = Some (JStr (lit "certificate_CERT-TEST-1.pdf")) /\
  match json_field r (lit "pdf_base64") with Some (JStr s) => s <> [] | _ => False end /\
  match json_field p (lit "html_content") with
  | Some (JStr h) => py_in (lit "CERT-TEST-1") h = true /\ py_in (lit "PASSED") h = true
  | _ => False
  end.
Proof. vm_compute. split_and!; done. Qed.

End Api.
