(* ===== verification/Integration.v ===== *)
(** Theorems across components.  The composer ([Composer]) builds the
    document, the pipeline ([Pipeline]) writes it with the strict UTF-8
    encoder ([Utf8]); the write fails, and leaves its temporary file
    behind, only on a document that is not a well-formed [str] of
    encodable code points.  This file shows that the composed document is
    well-formed whenever the request's values are, since every other
    character comes from the template, the generated identifier, the clock
    or the badge styles; so a request without surrogates never leaves a
    file behind. *)

From S2P Require Import Prelude PyValue Status Ident Clock Composer Utf8 Config Pipeline.

Module Integration.

Local Open Scope N_scope.

(** ** Well-formed strings *)

(** A code point that a [str] may hold and UTF-8 can encode. *)
Definition good_cp (c : N) : bool := (c <=? 0x10FFFF) && negb (Utf8.is_surrogate c).

Definition good_str (s : pystr) : bool := forallb good_cp s.

Definition good_value (v : value) : bool := good_str (py_str v).

(** The request's values are well-formed. *)
Definition good_attrs (data : attrs) : Prop := map_Forall (fun _ v => good_value v = true) data.

(** Every text an f-string part yields is well-formed. *)
Definition piece_good (r : res pystr) : bool :=
  match r with
  | Ok s => good_str s
  | Raise _ => true
  end.

Definition parts_good (ps : list (res pystr)) : bool := forallb piece_good ps.

(** The spec's contract of the render pipeline (section 4.2): the
    outcome is the renderer's, run on a fresh location holding an encoding
    of the document that decodes back to it, and the location is gone
    afterwards. *)
Definition render_contract `{Pipeline.PdfRenderer} (gen : Config.generator)
    (doc : pystr) (f : Pipeline.fs) (out : res Pipeline.bytes_io * Pipeline.fs) : Prop :=
  out.2 = f /\
  exists p b, f !! p = None /\ Utf8.utf8_decode b = Some doc /\
    out.1 = (pdf <- Pipeline.render_call gen p (<[p := b]> f) ;; Ok (Pipeline.mk_bytes_io pdf 0)).

(** ** Lemmas *)

Lemma good_str_app s1 s2 : good_str (s1 ++ s2) = good_str s1 && good_str s2.
Proof. apply forallb_app. Qed.

Lemma ascii_good s : Forall (fun c => c < 128) s -> good_str s = true.
Proof.
  intros H. apply forallb_forall. intros c Hc%list_elem_of_In.
  pose proof (proj1 (Forall_forall _ _) H c Hc) as Hlt. cbv beta in Hlt.
  unfold good_cp, Utf8.is_surrogate. apply andb_true_intro. split; [apply N.leb_le; lia|].
  destruct (N.leb_spec 0xD800 c); [lia|done].
Qed.

Lemma good_lower_cp c : good_cp c = true -> good_cp (lower_cp c) = true.
Proof.
  unfold lower_cp. destruct ((65 <=? c) && (c <=? 90)) eqn:E; [|done]. intros _.
  apply andb_prop in E as [E1 E2]. apply N.leb_le in E1, E2.
  unfold good_cp, Utf8.is_surrogate. apply andb_true_intro. split; [apply N.leb_le; lia|].
  destruct (N.leb_spec 0xD800 (c + 32)); [lia|done].
Qed.

Lemma good_py_lower s : good_str s = true -> good_str (py_lower s) = true.
Proof.
  unfold good_str, py_lower. rewrite !forallb_forall. intros H c (d & <- & Hd)%in_map_iff.
  by apply good_lower_cp, H.
Qed.

Lemma good_take n s : good_str s = true -> good_str (take n s) = true.
Proof.
  revert n. induction s as [|c s IH]; intros [|n]; cbn [good_str forallb take]; try done.
  intros [Hc Hs]%andb_prop. unfold good_str in IH. cbn [forallb]. by rewrite Hc, IH.
Qed.

Lemma fstring_good ps s : Composer.fstring ps = Ok s -> parts_good ps = true -> good_str s = true.
Proof.
  revert s. induction ps as [|p ps IH]; intros s; cbn [Composer.fstring parts_good forallb].
  - by intros [= <-].
  - destruct p as [a|]; cbn [res_bind]; [|discriminate].
    destruct (Composer.fstring ps) as [r|]; cbn [res_bind]; [|discriminate].
    intros [= <-] [Ha Hr]%andb_prop. cbn [piece_good] in Ha. rewrite good_str_app, Ha. by apply IH.
Qed.

Lemma dict_get_good data k d :
  good_attrs data -> good_value d = true -> good_value (dict_get data k d) = true.
Proof. unfold dict_get. intros Hd Hv. destruct (data !! k) eqn:E; [by eapply Hd|done]. Qed.

Lemma hex_fixed_ascii w n : Forall (fun c => c < 128) (Ident.hex_fixed w n).
Proof.
  apply Forall_forall. intros c Hc. unfold Ident.hex_fixed in Hc.
  destruct (Ident.nibbles_digits_bound _ _ _ _ Hc) as (k & Hk & ->).
  unfold Ident.hex_cp. destruct (Z.ltb_spec k 10); lia.
Qed.

Lemma upper_ascii s : Forall (fun c => c < 128) s -> Forall (fun c => c < 128) (py_upper s).
Proof.
  intros H. apply Forall_fmap. eapply Forall_impl; [exact H|]. intros c Hc. cbv beta delta [compose] in *.
  unfold upper_cp. destruct ((97 <=? c) && (c <=? 122)); lia.
Qed.

Lemma generated_cert_id_good b : good_str (Ident.generated_cert_id b) = true.
Proof.
  apply ascii_good. unfold Ident.generated_cert_id. apply Forall_app. split; [repeat constructor|].
  apply upper_ascii, Forall_take, hex_fixed_ascii.
Qed.

Lemma pad_dec_ascii w n : Forall (fun c => c < 128) (pad_dec w n).
Proof.
  revert n. induction w as [|w IH]; intros n; cbn [pad_dec]; [constructor|].
  apply Forall_app. split; [apply IH|]. pose proof (N.mod_lt n 10 ltac:(lia)) as Hd.
  revert Hd. generalize (n mod 10). intros d Hd.
  apply List.Forall_cons; [unfold digit_cp; lia | apply List.Forall_nil].
Qed.

Lemma strftime_good dt : good_str (Clock.strftime_ymd_hms dt) = true.
Proof.
  apply ascii_good. unfold Clock.strftime_ymd_hms, Clock.date_part, Clock.time_part.
  repeat (first [apply pad_dec_ascii | apply Forall_app; split]); repeat constructor.
Qed.

Lemma badge_good v b : Status.get_status_badge_style v = Ok b -> good_str b = true.
Proof.
  unfold Status.get_status_badge_style. destruct (negb (truthy v)).
  { intros [= <-]. vm_compute. reflexivity. }
  destruct (value_lower v); cbn [res_bind]; [|discriminate].
  repeat case_match; intros [= <-]; vm_compute; reflexivity.
Qed.

(** The parts of the template that depend on the request. *)
Lemma piece_get_na data k : good_attrs data -> piece_good (Composer.fld (Composer.get_na data k)) = true.
Proof. intros Hd. apply dict_get_good; [done|reflexivity]. Qed.

Lemma piece_default data k s :
  good_attrs data -> good_str s = true -> piece_good (Composer.fld (dict_get data k (VStr s))) = true.
Proof. intros Hd Hs. by apply dict_get_good. Qed.

Lemma piece_date data k v :
  good_attrs data -> good_value v = true -> piece_good (Composer.date_or_issue data k v) = true.
Proof.
  intros Hd Hv. unfold Composer.date_or_issue.
  destruct v as [s| | |]; cbn [value_slice_to res_bind]; try done.
  apply dict_get_good; [done|]. by apply good_take.
Qed.

Lemma piece_lower v : good_value v = true -> piece_good (value_lower v) = true.
Proof. destruct v; cbn [value_lower piece_good]; try done. apply good_py_lower. Qed.

Lemma data_grid_good data fields :
  good_attrs data ->
  forallb (fun f => good_str (Composer.item_open f.1)) fields = true ->
  good_str Composer.item_close = true ->
  parts_good (Composer.data_grid data fields) = true.
Proof.
  intros Hd Hf Hc. unfold Composer.data_grid, parts_good.
  induction fields as [|[label key] fields IH]; cbn [map concat forallb]; [done|].
  cbn [forallb fst] in Hf. apply andb_prop in Hf as [Hl Hf].
  rewrite forallb_app. cbn [Composer.data_item forallb piece_good].
  rewrite Hl, Hc, (piece_get_na data key Hd), IH by done. done.
Qed.

Lemma parts_good_app ps1 ps2 : parts_good (ps1 ++ ps2) = parts_good ps1 && parts_good ps2.
Proof. apply forallb_app. Qed.

(** Discharge the check of one part by its shape: a part of the request
    by its lemma, a part of the template by evaluation. *)
Ltac piece_tac Hd :=
  lazymatch goal with
  | |- true = true => reflexivity
  | |- piece_good (Composer.fld (Composer.get_na _ _)) = true => apply (piece_get_na _ _ Hd)
  | |- piece_good (Composer.fld (dict_get _ _ (VStr _))) = true =>
      apply (piece_default _ _ _ Hd); vm_compute; reflexivity
  | |- piece_good (Composer.fld _) = true => assumption
  | |- piece_good (Composer.date_or_issue _ _ _) = true => apply (piece_date _ _ _ Hd); assumption
  | |- piece_good (value_lower _) = true => apply piece_lower; assumption
  | |- piece_good (Ok _) = true =>
      cbn [piece_good]; rewrite ?good_str_app;
      repeat match goal with H : good_str _ = true |- _ => rewrite H end;
      vm_compute; reflexivity
  end.

(** Every part of the template is well-formed when the request's values,
    the clock text and the badge style are. *)
Lemma certificate_parts_good data ct idate cid fs badge :
  good_attrs data -> good_str ct = true -> good_value idate = true ->
  good_value cid = true -> good_value fs = true -> good_str badge = true ->
  parts_good (Composer.certificate_parts data ct idate cid fs badge) = true.
Proof.
  intros Hd Hct Hi Hc Hf Hb.
  unfold Composer.certificate_parts, Composer.body_parts, Composer.device_section,
    Composer.process_section, Composer.verification_section, Composer.additional_section,
    Composer.data_section.
  rewrite !parts_good_app.
  unfold Composer.head_part, Composer.style_part, Composer.info_bar_part,
    Composer.signature_section, Composer.footer_part.
  repeat match goal with |- (_ && _) = true => apply andb_true_intro; split end.
  all: try (apply (data_grid_good _ _ Hd); vm_compute; reflexivity).
  all: unfold parts_good; cbn [forallb];
    repeat match goal with |- (_ && _) = true => apply andb_true_intro; split end.
  all: piece_tac Hd.
Qed.

Lemma good_str_encodable s : good_str s = true <-> Forall Utf8.encodable s.
Proof.
  unfold good_str. rewrite forallb_forall, Forall_forall.
  setoid_rewrite <- list_elem_of_In. unfold good_cp, Utf8.encodable.
  split; intros H c Hc; specialize (H c Hc).
  - apply andb_prop in H as [H1 H2]. split; [by apply N.leb_le|]. by destruct (Utf8.is_surrogate c).
  - destruct H as [H1 ->]. apply andb_true_intro. split; [by apply N.leb_le|done].
Qed.

Lemma translate_good linesep s :
  good_str linesep = true -> good_str s = true ->
  good_str (Utf8.translate_newlines linesep s) = true.
Proof.
  intros Hl. unfold Utf8.translate_newlines. induction s as [|c s IH]; [done|].
  cbn [map concat good_str forallb]. intros [Hc Hs]%andb_prop.
  rewrite good_str_app, IH by done. destruct (c =? 10); [by rewrite Hl|]. cbn. by rewrite Hc.
Qed.

(** A well-formed text encodes, and its bytes decode back to it. *)
Lemma encode_good s :
  good_str s = true -> exists b, Utf8.utf8_encode s = Ok b /\ Utf8.utf8_decode b = Some s.
Proof.
  intros Hs. pose proof (proj1 (good_str_encodable s) Hs) as He.
  assert (Hok : is_ok (Utf8.utf8_encode s) = true).
  { unfold Utf8.utf8_encode. rewrite Utf8.encode_from_ok. apply forallb_forall.
    intros c Hc%list_elem_of_In. destruct (proj1 (Forall_forall _ _) He c Hc) as [_ ->]. done. }
  destruct (is_ok_Ok _ Hok) as [b Hb]. exists b. split; [done|].
  apply (Utf8.encode_from_decode 0 s b); [|done].
  eapply Forall_impl; [exact He|]. by intros c [? _].
Qed.

Lemma compose_good now rnd data doc :
  good_attrs data -> Composer.create_certificate_html now rnd data = Ok doc -> good_str doc = true.
Proof.
  intros Hd. unfold Composer.create_certificate_html.
  destruct (Status.get_status_badge_style _) as [badge|] eqn:Eb; cbn [res_bind]; [|discriminate].
  intros E. apply (fstring_good _ _ E), certificate_parts_good; try done.
  - apply strftime_good.
  - apply dict_get_good; [done|]. apply strftime_good.
  - apply dict_get_good; [done|]. apply generated_cert_id_good.
  - apply dict_get_good; [done|]. reflexivity.
  - by apply (badge_good _ _ Eb).
Qed.

Section Request.

Context `{Pipeline.PdfRenderer}.
Variable gen : Config.generator.
Variable tmpdir : pystr.
Variable linesep : pystr.

(** The request once the document is composed and a name is free. *)
Lemma create_certificate_composed now rnd nm data f doc k b :
  Composer.create_certificate_html now rnd data = Ok doc ->
  Pipeline.first_free tmpdir nm f Pipeline.TMP_MAX 0 = Some k ->
  Utf8.utf8_encode (Utf8.translate_newlines linesep doc) = Ok b ->
  Pipeline.create_certificate gen tmpdir linesep now rnd nm data f =
    (pdf <- Pipeline.render_call gen (Pipeline.temp_path tmpdir (nm k))
              (<[Pipeline.temp_path tmpdir (nm k) := b]> f) ;;
     Ok (Pipeline.mk_bytes_io pdf 0), f).
Proof.
  intros Ec Hk Hb. unfold Pipeline.create_certificate. rewrite Ec.
  by apply Pipeline.run_request_written.
Qed.

(** ** Theorems *)

(** C20: the composed document is a well-formed [str] whose every code
    point UTF-8 can encode, whenever the request's values are: the
    template, the generated identifier, the clock text and the badge
    styles are all ASCII. *)
Theorem composed_document_wellformed now rnd data doc :
  good_attrs data -> Composer.create_certificate_html now rnd data = Ok doc ->
  Forall Utf8.encodable doc.
Proof. intros Hd E. apply good_str_encodable. by apply (compose_good now rnd data). Qed.

(** C21: a request whose values hold no surrogate leaves the file system as
    it found it, whatever the renderer does and whether a name is free:
    the write can only fail, and leave its file behind, on a request
    value. *)
Theorem create_certificate_no_residue now rnd nm data f :
  good_attrs data -> good_str linesep = true ->
  (Pipeline.create_certificate gen tmpdir linesep now rnd nm data f).2 = f.
Proof.
  intros Hd Hl. destruct (Composer.create_certificate_html now rnd data) as [doc|] eqn:Ec;
    [|unfold Pipeline.create_certificate; by rewrite Ec].
  destruct (encode_good (Utf8.translate_newlines linesep doc)) as (b & Hb & _).
  { apply translate_good; [done|]. by apply (compose_good now rnd data). }
  destruct (Pipeline.first_free tmpdir nm f Pipeline.TMP_MAX 0) as [k|] eqn:Hk.
  - by rewrite (create_certificate_composed now rnd nm data f doc k b).
  - unfold Pipeline.create_certificate. rewrite Ec, Pipeline.run_request_closed, Hk. done.
Qed.

(** C3: the pipeline refines the spec's render contract: on a request
    without surrogates, once composed and given a free name, the outcome
    is the renderer's on a fresh file whose bytes decode to the document
    (newlines translated), and the file is gone afterwards. *)
Theorem create_certificate_refines_render now rnd nm data f doc k :
  good_attrs data -> good_str linesep = true ->
  Composer.create_certificate_html now rnd data = Ok doc ->
  Pipeline.first_free tmpdir nm f Pipeline.TMP_MAX 0 = Some k ->
  render_contract gen (Utf8.translate_newlines linesep doc) f
    (Pipeline.create_certificate gen tmpdir linesep now rnd nm data f).
Proof.
  intros Hd Hl Ec Hk.
  destruct (encode_good (Utf8.translate_newlines linesep doc)) as (b & Hb & Hdec).
  { apply translate_good; [done|]. by apply (compose_good now rnd data). }
  rewrite (create_certificate_composed now rnd nm data f doc k b) by done.
  split; [done|]. exists (Pipeline.temp_path tmpdir (nm k)), b. split_and!; [|done|done].
  apply (Pipeline.first_free_Some _ _ _ _ _ _ Hk).
Qed.

End Request.

(** ** Witnesses *)

Local Abbreviation stub := (@Pipeline.pdfkit_renderer Pipeline.wk_stub_binary).
Local Abbreviation t0 := (Clock.mk_datetime 2024 3 15 14 30 0 0).

Lemma sample_data_good : good_attrs Composer.sample_data.
Proof. apply (bool_decide_unpack _). vm_compute. reflexivity. Qed.

Lemma composed_document_wellformed_witness :
  match Composer.create_certificate_html t0 Composer.sample_rnd Composer.sample_data with
  | Ok doc => Forall Utf8.encodable doc
  | Raise _ => False
  end.
Proof.
  destruct (Composer.create_certificate_html t0 Composer.sample_rnd Composer.sample_data) eqn:E.
  - exact (composed_document_wellformed _ _ _ _ sample_data_good E).
  - vm_compute in E. discriminate.
Defined.

Lemma create_certificate_no_residue_witness :
  (@Pipeline.create_certificate stub Pipeline.linux_generator (lit "/tmp") [10%N] t0
     Composer.sample_rnd Pipeline.sample_names Composer.sample_data Pipeline.sample_fs).2 =
  Pipeline.sample_fs.
Proof.
  exact (create_certificate_no_residue (H := stub) Pipeline.linux_generator (lit "/tmp") [10%N]
    t0 Composer.sample_rnd Pipeline.sample_names Composer.sample_data Pipeline.sample_fs
    sample_data_good eq_refl).
Defined.

Lemma create_certificate_refines_render_witness :
  match Composer.create_certificate_html t0 Composer.sample_rnd Composer.sample_data with
  | Ok doc =>
      render_contract (H := stub) Pipeline.linux_generator (Utf8.translate_newlines [10%N] doc)
        Pipeline.sample_fs
        (@Pipeline.create_certificate stub Pipeline.linux_generator (lit "/tmp") [10%N] t0
           Composer.sample_rnd Pipeline.sample_names Composer.sample_data Pipeline.sample_fs)
  | Raise _ => False
  end.
Proof.
  destruct (Composer.create_certificate_html t0 Composer.sample_rnd Composer.sample_data) eqn:E.
  - exact (create_certificate_refines_render (H := stub) Pipeline.linux_generator (lit "/tmp")
      [10%N] t0 Composer.sample_rnd Pipeline.sample_names Composer.sample_data Pipeline.sample_fs
      _ 1 sample_data_good eq_refl E ltac:(vm_compute; reflexivity)).
  - vm_compute in E. discriminate.
Defined.

End Integration.
