(* ===== verification/Logging.v ===== *)
(** The log of the program ([src/app.py] lines 15-17 and the sixteen
    [logger] calls).  [logging.basicConfig(level=logging.INFO)] gives the
    root logger a handler on standard error with the format
    [%(levelname)s:%(name)s:%(message)s] and the threshold INFO; the
    module's logger ([logging.getLogger(__name__)]) has no level of its
    own and passes its records to it.  A record is a level and a message
    ([log_record]); what a run logs is the list of its records in order,
    the trace of a writer.

    The logger calls sit between the operations of [create_certificate]:
    [lstep] is [Pipeline.step] with the records each operation's code
    logs, [exec_log] and [run_request_log] run it as [Pipeline.exec] and
    [Pipeline.run_request] do, and [create_certificate_log] adds the
    records of the method's [try] and [except].  The handlers' records are
    [handler_log] (the two generating endpoints) and [preview_log].  The
    text of [traceback.format_exc()] depends on the interpreter's frames
    and is an input ([format_exc]). *)

From S2P Require Import Prelude PyValue Clock Composer Utf8 Config Pipeline Base64 Api.

Module Logging.

Local Open Scope N_scope.

(** ** Records and the root handler *)

(** The standard levels of the [logging] module. *)
Inductive level := DEBUG | INFO | WARNING | ERROR | CRITICAL.

Definition levelno (l : level) : N :=
  match l with DEBUG => 10 | INFO => 20 | WARNING => 30 | ERROR => 40 | CRITICAL => 50 end.

Definition levelname (l : level) : pystr :=
  match l with
  | DEBUG => lit "DEBUG" | INFO => lit "INFO" | WARNING => lit "WARNING"
  | ERROR => lit "ERROR" | CRITICAL => lit "CRITICAL"
  end.

Record log_record := mk_record { lvl : level; msg : pystr }.

(** [logger.info], [logger.warning], [logger.error]. *)
Definition info (m : pystr) : log_record := mk_record INFO m.
Definition warning (m : pystr) : log_record := mk_record WARNING m.
Definition error (m : pystr) : log_record := mk_record ERROR m.

(** [logging.basicConfig(level=logging.INFO)] (line 16). *)
Definition basic_level : N := levelno INFO.

(** [logging.BASIC_FORMAT], for the logger [name] ([__name__]: ["__main__"]
    when the file is run, ["app"] when it is imported). *)
Definition basic_format (name : pystr) (r : log_record) : pystr :=
  levelname (lvl r) ++ lit ":" ++ name ++ lit ":" ++ msg r.

(** What the [StreamHandler] on standard error writes for a record: the
    formatted record and its terminator, if the record passes the level. *)
Definition shown (r : log_record) : bool := basic_level <=? levelno (lvl r).

Definition handle (name : pystr) (r : log_record) : pystr :=
  if shown r then basic_format name r ++ newline else [].

Definition stderr_text (name : pystr) (l : list log_record) : pystr :=
  concat (map (handle name) l).

(** ** [setup_wkhtmltopdf_config] (lines 42-69) *)

Definition setup_log (system : pystr) (getenv : pystr -> option pystr)
    (path_exists : pystr -> bool) : list log_record :=
  if bool_decide (system = lit "Windows") then
    let username := default [] (getenv (lit "USERNAME")) in
    match Config.first_existing path_exists (Config.possible_paths username) with
    | Some wkhtmltopdf_path => [info (lit "Found wkhtmltopdf at: " ++ wkhtmltopdf_path)]
    | None => [warning (lit "wkhtmltopdf not found in common paths, using system PATH")]
    end
  else [].

(** [cert_generator = ProfessionalCertificateGenerator()] (line 800): the
    generator built once at start-up, and what its constructor logs. *)
Definition cert_generator (system : pystr) (getenv : pystr -> option pystr)
    (path_exists : pystr -> bool) : Config.generator * list log_record :=
  (Config.init_generator system getenv path_exists, setup_log system getenv path_exists).

(** ** [create_certificate] (lines 759-797) *)

Section Request.

Context `{Pipeline.PdfRenderer}.
Variable gen : Config.generator.
Variable tmpdir : pystr.
Variable linesep : pystr.

(** [traceback.format_exc()] while [e] is being handled. *)
Variable format_exc : exc -> pystr.

(** Lines 775-783: the records around the pdfkit call. *)
Definition render_log (path : pystr) (f : Pipeline.fs) : list log_record :=
  [info (lit "Starting PDF generation with wkhtmltopdf...");
   info (if Config.pdfkit_config gen then lit "Using configured wkhtmltopdf path"
         else lit "Using system PATH for wkhtmltopdf")] ++
  match Pipeline.render_call gen path f with
  | Ok pdf_data =>
      [info (lit "PDF generated successfully, size: " ++ dec_N (N.of_nat (length pdf_data)) ++ lit " bytes")]
  | Raise _ => []
  end.

(** One operation of [create_certificate] with the records its code logs:
    line 771 after the [with] block, lines 775-780 before the pdfkit call,
    line 783 after it, line 791 after [os.unlink]. *)
Definition lstep (pr : Pipeline.proc) (f : Pipeline.fs) :
    Pipeline.proc * Pipeline.fs * list log_record :=
  match Pipeline.point pr with
  | Pipeline.Open 0 _ => (Pipeline.set_point pr (Pipeline.Done (Raise Pipeline.no_usable_name)), f, [])
  | Pipeline.Open (S n) i =>
      let file := Pipeline.temp_path tmpdir (Pipeline.names pr i) in
      if decide (is_Some (f !! file)) then (Pipeline.set_point pr (Pipeline.Open n (S i)), f, [])
      else (Pipeline.set_point pr (Pipeline.Write file), <[file := []]> f, [])
  | Pipeline.Write path =>
      match Utf8.utf8_encode (Utf8.translate_newlines linesep (Pipeline.html pr)) with
      | Ok b =>
          (Pipeline.set_point pr (Pipeline.Render path), <[path := b]> f,
           [info (lit "Temporary HTML file created: " ++ path)])
      | Raise e => (Pipeline.set_point pr (Pipeline.Done (Raise e)), f, [])
      end
  | Pipeline.Render path =>
      (Pipeline.set_point pr
         (Pipeline.Exists path (pdf <- Pipeline.render_call gen path f ;; Ok (Pipeline.mk_bytes_io pdf 0))),
       f, render_log path f)
  | Pipeline.Exists path r =>
      if decide (is_Some (f !! path)) then (Pipeline.set_point pr (Pipeline.Unlink path r), f, [])
      else (Pipeline.set_point pr (Pipeline.Done r), f, [])
  | Pipeline.Unlink path r =>
      match f !! path with
      | Some _ => (Pipeline.set_point pr (Pipeline.Done r), delete path f,
                   [info (lit "Temporary HTML file cleaned up")])
      | None => (Pipeline.set_point pr (Pipeline.Done (Raise (Pipeline.unlink_error path))), f, [])
      end
  | Pipeline.Done r => (pr, f, [])
  end.

(** [Pipeline.exec] with the records of each operation. *)
Fixpoint exec_log (fuel : nat) (pr : Pipeline.proc) (f : Pipeline.fs) :
    Pipeline.proc * Pipeline.fs * list log_record :=
  match fuel with
  | O => (pr, f, [])
  | S fuel' =>
      match Pipeline.point pr with
      | Pipeline.Done _ => (pr, f, [])
      | _ =>
          let '(pr', f', l) := lstep pr f in
          let '(pr'', f'', l') := exec_log fuel' pr' f' in
          (pr'', f'', l ++ l')
      end
  end.

Definition run_request_log (doc : pystr) (nm : nat -> pystr) (f : Pipeline.fs) :
    res Pipeline.bytes_io * Pipeline.fs * list log_record :=
  let '(pr, f', l) := exec_log (Pipeline.TMP_MAX + 5) (Pipeline.mk_proc doc nm (Pipeline.Open Pipeline.TMP_MAX 0)) f in
  match Pipeline.point pr with
  | Pipeline.Done r => (r, f', l)
  | _ => (Raise Pipeline.no_usable_name, f', l)
  end.

(** The [except Exception as e] of lines 793-797: two records, then
    [raise]. *)
Definition except_log (e : exc) : list log_record :=
  [error (lit "Error creating certificate: " ++ exc_str e);
   error (lit "Full traceback: " ++ format_exc e)].

Definition create_certificate_log (now : Clock.datetime) (rnd : list Z) (nm : nat -> pystr)
    (data : attrs) (f : Pipeline.fs) : res Pipeline.bytes_io * Pipeline.fs * list log_record :=
  let start := info (lit "Starting certificate generation...") in
  match Composer.create_certificate_html now rnd data with
  | Raise e => (Raise e, f, start :: except_log e)
  | Ok html_content =>
      let '(r, f', l) := run_request_log html_content nm f in
      (r, f', start :: info (lit "HTML content generated, length: " ++
                              dec_N (N.of_nat (length html_content)))
                   :: l ++ match r with Raise e => except_log e | Ok _ => [] end)
  end.

(** The records of a request alone once its file [path] is created: the
    write, the pdfkit call and the clean-up. *)
Definition after_open_log (doc : pystr) (path : pystr) (f : Pipeline.fs) : list log_record :=
  match Utf8.utf8_encode (Utf8.translate_newlines linesep doc) with
  | Raise _ => []
  | Ok b =>
      info (lit "Temporary HTML file created: " ++ path) ::
      render_log path (<[path := b]> f) ++ [info (lit "Temporary HTML file cleaned up")]
  end.

(** [cert_generator.create_certificate(data)] on the parsed body: only a
    [dict] has the [get] that [create_certificate_html] calls first. *)
Definition create_from_payload_log (now : Clock.datetime) (rnd : list Z) (nm : nat -> pystr)
    (data : Api.payload) (f : Pipeline.fs) : res Pipeline.bytes_io * Pipeline.fs * list log_record :=
  match Api.payload_attrs data with
  | Raise e => (Raise e, f, info (lit "Starting certificate generation...") :: except_log e)
  | Ok a => create_certificate_log now rnd nm a f
  end.

(** The records of the two generating handlers: [what] is
    ["certificate"] (lines 810 and 823) or ["certificate file"] (lines 837
    and 850), and [after] is the exception the handler may raise once it
    has the buffer. *)
Definition handler_log (what : pystr) (after : Pipeline.bytes_io -> option exc)
    (body : res Api.payload) (now : Clock.datetime) (rnd : list Z) (nm : nat -> pystr)
    (f : Pipeline.fs) : list log_record :=
  let err e := error (lit "Error generating " ++ what ++ lit ": " ++ exc_str e) in
  match body with
  | Raise e => [err e]
  | Ok data =>
      if negb (Api.payload_truthy data) then []
      else
        match Api.payload_len data with
        | Raise e => [err e]
        | Ok n =>
            let '(r, _, l) := create_from_payload_log now rnd nm data f in
            info (lit "Generating " ++ what ++ lit " with " ++ dec_N (N.of_nat n) ++ lit " parameters") ::
            l ++ match r with
                 | Raise e => [err e]
                 | Ok buf => if after buf is Some e then [err e] else []
                 end
        end
  end.

(** [base64.b64encode(pdf_buffer.read()).decode('utf-8')] (line 812). *)
Definition decode_error (buf : Pipeline.bytes_io) : option exc :=
  match Utf8.utf8_decode (Base64.b64encode (Pipeline.bytes_io_read buf)) with
  | None => Some (UnicodeDecodeError (lit "'utf-8' codec can't decode"))
  | Some _ => None
  end.

Definition generate_certificate_log := handler_log (lit "certificate") decode_error.

Definition generate_certificate_file_log := handler_log (lit "certificate file") (fun _ => None).

End Request.

(** The records of [preview_certificate] (line 873). *)
Definition preview_log (body : res Api.payload) (now : Clock.datetime) (rnd : list Z) :
    list log_record :=
  let err e := [error (lit "Error generating preview: " ++ exc_str e)] in
  match body with
  | Raise e => err e
  | Ok data =>
      if negb (Api.payload_truthy data) then []
      else
        match Api.payload_attrs data with
        | Raise e => err e
        | Ok a => if Composer.create_certificate_html now rnd a is Raise e then err e else []
        end
  end.

(** ** Logging changes nothing *)

Section Facts.

Context `{Pipeline.PdfRenderer}.
Variable gen : Config.generator.
Variable tmpdir : pystr.
Variable linesep : pystr.
Variable format_exc : exc -> pystr.

Local Abbreviation step := (Pipeline.step gen tmpdir linesep).
Local Abbreviation exec := (Pipeline.exec gen tmpdir linesep).
Local Abbreviation lstep := (lstep gen tmpdir linesep).
Local Abbreviation exec_log := (exec_log gen tmpdir linesep).
Local Abbreviation temp_path := (Pipeline.temp_path tmpdir).
Local Abbreviation first_free := (Pipeline.first_free tmpdir).

(** The logged operation does what the operation does. *)
Lemma lstep_erase pr f : (lstep pr f).1 = step pr f.
Proof.
  unfold lstep, Pipeline.step.
  destruct (Pipeline.point pr) as [[|n] i|path|path|path r|path r|r];
    try case_decide; try case_match; reflexivity.
Qed.

Lemma exec_log_erase fuel pr f : (exec_log fuel pr f).1 = exec fuel pr f.
Proof.
  revert pr f. induction fuel as [|fuel IH]; intros pr f; [done|]. cbn [Logging.exec_log Pipeline.exec].
  pose proof (lstep_erase pr f) as E.
  destruct (lstep pr f) as [[pr' f'] l]. cbn [fst] in E. rewrite <- E.
  specialize (IH pr' f'). destruct (exec_log fuel pr' f') as [[pr'' f''] l'].
  cbn [fst] in IH. rewrite <- IH. by destruct (Pipeline.point pr).
Qed.

Lemma run_request_log_erase doc nm f :
  (run_request_log gen tmpdir linesep doc nm f).1 = Pipeline.run_request gen tmpdir linesep doc nm f.
Proof.
  unfold run_request_log, Pipeline.run_request. rewrite <- exec_log_erase.
  destruct (exec_log _ _ _) as [[pr f'] l]. cbn [fst]. by destruct (Pipeline.point pr).
Qed.

Lemma exec_log_done fuel pr f r :
  Pipeline.point pr = Pipeline.Done r -> exec_log fuel pr f = (pr, f, []).
Proof. intros E. destruct fuel; cbn [Logging.exec_log]; [done|]. by rewrite E. Qed.

Lemma exec_log_write fuel pr path f :
  (4 <= fuel)%nat -> Pipeline.point pr = Pipeline.Write path ->
  (exec_log fuel pr f).2 = after_open_log gen linesep (Pipeline.html pr) path f.
Proof.
  intros Hf E. do 4 (destruct fuel as [|fuel]; [lia|]).
  unfold after_open_log. cbn [Logging.exec_log]. rewrite E. unfold Logging.lstep at 1. rewrite E.
  destruct (Utf8.utf8_encode _) as [b|e]; cbn [Logging.exec_log fst snd].
  - unfold Logging.lstep. rewrite !Pipeline.point_set_point.
    rewrite decide_True by (rewrite lookup_insert_eq; eauto).
    rewrite !Pipeline.point_set_point, lookup_insert_eq. cbn [fst snd].
    rewrite (exec_log_done _ _ _ _ (Pipeline.point_set_point _ _)). cbn [snd].
    by rewrite !app_nil_r.
  - by cbn.
Qed.

Lemma exec_log_S fuel pr f :
  (forall r, Pipeline.point pr <> Pipeline.Done r) ->
  (exec_log (S fuel) pr f).2 = (lstep pr f).2 ++ (exec_log fuel (lstep pr f).1.1 (lstep pr f).1.2).2.
Proof.
  intros Hd. cbn [Logging.exec_log]. destruct (lstep pr f) as [[pr' f'] l]. cbn [fst snd].
  destruct (exec_log fuel pr' f') as [[pr'' f''] l'].
  destruct (Pipeline.point pr) as [n i|p|p|p r0|p r0|r]; try done. by destruct (Hd r).
Qed.

Lemma exec_log_open n i fuel pr f :
  (n + 5 <= fuel)%nat -> Pipeline.point pr = Pipeline.Open n i ->
  (exec_log fuel pr f).2 =
    match first_free (Pipeline.names pr) f n i with
    | None => []
    | Some k =>
        let p := temp_path (Pipeline.names pr k) in
        after_open_log gen linesep (Pipeline.html pr) p (<[p := []]> f)
    end.
Proof.
  revert i fuel pr. induction n as [|n IH]; intros i fuel pr Hf E;
    (destruct fuel as [|fuel]; [lia|]); rewrite exec_log_S by congruence;
    cbn [Pipeline.first_free]; unfold Logging.lstep; rewrite E.
  - cbn [fst snd app]. by rewrite (exec_log_done _ _ _ _ (Pipeline.point_set_point _ _)).
  - case_decide; cbn [fst snd app].
    + rewrite (IH (S i) fuel (Pipeline.set_point pr (Pipeline.Open n (S i)))) by (done || lia). done.
    + rewrite (exec_log_write fuel _ (temp_path (Pipeline.names pr i))) by (done || lia). done.
Qed.

(** The records of a request alone, in closed form. *)
Lemma run_request_log_closed doc nm f :
  (run_request_log gen tmpdir linesep doc nm f).2 =
    match first_free nm f Pipeline.TMP_MAX 0 with
    | None => []
    | Some k => let p := temp_path (nm k) in after_open_log gen linesep doc p (<[p := []]> f)
    end.
Proof.
  pose proof (exec_log_open Pipeline.TMP_MAX 0 (Pipeline.TMP_MAX + 5)
    (Pipeline.mk_proc doc nm (Pipeline.Open Pipeline.TMP_MAX 0)) f ltac:(lia) eq_refl) as Ho.
  cbn [Pipeline.names Pipeline.html] in Ho. unfold run_request_log.
  destruct (exec_log _ _ _) as [[pr f'] l]. cbn [snd] in Ho. rewrite <- Ho.
  by destruct (Pipeline.point pr).
Qed.

(** The logged request alone: the request's outcome with its records in
    closed form. *)
Lemma run_request_log_eq doc nm f :
  run_request_log gen tmpdir linesep doc nm f =
    ((Pipeline.run_request gen tmpdir linesep doc nm f).1,
     (Pipeline.run_request gen tmpdir linesep doc nm f).2,
     match first_free nm f Pipeline.TMP_MAX 0 with
     | None => []
     | Some k => let p := temp_path (nm k) in after_open_log gen linesep doc p (<[p := []]> f)
     end).
Proof.
  rewrite <- run_request_log_closed, <- run_request_log_erase.
  by destruct (run_request_log _ _ _ _ _ _) as [[r f'] l].
Qed.

Lemma create_certificate_log_fst now rnd nm data f :
  (create_certificate_log gen tmpdir linesep format_exc now rnd nm data f).1 =
  Pipeline.create_certificate gen tmpdir linesep now rnd nm data f.
Proof.
  unfold create_certificate_log, Pipeline.create_certificate.
  destruct (Composer.create_certificate_html now rnd data); [|done].
  rewrite run_request_log_eq. by destruct (Pipeline.run_request _ _ _ _ _ _).
Qed.

Lemma failure_str w e e' : Api.failure w e = Api.failure w e' -> exc_str e = exc_str e'.
Proof.
  unfold Api.failure. generalize (lit "Failed to generate ") (lit ": "). intros a c [= E].
  by do 3 apply app_inv_head in E.
Qed.

Lemma stderr_text_shown name l :
  Forall (fun r => shown r = true) l ->
  stderr_text name l = concat (map (fun r => basic_format name r ++ newline) l).
Proof.
  unfold stderr_text. induction 1 as [|r l Hr _ IH]; [done|].
  cbn [map concat]. by rewrite IH; unfold handle; rewrite Hr.
Qed.

(** Lists of records made by [logger.info], [logger.warning] and
    [logger.error]. *)
Ltac shown_tac :=
  repeat first [ apply Forall_nil | apply Forall_cons; split; [reflexivity|]
               | apply Forall_app; split | done ].

Lemma render_log_shown path f : Forall (fun r => shown r = true) (render_log gen path f).
Proof. unfold render_log. shown_tac. destruct (Pipeline.render_call _ _ _); shown_tac. Qed.

Lemma lstep_shown pr f : Forall (fun r => shown r = true) (lstep pr f).2.
Proof.
  unfold Logging.lstep. destruct (Pipeline.point pr) as [[|n] i|p|p|p r|p r|r];
    cbn [snd]; first [apply render_log_shown | try case_decide; try case_match; cbn [snd]; shown_tac].
Qed.

Lemma exec_log_shown fuel pr f : Forall (fun r => shown r = true) (exec_log fuel pr f).2.
Proof.
  revert pr f. induction fuel as [|fuel IH]; intros pr f; cbn [Logging.exec_log]; [constructor|].
  pose proof (lstep_shown pr f) as Hs. destruct (lstep pr f) as [[pr' f'] l]. cbn [snd] in Hs.
  specialize (IH pr' f'). destruct (exec_log fuel pr' f') as [[pr'' f''] l'].
  destruct (Pipeline.point pr); cbn [snd]; shown_tac.
Qed.

Lemma create_from_payload_log_shown now rnd nm data f :
  Forall (fun r => shown r = true) (create_from_payload_log gen tmpdir linesep format_exc now rnd nm data f).2.
Proof.
  unfold create_from_payload_log, create_certificate_log, run_request_log.
  destruct (Api.payload_attrs data); [|shown_tac].
  destruct (Composer.create_certificate_html _ _ _) as [doc|]; [|shown_tac].
  pose proof (exec_log_shown (Pipeline.TMP_MAX + 5)
                (Pipeline.mk_proc doc nm (Pipeline.Open Pipeline.TMP_MAX 0)) f) as Hs.
  destruct (exec_log _ _ _) as [[pr f'] l]. cbn [snd] in Hs.
  destruct (Pipeline.point pr); cbn [snd]; shown_tac; case_match; shown_tac.
Qed.

(** ** Theorems *)

(** C25: a request that composes, finds a free name, writes its file and
    renders logs, in order, the seven INFO records of lines 762, 764, 771,
    775, 777 or 780, 783 and 791: its start, the document's length, the
    temporary path, the pdfkit call and the configuration it uses, the
    PDF's size, and the clean-up; it returns the PDF and leaves the file
    system as it found it. *)
Theorem create_certificate_log_success now rnd nm data f html k b pdf :
  Composer.create_certificate_html now rnd data = Ok html ->
  first_free nm f Pipeline.TMP_MAX 0 = Some k ->
  Utf8.utf8_encode (Utf8.translate_newlines linesep html) = Ok b ->
  Pipeline.render_call gen (temp_path (nm k)) (<[temp_path (nm k) := b]> f) = Ok pdf ->
  create_certificate_log gen tmpdir linesep format_exc now rnd nm data f =
    (Ok (Pipeline.mk_bytes_io pdf 0), f,
     [info (lit "Starting certificate generation...");
      info (lit "HTML content generated, length: " ++ dec_N (N.of_nat (length html)));
      info (lit "Temporary HTML file created: " ++ temp_path (nm k));
      info (lit "Starting PDF generation with wkhtmltopdf...");
      info (if Config.pdfkit_config gen then lit "Using configured wkhtmltopdf path"
            else lit "Using system PATH for wkhtmltopdf");
      info (lit "PDF generated successfully, size: " ++ dec_N (N.of_nat (length pdf)) ++ lit " bytes");
      info (lit "Temporary HTML file cleaned up")]).
Proof.
  intros Hc Hk Hb Hr. unfold create_certificate_log. rewrite Hc, run_request_log_eq, Hk.
  rewrite (Pipeline.run_request_written gen tmpdir linesep html nm f k b Hk Hb), Hr.
  cbn [res_bind fst snd].
  unfold after_open_log. rewrite Hb, insert_insert_eq. unfold render_log. by rewrite Hr.
Qed.

(** C9: a request whose document cannot be encoded logs its start, the
    document's length and the encoding error with its traceback, and no
    record names the temporary file, which it leaves behind empty: the leak
    of [Pipeline.run_request_leaks_on_write_error] does not show in the
    log. *)
Theorem create_certificate_log_write_error now rnd nm data f html k e :
  Composer.create_certificate_html now rnd data = Ok html ->
  first_free nm f Pipeline.TMP_MAX 0 = Some k ->
  Utf8.utf8_encode (Utf8.translate_newlines linesep html) = Raise e ->
  create_certificate_log gen tmpdir linesep format_exc now rnd nm data f =
    (Raise e, <[temp_path (nm k) := []]> f,
     [info (lit "Starting certificate generation...");
      info (lit "HTML content generated, length: " ++ dec_N (N.of_nat (length html)));
      error (lit "Error creating certificate: " ++ exc_str e);
      error (lit "Full traceback: " ++ format_exc e)]).
Proof.
  intros Hc Hk He. unfold create_certificate_log. rewrite Hc, run_request_log_eq, Hk.
  rewrite Pipeline.run_request_closed, Hk. unfold Pipeline.after_open, after_open_log.
  by rewrite He.
Qed.

(** C18: every 500 answer of [/generate-certificate] is logged: the last
    record the handler logs is the ERROR record of line 823 with the text
    of the exception the answer reports. *)
Theorem generate_certificate_error_logged body now now' rnd nm f e :
  (Api.generate_certificate gen tmpdir linesep body now now' rnd nm f).1 = Api.failure (lit "certificate") e ->
  last (generate_certificate_log gen tmpdir linesep format_exc body now rnd nm f) =
    Some (error (lit "Error generating certificate: " ++ exc_str e)).
Proof.
  unfold Api.generate_certificate, Api.checked_create, generate_certificate_log, handler_log.
  destruct body as [data|e0]; cbn [fst]; [|by intros ->%failure_str].
  destruct (Api.payload_truthy data); cbn [negb]; [|discriminate].
  destruct (Api.payload_len data) as [n|e0]; [|by intros ->%failure_str].
  unfold create_from_payload_log. destruct (Api.payload_attrs data) as [a|e0].
  - pose proof (create_certificate_log_fst now rnd nm a f) as Hf.
    destruct (create_certificate_log _ _ _ _ _ _ _ _ _) as [[r f'] l]. cbn [fst] in Hf. rewrite <- Hf.
    rewrite app_comm_cons. destruct r as [buf|e0]; cbn [fst].
    + unfold decode_error. destruct (Utf8.utf8_decode _); [discriminate|].
      intros <-%failure_str. by rewrite last_snoc.
    + intros <-%failure_str. by rewrite last_snoc.
  - intros <-%failure_str. by rewrite app_comm_cons, last_snoc.
Qed.

(** C32: every record a handler or the constructor logs is at INFO or
    above, so the root handler [logging.basicConfig(level=logging.INFO)]
    installs writes every one of them to standard error, one formatted line
    per record, in order: no record is filtered out. *)
Theorem every_record_shown name what after body now rnd nm f (system : pystr)
    (getenv : pystr -> option pystr) (path_exists : pystr -> bool) :
  let records := handler_log gen tmpdir linesep format_exc what after body now rnd nm f ++
                 preview_log body now rnd ++ setup_log system getenv path_exists in
  stderr_text name records = concat (map (fun r => basic_format name r ++ newline) records).
Proof.
  intros records. apply stderr_text_shown. apply Forall_app; split; [|apply Forall_app; split].
  - unfold handler_log. destruct body as [data|]; [|shown_tac].
    destruct (Api.payload_truthy data); cbn [negb]; [|shown_tac].
    destruct (Api.payload_len data); [|shown_tac].
    pose proof (create_from_payload_log_shown now rnd nm data f) as Hs.
    destruct (create_from_payload_log _ _ _ _ _ _ _ _ _) as [[r f'] l]. cbn [snd] in Hs.
    shown_tac. repeat case_match; shown_tac.
  - unfold preview_log. repeat case_match; shown_tac.
  - unfold setup_log. repeat case_match; shown_tac.
Qed.

End Facts.

(** C34: the generator built at start-up logs one record exactly when it
    runs on Windows: INFO naming the wkhtmltopdf binary it configured, or
    a WARNING that none of the four paths exists and the system PATH will
    be used; off Windows it configures nothing and logs nothing. *)
Theorem cert_generator_log system getenv path_exists :
  (cert_generator system getenv path_exists).2 =
    match Config.pdfkit_config (cert_generator system getenv path_exists).1 with
    | Some c => [info (lit "Found wkhtmltopdf at: " ++ Config.wkhtmltopdf c)]
    | None =>
        if bool_decide (system = lit "Windows")
        then [warning (lit "wkhtmltopdf not found in common paths, using system PATH")]
        else []
    end.
Proof.
  unfold cert_generator, setup_log, Config.init_generator, Config.setup_wkhtmltopdf_config.
  cbn [fst snd Config.pdfkit_config]. case_bool_decide; [|done].
  by destruct (Config.first_existing _ _).
Qed.

(** ** Witnesses *)

Local Abbreviation stub := (@Pipeline.pdfkit_renderer Pipeline.wk_stub_binary).

(** An equation between closed terms, checked by the virtual machine
    without writing out the normal form of either side. *)
Local Ltac vm_refl := lazymatch goal with |- ?l = ?r => exact (@eq_refl _ l <: l = r) end.
Local Abbreviation t0 := (Clock.mk_datetime 2024 3 15 14 30 0 0).
Local Abbreviation sample_tb := (fun _ : exc => lit "Traceback (most recent call last): ...").

Lemma create_certificate_log_success_witness :
  let html := match Composer.create_certificate_html t0 Composer.sample_rnd Composer.sample_data with
              | Ok h => h | Raise _ => [] end in
  let b := match Utf8.utf8_encode (Utf8.translate_newlines [10] html) with
           | Ok b => b | Raise _ => [] end in
  let pdf := match Pipeline.render_call (H := stub) Pipeline.linux_generator (lit "/tmp/tmpname1.html")
                     (<[lit "/tmp/tmpname1.html" := b]> Pipeline.sample_fs) with
             | Ok p => p | Raise _ => [] end in
  Composer.create_certificate_html t0 Composer.sample_rnd Composer.sample_data = Ok html /\
  Utf8.utf8_encode (Utf8.translate_newlines [10] html) = Ok b /\
  Pipeline.render_call (H := stub) Pipeline.linux_generator (lit "/tmp/tmpname1.html")
    (<[lit "/tmp/tmpname1.html" := b]> Pipeline.sample_fs) = Ok pdf /\
  create_certificate_log (H := stub) Pipeline.linux_generator (lit "/tmp") [10] sample_tb
    t0 Composer.sample_rnd Pipeline.sample_names Composer.sample_data Pipeline.sample_fs =
  (Ok (Pipeline.mk_bytes_io pdf 0), Pipeline.sample_fs,
   [info (lit "Starting certificate generation...");
    info (lit "HTML content generated, length: " ++ dec_N (N.of_nat (length html)));
    info (lit "Temporary HTML file created: " ++ lit "/tmp/tmpname1.html");
    info (lit "Starting PDF generation with wkhtmltopdf...");
    info (lit "Using system PATH for wkhtmltopdf");
    info (lit "PDF generated successfully, size: " ++ dec_N (N.of_nat (length pdf)) ++ lit " bytes");
    info (lit "Temporary HTML file cleaned up")]).
Proof.
  intros html b pdf.
  assert (E1 : Composer.create_certificate_html t0 Composer.sample_rnd Composer.sample_data = Ok html)
    by (subst html; vm_refl).
  assert (E2 : Utf8.utf8_encode (Utf8.translate_newlines [10] html) = Ok b)
    by (subst b html; vm_refl).
  assert (E3 : Pipeline.render_call (H := stub) Pipeline.linux_generator (lit "/tmp/tmpname1.html")
                 (<[lit "/tmp/tmpname1.html" := b]> Pipeline.sample_fs) = Ok pdf)
    by (subst pdf b html; vm_refl).
  split_and!; [exact E1 | exact E2 | exact E3 |].
  exact (create_certificate_log_success (H := stub) Pipeline.linux_generator (lit "/tmp") [10]
           sample_tb t0 Composer.sample_rnd Pipeline.sample_names Composer.sample_data
           Pipeline.sample_fs html 1 b pdf E1 ltac:(vm_compute; reflexivity) E2 E3).
Defined.

Lemma create_certificate_log_write_error_witness :
  let data := <[lit "notes" := VStr [0xD800]]> Composer.sample_data in
  let html := match Composer.create_certificate_html t0 Composer.sample_rnd data with
              | Ok h => h | Raise _ => [] end in
  let e := match Utf8.utf8_encode (Utf8.translate_newlines [10] html) with
           | Raise e => e | Ok _ => OSError [] end in
  Composer.create_certificate_html t0 Composer.sample_rnd data = Ok html /\
  Utf8.utf8_encode (Utf8.translate_newlines [10] html) = Raise e /\
  create_certificate_log (H := stub) Pipeline.linux_generator (lit "/tmp") [10] sample_tb
    t0 Composer.sample_rnd Pipeline.sample_names data Pipeline.sample_fs =
  (Raise e, <[lit "/tmp/tmpname1.html" := []]> Pipeline.sample_fs,
   [info (lit "Starting certificate generation...");
    info (lit "HTML content generated, length: " ++ dec_N (N.of_nat (length html)));
    error (lit "Error creating certificate: " ++ exc_str e);
    error (lit "Full traceback: " ++ sample_tb e)]).
Proof.
  intros data html e.
  assert (E1 : Composer.create_certificate_html t0 Composer.sample_rnd data = Ok html)
    by (subst html data; vm_refl).
  assert (E2 : Utf8.utf8_encode (Utf8.translate_newlines [10] html) = Raise e)
    by (subst e html data; vm_refl).
  split_and!; [exact E1 | exact E2 |].
  exact (create_certificate_log_write_error (H := stub) Pipeline.linux_generator (lit "/tmp") [10]
           sample_tb t0 Composer.sample_rnd Pipeline.sample_names data Pipeline.sample_fs
           html 1 e E1 ltac:(vm_compute; reflexivity) E2).
Defined.

Lemma generate_certificate_error_logged_witness :
  (Api.generate_certificate (H := stub) Pipeline.linux_generator (lit "/tmp") [10]
     (Ok (Api.PScalar (VInt 1))) t0 t0 Composer.sample_rnd Pipeline.sample_names Pipeline.sample_fs).1 =
    Api.failure (lit "certificate") (TypeError (lit "object of type 'int' has no len()")) /\
  last (generate_certificate_log (H := stub) Pipeline.linux_generator (lit "/tmp") [10] sample_tb
          (Ok (Api.PScalar (VInt 1))) t0 Composer.sample_rnd Pipeline.sample_names Pipeline.sample_fs) =
    Some (error (lit "Error generating certificate: object of type 'int' has no len()")).
Proof.
  split; [vm_compute; reflexivity|].
  apply (generate_certificate_error_logged (H := stub) Pipeline.linux_generator (lit "/tmp") [10]
           sample_tb _ t0 t0 Composer.sample_rnd Pipeline.sample_names Pipeline.sample_fs
           (TypeError (lit "object of type 'int' has no len()"))).
  vm_compute. reflexivity.
Defined.

End Logging.
