(* ===== verification/Main.v ===== *)
(** The module's main block ([src/app.py] lines 898-950), and the text
    encodings its output meets.

    The block builds [sample_data] (modelled in [Composer.sample_data]),
    prints ten lines and starts the development server.  [print(s)]
    writes [s] and then ["\n"] to [sys.stdout], a text stream that
    translates ["\n"] to [os.linesep] and encodes each write with the
    stream's encoding ([text_stream]): a write that cannot be
    encoded raises [UnicodeEncodeError] and the lines after it, and
    [app.run], are never reached ([print], [print_lines], [main_block]).
    Two encoders are modelled: UTF-8 ([Utf8.utf8_encode], the stream of a
    UTF-8 locale or of the Windows console) and cp1252 ([cp1252_encode],
    the locale encoding Python uses on a Western-European Windows when the
    output is redirected), after CPython's [charmap] codec.

    Every non-ASCII text of the source is mojibake: it is what the UTF-8
    bytes of an emoji or a symbol read as in Mac Roman ([mac_roman_decode],
    after CPython's [mac_roman] codec).  The tables of both codecs are
    CPython's. *)

From S2P Require Import Prelude PyValue Ident Clock Composer Utf8 Integration.

Module Main.

Import Integration.

Local Open Scope N_scope.

(** ** The printed lines (lines 939-948) *)

(** Lines 939-945. *)
Definition banner_before : list pystr :=
  [[0xf8ff; 0xfc; 0xf6; 0xc4]%N ++ lit " Starting Professional Certificate Generator...";
   [0xf8ff; 0xfc; 0xec; 0xe3]%N ++ lit " Available endpoints:";
   lit "   " ++ [0x201a; 0xc4; 0xa2]%N ++ lit " POST /generate-certificate (base64 response)";
   lit "   " ++ [0x201a; 0xc4; 0xa2]%N ++ lit " POST /generate-certificate-file (direct download)";
   lit "   " ++ [0x201a; 0xc4; 0xa2]%N ++ lit " POST /preview-certificate (HTML preview)";
   lit "   " ++ [0x201a; 0xc4; 0xa2]%N ++ lit " GET /health (health check)";
   lit "   " ++ [0x201a; 0xc4; 0xa2]%N ++ lit " POST /api/test (test endpoint)"].
(** Line 946: [f"\n... {len(sample_data)} ..."]. *)
Definition count_line (n : nat) : pystr :=
  newline ++ [0x201a; 0xfa; 0xae]%N ++ lit " Sample data contains " ++ dec_N (N.of_nat n) ++ lit " professional parameters".
(** Lines 947-948. *)
Definition banner_after : list pystr :=
  [[0xf8ff; 0xfc; 0xe9; 0xae]%N ++ lit " Features: Professional design, gradients, icons, status badges, QR code placeholder";
   [0xf8ff; 0xfc; 0xec; 0xd1]%N ++ lit " Output: High-quality PDF with premium styling" ++ newline].

(** The ten arguments of the [print] calls, in order. *)
Definition main_prints (sample : attrs) : list pystr :=
  banner_before ++ [count_line (size sample)] ++ banner_after.

(** [app.run(debug=True, host='0.0.0.0', port=5000)] (line 950). *)
Record run_config := { debug : bool; host : pystr; port : N }.

Definition app_run : run_config :=
  {| debug := true; host := lit "0.0.0.0"; port := 5000 |}.

(** ** Writing to the standard output *)

(** An encoder of the stream: the bytes of one write, or the error. *)
Definition encoder := pystr -> res (list N).

(** [sys.stdout] is a text stream opened with [newline=None]: each write
    replaces ["\n"] with [os.linesep] before the codec encodes it (a no-op
    where [os.linesep] is ["\n"], ["\r\n"] on Windows). *)
Definition text_stream (linesep : pystr) (codec : encoder) : encoder :=
  fun s => codec (Utf8.translate_newlines linesep s).

(** [print(s)]: [sys.stdout.write(s)] then [sys.stdout.write("\n")]. *)
Definition print (enc : encoder) (s : pystr) : res (list N) :=
  b <- enc s ;; e <- enc newline ;; Ok (b ++ e).

(** The prints of the block in order: the bytes written before the first
    error, and the error. *)
Fixpoint print_lines (enc : encoder) (ls : list pystr) : list N * res unit :=
  match ls with
  | [] => ([], Ok tt)
  | l :: ls' =>
      match print enc l with
      | Raise e => ([], Raise e)
      | Ok b => let '(out, r) := print_lines enc ls' in (b ++ out, r)
      end
  end.

(** The whole block: what reaches the stream, and the server started or
    the exception that ends the program. *)
Definition main_block (enc : encoder) (sample : attrs) : list N * res run_config :=
  let '(out, r) := print_lines enc (main_prints sample) in
  (out, _ <- r ;; Ok app_run).

(** The text the block prints when every write succeeds. *)
Definition console_output (sample : attrs) : pystr :=
  concat (map (fun l => l ++ newline) (main_prints sample)).

(** ** cp1252, after CPython's [encodings.cp1252] *)

(** The code points of bytes [0x80]-[0x9F]; [0x81], [0x8D], [0x8F],
    [0x90] and [0x9D] are undefined. *)
Definition cp1252_high : list (N * N) :=
  [(0x20ac, 0x80); (0x201a, 0x82); (0x192, 0x83); (0x201e, 0x84); (0x2026, 0x85);
   (0x2020, 0x86); (0x2021, 0x87); (0x2c6, 0x88); (0x2030, 0x89); (0x160, 0x8a);
   (0x2039, 0x8b); (0x152, 0x8c); (0x17d, 0x8e); (0x2018, 0x91); (0x2019, 0x92);
   (0x201c, 0x93); (0x201d, 0x94); (0x2022, 0x95); (0x2013, 0x96); (0x2014, 0x97);
   (0x2dc, 0x98); (0x2122, 0x99); (0x161, 0x9a); (0x203a, 0x9b); (0x153, 0x9c);
   (0x17e, 0x9e); (0x178, 0x9f)]%N.

Definition cp1252_byte (c : N) : option N :=
  if (c <? 0x80) || ((0xA0 <=? c) && (c <=? 0xFF)) then Some c
  else (fun ip => ip.2.2) <$> list_find (fun p => p.1 = c) cp1252_high.

(** The number of characters at the head of [s] that cp1252 cannot
    encode: the run the error reports. *)
Fixpoint undefined_run (s : pystr) : nat :=
  match s with
  | c :: r => if cp1252_byte c is Some _ then O else S (undefined_run r)
  | [] => O
  end.

(** Python's escape of a character in an error message. *)
Definition char_escape (c : N) : pystr :=
  if c <? 0x100 then lit "\x" ++ Ident.hex_fixed 2 (Z.of_N c)
  else if c <? 0x10000 then lit "\u" ++ Ident.hex_fixed 4 (Z.of_N c)
  else lit "\U" ++ Ident.hex_fixed 8 (Z.of_N c).

(** [str(UnicodeEncodeError)] of the [charmap] codec. *)
Definition charmap_error (c : N) (start stop : nat) : exc :=
  UnicodeEncodeError
    ((if Nat.eqb stop (S start) then
        lit "'charmap' codec can't encode character '" ++ char_escape c ++
        lit "' in position " ++ dec_N (N.of_nat start)
      else
        lit "'charmap' codec can't encode characters in position " ++
        dec_N (N.of_nat start) ++ lit "-" ++ dec_N (N.of_nat (stop - 1))) ++
     lit ": character maps to <undefined>").

Fixpoint cp1252_from (i : nat) (s : pystr) : res (list N) :=
  match s with
  | [] => Ok []
  | c :: r =>
      match cp1252_byte c with
      | Some b => bs <- cp1252_from (S i) r ;; Ok (b :: bs)
      | None => Raise (charmap_error c i (i + undefined_run s))
      end
  end.

(** [s.encode('cp1252')]. *)
Definition cp1252_encode : encoder := cp1252_from 0.

(** ** Mac Roman, after CPython's [encodings.mac_roman] *)

(** The code points of bytes [0x80]-[0xFF]. *)
Definition mac_roman_high : list N :=
  [
   0xc4; 0xc5; 0xc7; 0xc9; 0xd1; 0xd6; 0xdc; 0xe1;
   0xe0; 0xe2; 0xe4; 0xe3; 0xe5; 0xe7; 0xe9; 0xe8;
   0xea; 0xeb; 0xed; 0xec; 0xee; 0xef; 0xf1; 0xf3;
   0xf2; 0xf4; 0xf6; 0xf5; 0xfa; 0xf9; 0xfb; 0xfc;
   0x2020; 0xb0; 0xa2; 0xa3; 0xa7; 0x2022; 0xb6; 0xdf;
   0xae; 0xa9; 0x2122; 0xb4; 0xa8; 0x2260; 0xc6; 0xd8;
   0x221e; 0xb1; 0x2264; 0x2265; 0xa5; 0xb5; 0x2202; 0x2211;
   0x220f; 0x3c0; 0x222b; 0xaa; 0xba; 0x3a9; 0xe6; 0xf8;
   0xbf; 0xa1; 0xac; 0x221a; 0x192; 0x2248; 0x2206; 0xab;
   0xbb; 0x2026; 0xa0; 0xc0; 0xc3; 0xd5; 0x152; 0x153;
   0x2013; 0x2014; 0x201c; 0x201d; 0x2018; 0x2019; 0xf7; 0x25ca;
   0xff; 0x178; 0x2044; 0x20ac; 0x2039; 0x203a; 0xfb01; 0xfb02;
   0x2021; 0xb7; 0x201a; 0x201e; 0x2030; 0xc2; 0xca; 0xc1;
   0xcb; 0xc8; 0xcd; 0xce; 0xcf; 0xcc; 0xd3; 0xd4;
   0xf8ff; 0xd2; 0xda; 0xdb; 0xd9; 0x131; 0x2c6; 0x2dc;
   0xaf; 0x2d8; 0x2d9; 0x2da; 0xb8; 0x2dd; 0x2db; 0x2c7]%N.

(** [bytes.decode('mac_roman')]. *)
Definition mac_roman_decode (bs : list N) : pystr :=
  map (fun b => if b <? 0x80 then b else nth (N.to_nat (b - 0x80)) mac_roman_high 0) bs.

(** The maximal runs of non-ASCII characters of a text, in order. *)
Fixpoint non_ascii_runs_from (cur : pystr) (s : pystr) : list pystr :=
  match s with
  | [] => if cur is [] then [] else [rev cur]
  | c :: r =>
      if c <? 0x80 then (if cur is [] then [] else [rev cur]) ++ non_ascii_runs_from [] r
      else non_ascii_runs_from (c :: cur) r
  end.

Definition non_ascii_runs (s : pystr) : list pystr := non_ascii_runs_from [] s.

(** What an emoji or symbol becomes when its UTF-8 bytes are read as Mac
    Roman. *)
Definition mac_roman_garble (s : pystr) : res pystr := res_map mac_roman_decode (Utf8.utf8_encode s).

(** A stream codec encodes a concatenation as the concatenation of the
    encodings: what a text stream relies on when it encodes a text write
    by write. *)
Class StreamCodec (enc : encoder) :=
  codec_split : forall x y o, enc (x ++ y) = Ok o ->
    exists a b, enc x = Ok a /\ enc y = Ok b /\ o = a ++ b.

(** The symbols the source meant: what its mojibake decodes to. *)
Definition rocket : pystr := [0x1F680].
Definition clipboard : pystr := [0x1F4CB].
Definition bullet : pystr := [0x2022].
Definition sparkles : pystr := [0x2728].
Definition palette : pystr := [0x1F3A8].
Definition page : pystr := [0x1F4C4].
Definition check_mark : pystr := [0x2713].
Definition floppy : pystr := [0x1F4BE].
Definition arrows : pystr := [0x1F504].
Definition writing_hand : pystr := [0x270D; 0xFE0F].
Definition degree : pystr := [0xB0].
Definition plus_minus : pystr := [0xB1].

(** ** Encoders *)

Lemma utf8_from_shift i j s b :
  Utf8.encode_from i s = Ok b -> Utf8.encode_from j s = Ok b.
Proof.
  revert i j b; induction s as [|c s IH]; intros i j b; cbn [Utf8.encode_from]; [done|].
  destruct (Utf8.is_surrogate c); [discriminate|].
  destruct (Utf8.encode_from (S i) s) as [r|] eqn:E; cbn [res_bind]; [|discriminate].
  by rewrite (IH _ _ _ E).
Qed.

Lemma utf8_from_split i x y o :
  Utf8.encode_from i (x ++ y) = Ok o ->
  exists a b, Utf8.encode_from i x = Ok a /\ Utf8.encode_from (i + length x) y = Ok b /\ o = a ++ b.
Proof.
  revert i o; induction x as [|c x IH]; intros i o; cbn [app Utf8.encode_from length].
  - intros E. exists [], o. by rewrite Nat.add_0_r.
  - destruct (Utf8.is_surrogate c); [discriminate|].
    destruct (Utf8.encode_from (S i) (x ++ y)) as [r|] eqn:E; cbn [res_bind]; [|discriminate].
    intros [= <-]. destruct (IH _ _ E) as (a & b & Ha & Hb & ->).
    exists (Utf8.encode_cp c ++ a), b. rewrite Ha, <- Nat.add_succ_comm.
    split; [done|]. split; [done|]. by rewrite app_assoc.
Qed.

#[export] Instance utf8_codec : StreamCodec Utf8.utf8_encode.
Proof.
  intros x y o E. destruct (utf8_from_split 0 x y o E) as (a & b & Ha & Hb & ->).
  exists a, b. split; [done|]. split; [exact (utf8_from_shift _ 0 _ _ Hb)|done].
Qed.

Lemma cp1252_from_shift i j s b :
  cp1252_from i s = Ok b -> cp1252_from j s = Ok b.
Proof.
  revert i j b; induction s as [|c s IH]; intros i j b; cbn [cp1252_from]; [done|].
  destruct (cp1252_byte c); [|discriminate].
  destruct (cp1252_from (S i) s) as [r|] eqn:E; cbn [res_bind]; [|discriminate].
  by rewrite (IH _ _ _ E).
Qed.

Lemma cp1252_from_split i x y o :
  cp1252_from i (x ++ y) = Ok o ->
  exists a b, cp1252_from i x = Ok a /\ cp1252_from (i + length x) y = Ok b /\ o = a ++ b.
Proof.
  revert i o; induction x as [|c x IH]; intros i o; cbn [app cp1252_from length].
  - intros E. exists [], o. by rewrite Nat.add_0_r.
  - destruct (cp1252_byte c) as [d|]; [|discriminate].
    destruct (cp1252_from (S i) (x ++ y)) as [r|] eqn:E; cbn [res_bind]; [|discriminate].
    intros [= <-]. destruct (IH _ _ E) as (a & b & Ha & Hb & ->).
    exists (d :: a), b. rewrite Ha, <- Nat.add_succ_comm. done.
Qed.

#[export] Instance cp1252_codec : StreamCodec cp1252_encode.
Proof.
  intros x y o E. destruct (cp1252_from_split 0 x y o E) as (a & b & Ha & Hb & ->).
  exists a, b. split; [done|]. split; [exact (cp1252_from_shift _ 0 _ _ Hb)|done].
Qed.

(** ** Printing *)

Section Printing.
Context (enc : encoder) `{!StreamCodec enc}.

(** The empty text encodes to no bytes. *)
Lemma codec_nil o : enc [] = Ok o -> o = [].
Proof.
  intros E. destruct (codec_split [] [] o E) as (a & b & Ha & Hb & Ho).
  rewrite E in Ha, Hb. injection Ha as <-. injection Hb as <-.
  apply (f_equal length) in Ho. rewrite length_app in Ho.
  destruct o; [done|]. cbn in Ho. lia.
Qed.

(** When the whole console text encodes, every write succeeds and the
    stream receives its encoding. *)
Lemma print_lines_whole ls out :
  enc (concat (map (fun l => l ++ newline) ls)) = Ok out -> print_lines enc ls = (out, Ok tt).
Proof.
  revert out; induction ls as [|l ls IH]; intros out; cbn [map concat print_lines].
  - intros E. by rewrite (codec_nil _ E).
  - intros E. destruct (codec_split _ _ _ E) as (a & r & Ha & Hr & ->).
    destruct (codec_split _ _ _ Ha) as (b & e & Hb & He & ->).
    unfold print. rewrite Hb, He. cbn [res_bind]. by rewrite (IH _ Hr).
Qed.

End Printing.

(** The prints before the first failing one write their bytes, in order;
    the failing one writes nothing and ends the sequence. *)
Lemma print_lines_first_error enc pre l post outs e :
  Forall2 (fun l o => print enc l = Ok o) pre outs -> print enc l = Raise e ->
  print_lines enc (pre ++ l :: post) = (concat outs, Raise e).
Proof.
  intros Hpre He. induction Hpre as [|l' o pre outs Ho _ IH]; cbn [app print_lines concat].
  - by rewrite He.
  - by rewrite Ho, IH.
Qed.

(** ** The printed text *)

Lemma count_line_good n : good_str (count_line n) = true.
Proof.
  unfold count_line. rewrite !good_str_app. rewrite (ascii_good (dec_N _)).
  - by vm_compute.
  - eapply Forall_impl; [apply dec_N_digits|]. cbv beta. lia.
Qed.

Lemma console_output_good sample : good_str (console_output sample) = true.
Proof.
  unfold console_output, main_prints. rewrite !map_app, !concat_app, !good_str_app.
  cbn [map concat]. rewrite app_nil_r, good_str_app, count_line_good. by vm_compute.
Qed.

Lemma encode_cp_non_ascii c : 0x80 <= c -> (2 <= length (Utf8.encode_cp c))%nat.
Proof.
  intros Hc. unfold Utf8.encode_cp. rewrite (proj2 (N.ltb_ge _ _) Hc).
  destruct (c <? 0x800); [|destruct (c <? 0x10000)]; cbn; lia.
Qed.

(** ** Theorems *)

(** on a UTF-8 stream the main block writes exactly the UTF-8
    encoding of its ten lines, which decodes back to them, and then starts
    the server with [debug=True] on [0.0.0.0:5000], whatever the sample. *)
Theorem main_block_utf8_serves sample :
  exists out, Utf8.utf8_encode (console_output sample) = Ok out /\
    Utf8.utf8_decode out = Some (console_output sample) /\
    main_block Utf8.utf8_encode sample = (out, Ok app_run).
Proof.
  destruct (encode_good _ (console_output_good sample)) as (out & Hout & Hdec).
  exists out. split; [done|]. split; [done|].
  unfold main_block. by rewrite (print_lines_whole _ _ _ Hout).
Qed.

(** C10: whatever the stream's encoder, when the prints before one of the
    ten lines succeed and that line's [print] raises, the main block has
    written the bytes of the earlier lines and nothing more, ends with that
    exception, and never reaches [app.run]. *)
Theorem main_block_first_error enc sample pre l post outs e :
  main_prints sample = pre ++ l :: post ->
  Forall2 (fun l o => print enc l = Ok o) pre outs ->
  print enc l = Raise e ->
  main_block enc sample = (concat outs, Raise e).
Proof.
  intros Hm Hpre He. unfold main_block. by rewrite Hm, (print_lines_first_error _ _ _ _ _ _ Hpre He).
Qed.

(** [s.encode('cp1252')] of a text whose first unencodable character
    is [c] raises the [charmap] codec's error at the position of [c],
    reporting the run of unencodable characters that starts there. *)
Theorem cp1252_encode_error (pre post : pystr) (c : N) :
  Forall (fun d => is_Some (cp1252_byte d)) pre -> cp1252_byte c = None ->
  cp1252_encode (pre ++ c :: post) =
  Raise (charmap_error c (length pre) (length pre + undefined_run (c :: post))).
Proof.
  intros Hpre Hc. unfold cp1252_encode.
  enough (forall i, cp1252_from i (pre ++ c :: post) =
            Raise (charmap_error c (i + length pre) (i + length pre + undefined_run (c :: post))))
    as H by apply H.
  induction Hpre as [|d pre [b Hd] _ IH]; intros i; cbn [app cp1252_from length].
  - by rewrite Nat.add_0_r, Hc.
  - rewrite Hd, IH. cbn [res_bind]. do 2 f_equal; lia.
Qed.

(** The Mac Roman reading of the UTF-8 bytes of a non-ASCII character
    is never that character: text garbled this way always differs from
    the text meant. *)
Theorem garble_not_identity (c : N) :
  0x80 <= c -> Utf8.encodable c -> mac_roman_garble [c] <> Ok [c].
Proof.
  intros Hc [_ Hs]. unfold mac_roman_garble, Utf8.utf8_encode. cbn [Utf8.encode_from].
  rewrite Hs. cbn [res_bind res_map]. rewrite app_nil_r. intros [= E].
  apply (f_equal length) in E. unfold mac_roman_decode in E. rewrite length_map in E.
  pose proof (encode_cp_non_ascii c Hc). cbn in E. lia.
Qed.

(** the ten non-ASCII runs the main block prints are the Mac Roman
    readings of the UTF-8 bytes of the symbols meant (a rocket, a
    clipboard, five bullets, sparkles, a palette, a page): the banner
    shows mojibake. *)
Theorem banner_mojibake :
  map mac_roman_garble
    [rocket; clipboard; bullet; bullet; bullet; bullet; bullet; sparkles; palette; page] =
  map Ok (non_ascii_runs (concat (main_prints Composer.sample_data))).
Proof. vm_compute. reflexivity. Qed.

(** the same holds of the certificate composed from the sample data:
    its ten non-ASCII runs, from the template (check marks, a floppy disk,
    arrows, a clipboard, a writing hand) and from the sample's temperature
    and humidity (degree and plus-minus signs), are all mojibake. *)
Theorem certificate_mojibake :
  match Composer.create_certificate_html (Clock.mk_datetime 2024 3 15 14 30 0 0)
          Composer.sample_rnd Composer.sample_data with
  | Ok doc =>
      map mac_roman_garble
        [check_mark; floppy; arrows; check_mark; clipboard;
         degree; plus_minus; degree; plus_minus; writing_hand] =
      map Ok (non_ascii_runs doc)
  | Raise _ => False
  end.
Proof. vm_compute. reflexivity. Qed.

(** ** Witnesses *)

Lemma main_block_first_error_witness :
  main_block (text_stream [13; 10] cp1252_encode) Composer.sample_data =
  ([], Raise (charmap_error 0xF8FF 0 1)).
Proof.
  apply (main_block_first_error _ _ [] (hd [] banner_before)
           (tl banner_before ++ [count_line (size Composer.sample_data)] ++ banner_after) []);
    [reflexivity | constructor | vm_compute; reflexivity].
Defined.

Lemma cp1252_encode_error_witness :
  cp1252_encode (lit "   " ++ 0x2022 :: lit " GET") = Ok (lit "   " ++ 0x95 :: lit " GET") /\
  cp1252_encode (lit "x" ++ 0x1F680 :: 0x1F4C4 :: lit " ok") =
  Raise (UnicodeEncodeError
           (lit "'charmap' codec can't encode characters in position 1-2: character maps to <undefined>")).
Proof.
  split; [vm_compute; reflexivity|].
  rewrite (cp1252_encode_error (lit "x") (0x1F4C4 :: lit " ok") 0x1F680);
    [|constructor; [eexists; reflexivity|constructor]|reflexivity].
  vm_compute. reflexivity.
Defined.

Lemma garble_not_identity_witness :
  mac_roman_garble rocket = Ok [0xF8FF; 0xFC; 0xF6; 0xC4] /\ mac_roman_garble rocket <> Ok rocket.
Proof.
  split; [vm_compute; reflexivity|].
  apply garble_not_identity; [lia|]. split; [lia|reflexivity].
Defined.

End Main.
