(* ===== verification/Server.v ===== *)
(** The Flask application around the handlers ([src/app.py] lines 12-13,
    the five [@app.route] decorators at lines 802-888, and the server the
    main block starts at line 950).

    [app = Flask(__name__)] and the decorators build the URL map
    ([url_map]): one rule per view, with the path and the methods the
    decorator names.  Flask adds HEAD to a rule with GET (werkzeug's
    [Rule]) and OPTIONS to every rule ([add_url_rule]'s automatic
    options); a request is routed to the rule whose path it names, answered
    [405 Method Not Allowed] when that rule does not allow its method,
    [404 Not Found] when no rule has its path, and with the automatic
    OPTIONS response ([route]).  A routed request runs its view ([view],
    the functions of [Api]); an exception that escapes a view (only
    [test_endpoint] has no [try]) becomes, with [debug=True], the
    interactive debugger's traceback page, and otherwise Flask's
    [500 Internal Server Error] page; an [HTTPException] (what
    [request.get_json()] raises on a body that is not JSON) becomes its
    own error response.  [CORS(app)] registers an [after_request] hook
    that adds [Access-Control-Allow-Origin] to every response Flask
    finalises, with flask-cors's defaults (every origin allowed, the
    request's [Origin] echoed, [*] without one); the debugger's page is
    produced outside Flask and has no such header ([serve]). *)

From S2P Require Import Prelude PyValue Clock Composer Utf8 Config Pipeline Api Main.

Module Server.

Local Open Scope N_scope.

(** ** The URL map *)

(** The views, by their endpoint names (the functions' names). *)
Inductive endpoint :=
  | generate_certificate
  | generate_certificate_file
  | preview_certificate
  | health_check
  | test_endpoint.

#[export] Instance endpoint_eq_dec : EqDecision endpoint.
Proof. solve_decision. Defined.

Record rule := mk_rule { rule_path : pystr; rule_methods : list pystr; rule_endpoint : endpoint }.

(** [@app.route(path, methods=[...])], in the order of the decorators. *)
Definition url_map : list rule :=
  [mk_rule (lit "/generate-certificate") [lit "POST"] generate_certificate;
   mk_rule (lit "/generate-certificate-file") [lit "POST"] generate_certificate_file;
   mk_rule (lit "/preview-certificate") [lit "POST"] preview_certificate;
   mk_rule (lit "/health") [lit "GET"] health_check;
   mk_rule (lit "/api/test") [lit "POST"] test_endpoint].

(** The methods a rule accepts once Flask has added HEAD and OPTIONS. *)
Definition allowed_methods (r : rule) : list pystr :=
  rule_methods r ++
  (if bool_decide (lit "GET" ∈ rule_methods r) then [lit "HEAD"] else []) ++
  [lit "OPTIONS"].

Inductive routing :=
  | Endpoint (e : endpoint)
  | AutoOptions (allow : list pystr)
  | NotFound
  | MethodNotAllowed (allow : list pystr).

(** werkzeug's [MapAdapter.match] on the URL map, and Flask's automatic
    OPTIONS. *)
Definition route (method path : pystr) : routing :=
  match list_find (fun r => rule_path r = path) url_map with
  | None => NotFound
  | Some (_, r) =>
      if bool_decide (method ∈ allowed_methods r) then
        if bool_decide (method = lit "OPTIONS") then AutoOptions (allowed_methods r)
        else Endpoint (rule_endpoint r)
      else MethodNotAllowed (allowed_methods r)
  end.

(** ** Requests and responses *)

(** A request: its method, path, [Origin] header, and what
    [request.get_json()] returns or raises on it. *)
Record request := mk_request {
  method : pystr;
  path : pystr;
  origin : option pystr;
  json_body : res Api.payload }.

(** What the server sends. *)
Inductive answer :=
  | ViewAnswer (r : Api.response)
  | OptionsAnswer (allow : list pystr)
  | HttpError (code : N) (allow : list pystr)
  | HttpExceptionAnswer (e : exc)
  | DebuggerPage (e : exc)
  | InternalServerError.

Definition answer_status (a : answer) : option N :=
  match a with
  | ViewAnswer r => Some (Api.status_of r)
  | OptionsAnswer _ => Some 200
  | HttpError code _ => Some code
  | HttpExceptionAnswer _ => None
  | DebuggerPage _ | InternalServerError => Some 500
  end.

(** flask-cors's [Access-Control-Allow-Origin] with [CORS(app)]'s
    defaults. *)
Definition allow_origin (o : option pystr) : pystr :=
  match o with
  | Some origin => origin
  | None => lit "*"
  end.

Section App.

Context `{Pipeline.PdfRenderer}.

(** [cert_generator]'s configuration, [tempfile.gettempdir()],
    [os.linesep], and the arguments of [app.run]. *)
Variable gen : Config.generator.
Variable tmpdir : pystr.
Variable linesep : pystr.
Variable cfg : Main.run_config.

(** An exception escaping a view: Flask propagates it to the debugger
    when [debug] is on, and answers 500 otherwise; an [HTTPException] is
    its own answer. *)
Definition unhandled (e : exc) : answer :=
  match e with
  | HTTPException _ => HttpExceptionAnswer e
  | _ => if Main.debug cfg then DebuggerPage e else InternalServerError
  end.

(** The view of an endpoint, with the clock readings, random draws and
    temporary names of the request, on the file system. *)
Definition view (e : endpoint) (body : res Api.payload) (now now' : Clock.datetime)
    (rnd : list Z) (nm : nat -> pystr) (f : Pipeline.fs) : answer * Pipeline.fs :=
  match e with
  | generate_certificate =>
      let '(r, f') := Api.generate_certificate gen tmpdir linesep body now now' rnd nm f in
      (ViewAnswer r, f')
  | generate_certificate_file =>
      let '(r, f') := Api.generate_certificate_file gen tmpdir linesep body now now' rnd nm f in
      (ViewAnswer r, f')
  | preview_certificate => (ViewAnswer (Api.preview_certificate body now rnd), f)
  | health_check => (ViewAnswer (Api.health_check now), f)
  | test_endpoint =>
      match Api.test_endpoint body now with
      | Ok r => (ViewAnswer r, f)
      | Raise ex => (unhandled ex, f)
      end
  end.

Definition dispatch (req : request) (now now' : Clock.datetime) (rnd : list Z)
    (nm : nat -> pystr) (f : Pipeline.fs) : answer * Pipeline.fs :=
  match route (method req) (path req) with
  | NotFound => (HttpError 404 [], f)
  | MethodNotAllowed allow => (HttpError 405 allow, f)
  | AutoOptions allow => (OptionsAnswer allow, f)
  | Endpoint e => view e (json_body req) now now' rnd nm f
  end.

(** A request served: the answer, its CORS headers, and the file system
    after it. *)
Definition serve (req : request) (now now' : Clock.datetime) (rnd : list Z)
    (nm : nat -> pystr) (f : Pipeline.fs) : answer * list (pystr * pystr) * Pipeline.fs :=
  let '(a, f') := dispatch req now now' rnd nm f in
  match a with
  | DebuggerPage _ => (a, [], f')
  | _ => (a, [(lit "Access-Control-Allow-Origin", allow_origin (origin req))], f')
  end.

End App.

(** ** Routing *)

(** The routes, as the decorators and Flask's automatic HEAD give them. *)
Definition routes : list (pystr * pystr * endpoint) :=
  [(lit "POST", lit "/generate-certificate", generate_certificate);
   (lit "POST", lit "/generate-certificate-file", generate_certificate_file);
   (lit "POST", lit "/preview-certificate", preview_certificate);
   (lit "GET", lit "/health", health_check);
   (lit "HEAD", lit "/health", health_check);
   (lit "POST", lit "/api/test", test_endpoint)].

Lemma route_endpoint m p e : route m p = Endpoint e -> (m, p, e) ∈ routes.
Proof.
  unfold route. destruct (list_find _ url_map) as [[i r]|] eqn:Hf; [|discriminate].
  apply list_find_Some in Hf as (Hr & Hp & _). apply list_elem_of_lookup_2 in Hr.
  case_bool_decide as Hm; [|discriminate]. case_bool_decide as Ho; [discriminate|].
  intros [= <-]. subst p. unfold url_map in Hr.
  repeat (apply elem_of_cons in Hr as [->|Hr]); [..|by apply not_elem_of_nil in Hr];
    unfold allowed_methods in Hm; cbn [rule_methods rule_path rule_endpoint] in *;
    rewrite ?bool_decide_true, ?bool_decide_false in Hm by set_solver;
    repeat (apply elem_of_app in Hm as [Hm|Hm] || apply elem_of_cons in Hm as [->|Hm]);
    try (by apply not_elem_of_nil in Hm); try done;
    apply list_elem_of_In; cbn; tauto.
Qed.

(** Routing on a path that a rule of the map matches. *)
Lemma route_found m p i r :
  list_find (fun r => rule_path r = p) url_map = Some (i, r) ->
  route m p =
    if bool_decide (m ∈ allowed_methods r) then
      if bool_decide (m = lit "OPTIONS") then AutoOptions (allowed_methods r)
      else Endpoint (rule_endpoint r)
    else MethodNotAllowed (allowed_methods r).
Proof. unfold route. by intros ->. Qed.

(** Deciding the method among the literal method names. *)
Ltac methods_cases :=
  repeat case_bool_decide; subst; try reflexivity;
  repeat match goal with
  | H : _ ∈ _ :: _ |- _ => apply elem_of_cons in H as [H|H]
  | H : _ ∈ [] |- _ => by apply not_elem_of_nil in H
  | H : lit _ = lit _ |- _ => vm_compute in H; simplify_eq
  end;
  subst; try done; set_solver.

(** The routes a routed request with endpoint [e] can have come from. *)
Ltac routes_inv Hr :=
  unfold routes in Hr;
  repeat (apply elem_of_cons in Hr as [Hr|Hr];
          [inversion Hr; clear Hr;
           repeat match goal with
                  | E : method _ = _ |- _ => rewrite E in *; clear E
                  | E : path _ = _ |- _ => rewrite E in *; clear E
                  end|]);
  try (by apply not_elem_of_nil in Hr).

Section AppFacts.

Context `{Pipeline.PdfRenderer}.
Variable gen : Config.generator.
Variable tmpdir : pystr.
Variable linesep : pystr.
Variable cfg : Main.run_config.

(** ** Theorems *)

(** C19: the routing of every request, from the decorators: GET and HEAD
    on [/health] and POST on the four other routes reach their view;
    OPTIONS on a known path gets the automatic answer listing the path's
    methods; any other method on a known path is refused with 405 and that
    list; any other path is 404.  No other request reaches a view. *)
Theorem route_table m p :
  (p = lit "/health" ->
   route m p =
     if bool_decide (m ∈ [lit "GET"; lit "HEAD"]) then Endpoint health_check
     else if bool_decide (m = lit "OPTIONS") then AutoOptions [lit "GET"; lit "HEAD"; lit "OPTIONS"]
     else MethodNotAllowed [lit "GET"; lit "HEAD"; lit "OPTIONS"]) /\
  (forall e, (lit "POST", p, e) ∈ routes ->
   route m p =
     if bool_decide (m = lit "POST") then Endpoint e
     else if bool_decide (m = lit "OPTIONS") then AutoOptions [lit "POST"; lit "OPTIONS"]
     else MethodNotAllowed [lit "POST"; lit "OPTIONS"]) /\
  (p ∉ rule_path <$> url_map -> route m p = NotFound).
Proof.
  split; [|split].
  - intros ->. rewrite (route_found m _ 3 (mk_rule (lit "/health") [lit "GET"] health_check))
      by reflexivity.
    change (allowed_methods _) with [lit "GET"; lit "HEAD"; lit "OPTIONS"]. methods_cases.
  - intros e Hr. unfold routes in Hr.
    repeat (apply elem_of_cons in Hr as [Hr|Hr];
      [first [injection Hr as -> -> | injection Hr as Hm _ _; vm_compute in Hm; congruence];
       erewrite route_found by reflexivity;
       change (allowed_methods _) with [lit "POST"; lit "OPTIONS"]; cbn [rule_endpoint];
       methods_cases|]).
    by apply not_elem_of_nil in Hr.
  - intros Hp. unfold route. destruct (list_find _ url_map) as [[i r]|] eqn:Hf; [|done].
    apply list_find_Some in Hf as (Hr & <- & _). contradict Hp.
    apply list_elem_of_fmap_2, (list_elem_of_lookup_2 _ i), Hr.
Qed.

(** C14: only a POST to [/generate-certificate] or
    [/generate-certificate-file] can change the file system: the other
    views, the OPTIONS answers and the 404 and 405 answers leave it as
    they found it. *)
Theorem only_generating_posts_write req now now' rnd nm f :
  (dispatch gen tmpdir linesep cfg req now now' rnd nm f).2 <> f ->
  method req = lit "POST" /\
  (path req = lit "/generate-certificate" \/ path req = lit "/generate-certificate-file").
Proof.
  unfold dispatch. destruct (route _ _) as [e| | |] eqn:Hr; cbn [snd]; try (intros []; done).
  apply route_endpoint in Hr. unfold view. destruct e.
  - routes_inv Hr. intros _. split; [done|by left].
  - routes_inv Hr. intros _. split; [done|by right].
  - intros []; done.
  - intros []; done.
  - destruct (Api.test_endpoint _ _); intros []; done.
Qed.

(** C11: with the main block's [app.run(debug=True, host='0.0.0.0')], a
    POST to [/api/test] whose JSON body is a true number or [true] makes
    [len(data)] raise [TypeError] out of the view, and the server answers
    with the debugger's traceback page, on every network interface and
    without a CORS header. *)
Theorem test_endpoint_debugger_page v o now now' rnd nm f :
  truthy v = true -> (forall s, v <> VStr s) ->
  Main.host Main.app_run = lit "0.0.0.0" /\
  serve gen tmpdir linesep Main.app_run
    (mk_request (lit "POST") (lit "/api/test") o (Ok (Api.PScalar v))) now now' rnd nm f =
  (DebuggerPage (TypeError (lit "object of type '" ++ type_name v ++ lit "' has no len()")), [], f).
Proof.
  intros Hv Hs. split; [done|]. unfold serve, dispatch.
  replace (route _ _) with (Endpoint test_endpoint) by (vm_compute; reflexivity).
  unfold view, Api.test_endpoint. cbn [res_bind Api.payload_truthy]. cbn [json_body res_bind Api.payload_truthy]. rewrite Hv.
  destruct v as [s| | |]; [by destruct (Hs s)| | |discriminate]; reflexivity.
Qed.

(** C26: the debugger's page is the only answer without the CORS header,
    and it arises only from a POST to [/api/test] with [debug] on; every
    other answer, the 404, 405 and 500 pages included, carries
    [Access-Control-Allow-Origin] with the request's origin, or [*]. *)
Theorem debugger_page_only_from_test req now now' rnd nm f a hs f' :
  serve gen tmpdir linesep cfg req now now' rnd nm f = (a, hs, f') ->
  match a with
  | DebuggerPage _ =>
      hs = [] /\ Main.debug cfg = true /\ method req = lit "POST" /\ path req = lit "/api/test"
  | _ => hs = [(lit "Access-Control-Allow-Origin", allow_origin (origin req))]
  end.
Proof.
  unfold serve, dispatch. destruct (route _ _) as [e| | |] eqn:Hr;
    [|intros [= <- <- _]; done..].
  apply route_endpoint in Hr. unfold view. destruct e;
    try (destruct (Api.generate_certificate _ _ _ _ _ _ _ _ _));
    try (destruct (Api.generate_certificate_file _ _ _ _ _ _ _ _ _));
    try (intros [= <- <- _]; done).
  destruct (Api.test_endpoint _ _) as [r|ex]; [intros [= <- <- _]; done|].
  unfold unhandled. destruct ex; try (intros [= <- <- _]; done);
    destruct (Main.debug cfg) eqn:Hd; intros [= <- <- _]; try done;
    routes_inv Hr; split_and!; done.
Qed.

End AppFacts.

(** ** Witnesses *)

Local Abbreviation stub := (@Pipeline.pdfkit_renderer Pipeline.wk_stub_binary).
Local Abbreviation t0 := (Clock.mk_datetime 2024 3 15 14 30 0 0).

(** A request that leaks its temporary file (a lone surrogate in a value)
    changes the file system. *)
Lemma route_table_witness :
  route (lit "HEAD") (lit "/health") = Endpoint health_check /\
  route (lit "OPTIONS") (lit "/api/test") = AutoOptions [lit "POST"; lit "OPTIONS"] /\
  route (lit "GET") (lit "/preview-certificate") = MethodNotAllowed [lit "POST"; lit "OPTIONS"] /\
  route (lit "POST") (lit "/") = NotFound.
Proof.
  split; [|split; [|split]].
  - rewrite (proj1 (route_table (lit "HEAD") (lit "/health")) eq_refl). reflexivity.
  - rewrite (proj1 (proj2 (route_table (lit "OPTIONS") (lit "/api/test"))) test_endpoint
      ltac:(apply (bool_decide_unpack _); vm_compute; reflexivity)). reflexivity.
  - rewrite (proj1 (proj2 (route_table (lit "GET") (lit "/preview-certificate"))) preview_certificate
      ltac:(apply (bool_decide_unpack _); vm_compute; reflexivity)). reflexivity.
  - apply (proj2 (proj2 (route_table (lit "POST") (lit "/")))).
    apply (bool_decide_unpack _). vm_compute. reflexivity.
Defined.

Lemma only_generating_posts_write_witness :
  let req := mk_request (lit "POST") (lit "/generate-certificate") None
               (Ok (Api.PDict (<[lit "notes" := VStr [0xD800]]> Composer.sample_data))) in
  (dispatch (H := stub) Pipeline.linux_generator (lit "/tmp") [10] Main.app_run req t0 t0
     Composer.sample_rnd Pipeline.sample_names Pipeline.sample_fs).2 !! lit "/tmp/tmpname1.html" = Some [] /\
  method req = lit "POST" /\
  (path req = lit "/generate-certificate" \/ path req = lit "/generate-certificate-file").
Proof.
  intros req.
  assert (E : (dispatch (H := stub) Pipeline.linux_generator (lit "/tmp") [10] Main.app_run req t0 t0
     Composer.sample_rnd Pipeline.sample_names Pipeline.sample_fs).2 !! lit "/tmp/tmpname1.html" = Some [])
    by (subst req; vm_compute; reflexivity).
  split; [exact E|].
  apply (only_generating_posts_write (H := stub) Pipeline.linux_generator (lit "/tmp") [10]
           Main.app_run req t0 t0 Composer.sample_rnd Pipeline.sample_names Pipeline.sample_fs).
  intros Ef. assert (Hn : Pipeline.sample_fs !! lit "/tmp/tmpname1.html" = None) by reflexivity.
  rewrite <- Ef, E in Hn. discriminate.
Defined.

Lemma test_endpoint_debugger_page_witness :
  Main.host Main.app_run = lit "0.0.0.0" /\
  serve (H := stub) Pipeline.linux_generator (lit "/tmp") [10] Main.app_run
    (mk_request (lit "POST") (lit "/api/test") (Some (lit "https://example.org")) (Ok (Api.PScalar (VInt 1))))
    t0 t0 Composer.sample_rnd Pipeline.sample_names Pipeline.sample_fs =
  (DebuggerPage (TypeError (lit "object of type 'int' has no len()")), [], Pipeline.sample_fs).
Proof.
  apply (test_endpoint_debugger_page (H := stub) Pipeline.linux_generator (lit "/tmp") [10] (VInt 1));
    [reflexivity | discriminate].
Defined.

Lemma debugger_page_only_from_test_witness :
  serve (H := stub) Pipeline.linux_generator (lit "/tmp") [10] Main.app_run
    (mk_request (lit "GET") (lit "/generate-certificate") (Some (lit "https://example.org")) (Ok (Api.PDict ∅)))
    t0 t0 Composer.sample_rnd Pipeline.sample_names Pipeline.sample_fs =
  (HttpError 405 [lit "POST"; lit "OPTIONS"],
   [(lit "Access-Control-Allow-Origin", lit "https://example.org")], Pipeline.sample_fs) /\
  [(lit "Access-Control-Allow-Origin", lit "https://example.org")] =
  [(lit "Access-Control-Allow-Origin", allow_origin (Some (lit "https://example.org")))].
Proof.
  assert (E : serve (H := stub) Pipeline.linux_generator (lit "/tmp") [10] Main.app_run
    (mk_request (lit "GET") (lit "/generate-certificate") (Some (lit "https://example.org")) (Ok (Api.PDict ∅)))
    t0 t0 Composer.sample_rnd Pipeline.sample_names Pipeline.sample_fs =
    (HttpError 405 [lit "POST"; lit "OPTIONS"],
     [(lit "Access-Control-Allow-Origin", lit "https://example.org")], Pipeline.sample_fs))
    by (vm_compute; reflexivity).
  split; [exact E|].
  exact (debugger_page_only_from_test (H := stub) Pipeline.linux_generator (lit "/tmp") [10]
           Main.app_run _ t0 t0 Composer.sample_rnd Pipeline.sample_names Pipeline.sample_fs _ _ _ E).
Defined.

End Server.
